(** * TaskFlow (src/app.js): the command layer, the filter engine, the
    realtime bridge, export/import, start-up, search and the labels of
    rendering of [class TaskFlowApp], embedded in Rocq.

    The file has these parts, definitions first: the embedding of the
    command layer; a reference browser and the sample data, to run the
    methods on; the embedding of loading, searching and rendering; the
    vocabulary in which the properties are stated; the properties and
    their proofs.

    Conventions of the embedding.
    - JavaScript strings are [string]s holding ASCII text, so that [.length]
      is [String.length] and [toLowerCase] only touches [A-Z].
    - The objects kept in [this.tasks], [this.columns], [this.users] and
      [this.activities] are records; a property that some objects lack
      ([description], [assigneeId], [dueDate], [taskId]) is an [option].
    - [this] together with the browser state the methods touch
      ([localStorage], the notification area, the inline form errors, the
      files offered for download) is the record [World]; methods are
      computations in a state-and-exception monad over it, because a
      JavaScript exception leaves earlier mutations in place.
    - What the browser provides (clock, [Date], [Math.random], [JSON],
      storage quota) is a [Host] the methods are parameterised by.
    - Rendering only reads the store and the clock.  The display calls a
      command ends with ([renderCurrentView], [renderActivityFeed]) are not
      followed, and the readings of the clock they take are not counted;
      [renderKanbanView] is followed card by card.  DOM nodes the methods
      look up by id are taken to exist. *)

From Stdlib Require Import ZArith String Ascii List Bool Lia.
From Stdlib Require Import Decimal DecimalPos DecimalString DecimalZ.
From Stdlib Require Import HexadecimalString.
From stdpp Require Import base option list strings gmap pretty.

Local Open Scope string_scope.
Local Open Scope Z_scope.
Local Open Scope list_scope.

(** ** JavaScript string methods used by app.js *)

Module JsString.

(** [c] is one of the ASCII white-space characters [trim] removes. *)
Definition is_space (c : ascii) : bool :=
  let n := nat_of_ascii c in
  ((9 <=? n)%nat && (n <=? 13)%nat) || (n =? 32)%nat.

Definition lower_char (c : ascii) : ascii :=
  let n := nat_of_ascii c in
  if ((65 <=? n)%nat && (n <=? 90)%nat) then ascii_of_nat (n + 32) else c.

(** [s.toLowerCase()] *)
Fixpoint toLowerCase (s : string) : string :=
  match s with
  | EmptyString => EmptyString
  | String c s' => String (lower_char c) (toLowerCase s')
  end.

(** [s.includes(sub)]: [sub] occurs in [s] at some position. *)
Fixpoint includes (s sub : string) : bool :=
  String.prefix sub s ||
  match s with
  | EmptyString => false
  | String _ s' => includes s' sub
  end.

Fixpoint drop (n : nat) (s : string) : string :=
  match n, s with
  | O, _ => s
  | S _, EmptyString => EmptyString
  | S n', String _ s' => drop n' s'
  end.

(** [s.replace(pat, rep)] with a string pattern: only the first
    occurrence of [pat] is replaced. *)
Fixpoint replace (pat rep s : string) : string :=
  if String.prefix pat s then rep +:+ drop (String.length pat) s
  else match s with
       | EmptyString => EmptyString
       | String c s' => String c (replace pat rep s')
       end.

Fixpoint trimStart (s : string) : string :=
  match s with
  | EmptyString => EmptyString
  | String c s' => if is_space c then trimStart s' else s
  end.

Fixpoint trimEnd (s : string) : string :=
  match s with
  | EmptyString => EmptyString
  | String c s' =>
      match trimEnd s' with
      | EmptyString => if is_space c then EmptyString else String c EmptyString
      | r => String c r
      end
  end.

(** [s.trim()] *)
Definition trim (s : string) : string := trimEnd (trimStart s).

(** [s.split(sep)] for a one-character separator; never the empty list. *)
Fixpoint split (sep : ascii) (s : string) : list string :=
  match s with
  | EmptyString => [EmptyString]
  | String c s' =>
      if Ascii.eqb c sep then EmptyString :: split sep s'
      else match split sep s' with
           | piece :: rest => String c piece :: rest
           | [] => [String c EmptyString]
           end
  end.

(** A string used as a condition: only the empty string is falsy. *)
Definition truthy (s : string) : bool :=
  match s with EmptyString => false | _ => true end.

(** [v || d] where [v] is the [.value] of an element that may be missing. *)
Definition or_default (v : option string) (d : string) : string :=
  match v with
  | Some s => if truthy s then s else d
  | None => d
  end.

(** [n.toString(16)] for a non-negative integer. *)
Definition toString16 (n : N) : string :=
  HexadecimalString.NilZero.string_of_uint (N.to_hex_uint n).

End JsString.

(** ** JSON values

    What [JSON.parse] returns and [JSON.stringify] consumes.  Numbers are
    the integers the store holds (a column's [order]); an object lists its
    properties in insertion order. *)

#[warnings="-register-all"] Inductive json : Type :=
| JNull
| JBool (b : bool)
| JNum (n : Z)
| JStr (s : string)
| JArr (items : list json)
| JObj (props : list (string * json)).

(** [o[k]] for an object with the property list [o]. *)
Definition prop (k : string) (o : list (string * json)) : option json :=
  snd <$> List.find (fun p => String.eqb (fst p) k) o.

Definition str_prop (k : string) (o : list (string * json)) : option string :=
  match prop k o with Some (JStr s) => Some s | _ => None end.

(** A property that may be missing (or [null]). *)
Definition opt_str_prop (k : string) (o : list (string * json))
  : option (option string) :=
  match prop k o with
  | None | Some JNull => Some None
  | Some (JStr s) => Some (Some s)
  | Some _ => None
  end.

Definition opt_field (k : string) (v : option string) : list (string * json) :=
  match v with Some s => [(k, JStr s)] | None => [] end.

Definition json_str (j : json) : option string :=
  match j with JStr s => Some s | _ => None end.

(** ** The data model (the object literals of [initializeData])

    For each kind of object, [to_json] is the value [JSON.stringify] sees
    (properties in the order of the literals in [initializeData], a missing
    property left out), and [of_json] reads a parsed object as a record:
    the code stores parsed values as they are, and the embedding follows it
    where they are records of the data model. *)

Module User.
Record t : Type := mk {
  id : string; name : string; email : string; avatar : string;
  role : string; isOnline : bool; color : string }.

Definition to_json (u : t) : json :=
  JObj [("id", JStr (id u)); ("name", JStr (name u));
        ("email", JStr (email u)); ("avatar", JStr (avatar u));
        ("role", JStr (role u)); ("isOnline", JBool (isOnline u));
        ("color", JStr (color u))].

Definition of_json (j : json) : option t :=
  match j with
  | JObj o =>
      i ← str_prop "id" o; n ← str_prop "name" o; e ← str_prop "email" o;
      a ← str_prop "avatar" o; r ← str_prop "role" o;
      b ← match prop "isOnline" o with Some (JBool b) => Some b | _ => None end;
      c ← str_prop "color" o;
      Some (mk i n e a r b c)
  | _ => None
  end.
End User.

Module Column.
Record t : Type := mk {
  id : string; name : string; order : Z; color : string }.

Definition to_json (c : t) : json :=
  JObj [("id", JStr (id c)); ("name", JStr (name c));
        ("order", JNum (order c)); ("color", JStr (color c))].

Definition of_json (j : json) : option t :=
  match j with
  | JObj o =>
      i ← str_prop "id" o; n ← str_prop "name" o;
      k ← match prop "order" o with Some (JNum k) => Some k | _ => None end;
      c ← str_prop "color" o;
      Some (mk i n k c)
  | _ => None
  end.
End Column.

Module Task.
Record t : Type := mk {
  id : string;
  title : string;
  description : option string;
  status : string;
  priority : string;
  assigneeId : option string;
  dueDate : option string;
  createdAt : string;
  updatedAt : string;
  tags : list string;
  columnId : string }.

Definition to_json (x : t) : json :=
  JObj ([("id", JStr (id x)); ("title", JStr (title x))]
        ++ opt_field "description" (description x)
        ++ [("status", JStr (status x)); ("priority", JStr (priority x))]
        ++ opt_field "assigneeId" (assigneeId x)
        ++ opt_field "dueDate" (dueDate x)
        ++ [("createdAt", JStr (createdAt x));
            ("updatedAt", JStr (updatedAt x));
            ("tags", JArr (JStr <$> tags x));
            ("columnId", JStr (columnId x))]).

Definition of_json (j : json) : option t :=
  match j with
  | JObj o =>
      i ← str_prop "id" o; ti ← str_prop "title" o;
      d ← opt_str_prop "description" o;
      s ← str_prop "status" o; p ← str_prop "priority" o;
      a ← opt_str_prop "assigneeId" o; due ← opt_str_prop "dueDate" o;
      cr ← str_prop "createdAt" o; up ← str_prop "updatedAt" o;
      tg ← match prop "tags" o with
           | Some (JArr l) => mapM json_str l
           | _ => None
           end;
      c ← str_prop "columnId" o;
      Some (mk i ti d s p a due cr up tg c)
  | _ => None
  end.

(** [task.columnId = c; task.status = s; task.updatedAt = u] *)
Definition set_placement (c s u : string) (x : t) : t :=
  mk (id x) (title x) (description x) s (priority x) (assigneeId x)
     (dueDate x) (createdAt x) u (tags x) c.
End Task.

(** The object literal [taskData] that [saveTask] builds from the form. *)
Module TaskData.
Record t : Type := mk {
  title : string;
  description : string;
  priority : string;
  assigneeId : string;
  dueDate : string;
  columnId : string;
  tags : list string;
  updatedAt : string }.

(** [Object.assign(task, taskData)]: the eight properties of [taskData]
    overwrite those of [task]; [id], [status] and [createdAt] stay. *)
Definition assign (task : Task.t) (d : t) : Task.t :=
  Task.mk (Task.id task) (title d) (Some (description d)) (Task.status task)
    (priority d) (Some (assigneeId d)) (Some (dueDate d))
    (Task.createdAt task) (updatedAt d) (tags d) (columnId d).

(** [{ id: i, ...taskData, status: s, createdAt: c }] *)
Definition spread (i : string) (d : t) (s c : string) : Task.t :=
  Task.mk i (title d) (Some (description d)) s (priority d)
    (Some (assigneeId d)) (Some (dueDate d)) c (updatedAt d) (tags d)
    (columnId d).
End TaskData.

Module Activity.
Record t : Type := mk {
  id : string; type : string; message : string; userId : string;
  taskId : option string; timestamp : string }.

Definition to_json (a : t) : json :=
  JObj [("id", JStr (id a)); ("type", JStr (type a));
        ("message", JStr (message a)); ("userId", JStr (userId a));
        ("taskId", match taskId a with Some i => JStr i | None => JNull end);
        ("timestamp", JStr (timestamp a))].

Definition of_json (j : json) : option t :=
  match j with
  | JObj o =>
      i ← str_prop "id" o; ty ← str_prop "type" o;
      m ← str_prop "message" o; u ← str_prop "userId" o;
      tk ← opt_str_prop "taskId" o; ts ← str_prop "timestamp" o;
      Some (mk i ty m u tk ts)
  | _ => None
  end.
End Activity.

(** An array of records, as a JSON value and back. *)
Definition array_to_json {A} (enc : A → json) (l : list A) : json :=
  JArr (enc <$> l).

Definition array_of_json {A} (dec : json → option A) (j : json)
  : option (list A) :=
  match j with JArr l => mapM dec l | _ => None end.

(** [this.filters] *)
Module Filters.
Record t : Type := mk {
  priority : string; assignee : string; search : string }.
End Filters.

(** A call of [showNotification(title, message, type)]. *)
Module Notification.
Record t : Type := mk {
  title : string; message : string; type : string }.
End Notification.

(** A file offered for download: the [download] name of the link and the
    text of the blob. *)
Module Download.
Record t : Type := mk {
  name : string; content : string }.
End Download.

(** ** The browser

    [clock k] is the [k]-th reading of the system clock (milliseconds since
    the epoch) since the page was loaded: every [new Date()] and
    [Date.now()] takes the next reading.  [random k] is the [k]-th value of
    [Math.floor(Math.random() * 16777215)].  [parseDate s] is the time value
    of [new Date(s)], [None] for an invalid date; [startOfDay t] is [t] after
    [setHours(0, 0, 0, 0)].  [JSON_parse] is [None] where [JSON.parse]
    throws.  [setItem_ok] tells whether [localStorage.setItem] succeeds
    (it throws when the quota is exceeded). *)

Record Host : Type := mkHost {
  clock : nat → Z;
  random : nat → N;
  toISOString : Z → string;
  parseDate : string → option Z;
  startOfDay : Z → Z;
  JSON_stringify : nat → json → string;
  JSON_parse : string → option json;
  setItem_ok : gmap string string → string → string → bool }.

(** ** The application object and the browser state around it

    [currentUser] to [isInitialized] are the fields of [this] the methods
    use ([currentUser] is [None] for [null] and [undefined]).
    [notifications] lists the calls of [showNotification], oldest first;
    [formErrors] is what the [<field>-error] elements of the task form
    show; [downloads] lists the files offered for download; [clockReads]
    and [randomReads] count the readings taken of the clock and of
    [Math.random]. *)

Record World : Type := mkWorld {
  currentUser : option User.t;
  tasks : list Task.t;
  users : list User.t;
  columns : list Column.t;
  activities : list Activity.t;
  filters : Filters.t;
  isInitialized : bool;
  localStorage : gmap string string;
  notifications : list Notification.t;
  formErrors : gmap string string;
  downloads : list Download.t;
  clockReads : nat;
  randomReads : nat }.

Definition set_tasks (v : list Task.t) (w : World) : World :=
  mkWorld (currentUser w) v (users w) (columns w) (activities w) (filters w)
    (isInitialized w) (localStorage w) (notifications w) (formErrors w)
    (downloads w) (clockReads w) (randomReads w).

Definition set_users (v : list User.t) (w : World) : World :=
  mkWorld (currentUser w) (tasks w) v (columns w) (activities w) (filters w)
    (isInitialized w) (localStorage w) (notifications w) (formErrors w)
    (downloads w) (clockReads w) (randomReads w).

Definition set_columns (v : list Column.t) (w : World) : World :=
  mkWorld (currentUser w) (tasks w) (users w) v (activities w) (filters w)
    (isInitialized w) (localStorage w) (notifications w) (formErrors w)
    (downloads w) (clockReads w) (randomReads w).

Definition set_activities (v : list Activity.t) (w : World) : World :=
  mkWorld (currentUser w) (tasks w) (users w) (columns w) v (filters w)
    (isInitialized w) (localStorage w) (notifications w) (formErrors w)
    (downloads w) (clockReads w) (randomReads w).

Definition set_localStorage (v : gmap string string) (w : World) : World :=
  mkWorld (currentUser w) (tasks w) (users w) (columns w) (activities w)
    (filters w) (isInitialized w) v (notifications w) (formErrors w)
    (downloads w) (clockReads w) (randomReads w).

Definition set_notifications (v : list Notification.t) (w : World) : World :=
  mkWorld (currentUser w) (tasks w) (users w) (columns w) (activities w)
    (filters w) (isInitialized w) (localStorage w) v (formErrors w)
    (downloads w) (clockReads w) (randomReads w).

Definition set_formErrors (v : gmap string string) (w : World) : World :=
  mkWorld (currentUser w) (tasks w) (users w) (columns w) (activities w)
    (filters w) (isInitialized w) (localStorage w) (notifications w) v
    (downloads w) (clockReads w) (randomReads w).

Definition set_downloads (v : list Download.t) (w : World) : World :=
  mkWorld (currentUser w) (tasks w) (users w) (columns w) (activities w)
    (filters w) (isInitialized w) (localStorage w) (notifications w)
    (formErrors w) v (clockReads w) (randomReads w).

Definition set_clockReads (v : nat) (w : World) : World :=
  mkWorld (currentUser w) (tasks w) (users w) (columns w) (activities w)
    (filters w) (isInitialized w) (localStorage w) (notifications w)
    (formErrors w) (downloads w) v (randomReads w).

Definition set_randomReads (v : nat) (w : World) : World :=
  mkWorld (currentUser w) (tasks w) (users w) (columns w) (activities w)
    (filters w) (isInitialized w) (localStorage w) (notifications w)
    (formErrors w) (downloads w) (clockReads w) v.

(** ** Methods as computations

    A method run from a world ends normally with a value or abruptly with
    an exception; either way it leaves a world behind.  [Untyped] ends a
    run at the point where the store would receive a parsed JSON value that
    is not an array of records of the data model: the embedding does not
    follow such a run further. *)

Inductive JsError : Type := TypeError | SyntaxError.

Inductive Completion (A : Type) : Type :=
| Normal (a : A)
| Throw (e : JsError)
| Untyped.
Arguments Normal {A} a.
Arguments Throw {A} e.
Arguments Untyped {A}.

Definition M (A : Type) : Type := World → Completion A * World.

#[global] Instance M_ret : MRet M := λ A a w, (Normal a, w).

#[global] Instance M_bind : MBind M := λ A B f c w,
  match c w with
  | (Normal a, w') => f a w'
  | (Throw e, w') => (Throw e, w')
  | (Untyped, w') => (Untyped, w')
  end.

Definition throw {A} (e : JsError) : M A := λ w, (Throw e, w).

(** [try { body } catch (error) { handler }] *)
Definition try_catch {A} (body : M A) (handler : JsError → M A) : M A :=
  λ w, match body w with
       | (Normal a, w') => (Normal a, w')
       | (Throw e, w') => handler e w'
       | (Untyped, w') => (Untyped, w')
       end.

(** The typed view of a parsed value, where the code assigns it as is. *)
Definition typed {A} (v : option A) : M A :=
  λ w, match v with Some a => (Normal a, w) | None => (Untyped, w) end.

Definition gets {A} (f : World → A) : M A := λ w, (Normal (f w), w).
Definition modify (f : World → World) : M unit := λ w, (Normal tt, f w).

(** The world a computation leaves behind. *)
Definition exec {A} (c : M A) (w : World) : World := snd (c w).

(** [xs.find(p)] is [List.find]; an assignment to a property of the object
    it returned changes that element of the array in place. *)
Fixpoint update_first {A} (p : A → bool) (f : A → A) (l : list A) : list A :=
  match l with
  | [] => []
  | x :: l' => if p x then f x :: l' else x :: update_first p f l'
  end.

(** The values of the form controls [saveTask] reads: [dataset_taskId] is
    [form.dataset.taskId]; each other field is the [.value] of the element
    with that id, [None] when [getElementById] finds no such element. *)
Record TaskForm : Type := mkTaskForm {
  dataset_taskId : option string;
  task_title : option string;
  task_description : option string;
  task_priority : option string;
  task_assignee : option string;
  task_due_date : option string;
  task_column : option string;
  task_tags : option string }.

(** A [storage] event of another tab. *)
Record StorageEvent : Type := mkStorageEvent {
  key : option string;
  newValue : option string }.

(** The double-quote character of the message templates. *)
Definition dq : string := String (ascii_of_nat 34) EmptyString.

(** [${x}] for a value that may be [undefined]. *)
Definition interpolate (x : option string) : string :=
  match x with Some s => s | None => "undefined" end.

Definition has_id {A} (get : A → string) (i : string) (x : A) : bool :=
  String.eqb (get x) i.

Section Methods.

Variable h : Host.

(** [new Date()] / [Date.now()]: the next reading of the clock. *)
Definition now : M Z :=
  λ w, (Normal (clock h (clockReads w)), set_clockReads (S (clockReads w)) w).

(** [Math.floor(Math.random() * 16777215)] *)
Definition random16777215 : M N :=
  λ w, (Normal (random h (randomReads w)),
        set_randomReads (S (randomReads w)) w).

(** [this.currentUser], about to be dereferenced. *)
Definition this_currentUser : M User.t :=
  λ w, match currentUser w with
       | Some u => (Normal u, w)
       | None => (Throw TypeError, w)
       end.

(** [JSON.parse(text)] *)
Definition parse (text : string) : M json :=
  λ w, match JSON_parse h text with
       | Some j => (Normal j, w)
       | None => (Throw SyntaxError, w)
       end.

(** [v[k]] for a parsed value [v]: [null] has no properties to read. *)
Definition get_prop (v : json) (k : string) : M (option json) :=
  match v with
  | JNull => throw TypeError
  | JObj o => mret (prop k o)
  | _ => mret None
  end.

(** [saveToStorage(key, data)]: a failing [setItem] is caught and logged. *)
Definition saveToStorage (k : string) (data : json) : M unit :=
  modify (λ w,
    let text := JSON_stringify h 0 data in
    set_localStorage
      (if setItem_ok h (localStorage w) k text
       then <[k := text]> (localStorage w)
       else localStorage w) w).

Definition save_tasks : M unit :=
  ts ← gets tasks; saveToStorage "taskflow-tasks" (array_to_json Task.to_json ts).

Definition save_columns : M unit :=
  cs ← gets columns;
  saveToStorage "taskflow-columns" (array_to_json Column.to_json cs).

Definition save_users : M unit :=
  us ← gets users; saveToStorage "taskflow-users" (array_to_json User.to_json us).

Definition save_activities : M unit :=
  acts ← gets activities;
  saveToStorage "taskflow-activities" (array_to_json Activity.to_json acts).

(** [showNotification(title, message, type)] *)
Definition showNotification (title message type : string) : M unit :=
  modify (λ w,
    set_notifications (notifications w ++ [Notification.mk title message type]) w).

(** Rendering reads the store and writes the page only. *)
Definition renderCurrentView : M unit := mret tt.
Definition renderActivityFeed : M unit := mret tt.

Definition showFormErrors (errors : gmap string string) : M unit :=
  modify (set_formErrors errors).

Definition clearFormErrors : M unit := modify (set_formErrors ∅).

Definition closeTaskModal : M unit := clearFormErrors.

(** [addActivity(type, message, taskId)] *)
Definition addActivity (type message : string) (taskId : option string)
  : M unit :=
  t1 ← now;
  u ← this_currentUser;
  t2 ← now;
  let activity :=
    Activity.mk ("activity-" +:+ pretty t1) type message (User.id u) taskId
      (toISOString h t2) in
  modify (λ w, set_activities (activity :: activities w) w);;
  save_activities;;
  renderActivityFeed.

(** [moveTask(taskId, newColumnId)] *)
Definition moveTask (taskId newColumnId : string) : M unit :=
  w ← gets id;
  match List.find (has_id Task.id taskId) (tasks w),
        List.find (has_id Column.id newColumnId) (columns w) with
  | Some task, Some newColumn =>
      let oldColumnName :=
        Column.name <$>
          List.find (has_id Column.id (Task.columnId task)) (columns w) in
      t ← now;
      modify (λ w, set_tasks
        (update_first (has_id Task.id taskId)
           (Task.set_placement newColumnId
              (JsString.replace "col-" EmptyString newColumnId)
              (toISOString h t))
           (tasks w)) w);;
      save_tasks;;
      u ← this_currentUser;
      addActivity "task_moved"
        (User.name u +:+ " moved " +:+ dq +:+ Task.title task +:+ dq +:+
         " from " +:+ interpolate oldColumnName +:+ " to " +:+
         Column.name newColumn)
        (Some taskId);;
      renderCurrentView;;
      showNotification "Task Moved"
        (dq +:+ Task.title task +:+ dq +:+ " moved to " +:+
         Column.name newColumn)
        "success"
  | _, _ => mret tt
  end.

(** The [drop] listener of a column: [draggedTask] is the object
    [this.draggedTask] refers to when the event fires, [columnId] the
    [data-column-id] of the column dropped on. *)
Definition drop (draggedTask : option Task.t) (columnId : string) : M unit :=
  match draggedTask with
  | Some d =>
      if negb (String.eqb (Task.columnId d) columnId)
      then moveTask (Task.id d) columnId
      else mret tt
  | None => mret tt
  end.

(** [toggleTaskCompletion(taskId)] *)
Definition toggleTaskCompletion (taskId : string) : M unit :=
  w ← gets id;
  match List.find (has_id Task.id taskId) (tasks w) with
  | Some task =>
      let newStatus :=
        if String.eqb (Task.status task) "done" then "todo" else "done" in
      let newColumnId :=
        if String.eqb newStatus "done" then "col-done" else "col-todo" in
      t ← now;
      modify (λ w, set_tasks
        (update_first (has_id Task.id taskId)
           (Task.set_placement newColumnId newStatus (toISOString h t))
           (tasks w)) w);;
      save_tasks;;
      u ← this_currentUser;
      addActivity "task_updated"
        (User.name u +:+ " marked " +:+ dq +:+ Task.title task +:+ dq +:+
         " as " +:+ newStatus)
        (Some taskId);;
      renderCurrentView;;
      showNotification "Task Updated"
        (dq +:+ Task.title task +:+ dq +:+ " marked as " +:+ newStatus)
        "success"
  | None => mret tt
  end.

(** [validateTaskForm(taskData)]: the map from field name to message. *)
Definition validateTaskForm (taskData : TaskData.t) : M (gmap string string) :=
  let errors : gmap string string := ∅ in
  let errors :=
    if negb (JsString.truthy (TaskData.title taskData))
    then <["title" := "Task title is required"]> errors
    else if (100 <? String.length (TaskData.title taskData))%nat
    then <["title" := "Task title must be 100 characters or less"]> errors
    else errors in
  let errors :=
    if JsString.truthy (TaskData.description taskData)
       && (500 <? String.length (TaskData.description taskData))%nat
    then <["description" := "Description must be 500 characters or less"]> errors
    else errors in
  errors ←
    (if JsString.truthy (TaskData.dueDate taskData)
     then
       t ← now;
       let today := startOfDay h t in
       match parseDate h (TaskData.dueDate taskData) with
       | Some dueDate =>
           if (dueDate <? today)%Z
           then mret (<["dueDate" := "Due date cannot be in the past"]> errors)
           else mret errors
       | None => mret errors
       end
     else mret errors);
  let errors :=
    if (10 <? length (TaskData.tags taskData))%nat
    then <["tags" := "Maximum 10 tags allowed"]> errors
    else errors in
  mret errors.

(** The [taskData] literal of [saveTask], given the reading [t] of the
    clock taken for [updatedAt]. *)
Definition taskData_of_form (form : TaskForm) (t : Z) : TaskData.t :=
  TaskData.mk
    (JsString.trim (JsString.or_default (task_title form) EmptyString))
    (JsString.trim (JsString.or_default (task_description form) EmptyString))
    (JsString.or_default (task_priority form) "medium")
    (JsString.or_default (task_assignee form) EmptyString)
    (JsString.or_default (task_due_date form) EmptyString)
    (JsString.or_default (task_column form) "col-backlog")
    (List.filter JsString.truthy
       (JsString.trim <$>
          JsString.split ","
            (JsString.or_default (task_tags form) EmptyString)))
    (toISOString h t).

(** [saveTask()]; [form] is [None] when the page has no [task-form]. *)
Definition saveTask (form : option TaskForm) : M unit :=
  match form with
  | None => mret tt
  | Some form =>
      let taskId := dataset_taskId form in
      let isEditing :=
        match taskId with Some i => JsString.truthy i | None => false end in
      t ← now;
      let taskData := taskData_of_form form t in
      errors ← validateTaskForm taskData;
      if (0 <? size errors)%nat then
        showFormErrors errors;;
        showNotification "Validation Error" "Please fix the errors in the form"
          "error"
      else
        clearFormErrors;;
        try_catch
          ((if isEditing then
              w ← gets id;
              match List.find (has_id Task.id (default EmptyString taskId))
                      (tasks w) with
              | Some task =>
                  modify (λ w, set_tasks
                    (update_first (has_id Task.id (default EmptyString taskId))
                       (λ task, TaskData.assign task taskData) (tasks w)) w);;
                  u ← this_currentUser;
                  addActivity "task_updated"
                    (User.name u +:+ " updated " +:+ dq +:+
                     TaskData.title taskData +:+ dq)
                    taskId;;
                  showNotification "Task Updated"
                    (dq +:+ TaskData.title taskData +:+ dq +:+
                     " has been updated")
                    "success"
              | None => mret tt
              end
            else
              t1 ← now;
              t2 ← now;
              let newTask :=
                TaskData.spread ("task-" +:+ pretty t1) taskData
                  (JsString.replace "col-" EmptyString
                     (TaskData.columnId taskData))
                  (toISOString h t2) in
              modify (λ w, set_tasks (tasks w ++ [newTask]) w);;
              u ← this_currentUser;
              addActivity "task_created"
                (User.name u +:+ " created " +:+ dq +:+ Task.title newTask +:+ dq)
                (Some (Task.id newTask));;
              showNotification "Task Created"
                (dq +:+ Task.title newTask +:+ dq +:+ " has been created")
                "success");;
           save_tasks;;
           renderCurrentView;;
           closeTaskModal)
          (λ _, showNotification "Error"
                  "Failed to save task. Please try again." "error")
  end.

(** [addColumn()]; [name] is what [prompt] returned, [None] for [null]. *)
Definition addColumn (name : option string) : M unit :=
  match name with
  | Some name =>
      if JsString.truthy name && JsString.truthy (JsString.trim name) then
        t ← now;
        n ← gets (λ w, length (columns w));
        r ← random16777215;
        let newColumn :=
          Column.mk ("col-" +:+ pretty t) (JsString.trim name) (Z.of_nat n)
            ("#" +:+ JsString.toString16 r) in
        modify (λ w, set_columns (columns w ++ [newColumn]) w);;
        save_columns;;
        renderCurrentView;;
        showNotification "Column Added"
          (dq +:+ name +:+ dq +:+ " column has been added") "success"
      else mret tt
  | None => mret tt
  end.

(** The callback [getFilteredTasks] passes to [filter]. *)
Definition matchesFilters (f : Filters.t) (task : Task.t) : bool :=
  let matchesPriority :=
    negb (JsString.truthy (Filters.priority f))
    || String.eqb (Task.priority task) (Filters.priority f) in
  let matchesAssignee :=
    negb (JsString.truthy (Filters.assignee f))
    || match Task.assigneeId task with
       | Some a => String.eqb a (Filters.assignee f)
       | None => false
       end in
  let matchesSearch :=
    negb (JsString.truthy (Filters.search f))
    || JsString.includes (JsString.toLowerCase (Task.title task))
         (JsString.toLowerCase (Filters.search f))
    || match Task.description task with
       | Some d =>
           JsString.truthy d
           && JsString.includes (JsString.toLowerCase d)
                (JsString.toLowerCase (Filters.search f))
       | None => false
       end in
  matchesPriority && matchesAssignee && matchesSearch.

(** [getFilteredTasks()] *)
Definition getFilteredTasks : M (list Task.t) :=
  w ← gets id;
  mret (List.filter (matchesFilters (filters w)) (tasks w)).

Definition key_is (event : StorageEvent) (k : string) : bool :=
  match key event with Some k' => String.eqb k' k | None => false end.

(** [handleRealtimeUpdate(event)] *)
Definition handleRealtimeUpdate (event : StorageEvent) : M unit :=
  w ← gets id;
  if negb (isInitialized w) then mret tt
  else
    try_catch
      ((if key_is event "taskflow-tasks" then
          v ← parse (JsString.or_default (newValue event) "[]");
          ts ← typed (array_of_json Task.of_json v);
          modify (set_tasks ts);;
          renderCurrentView;;
          showNotification "Real-time Update"
            "Tasks have been updated by a team member" "info"
        else mret tt);;
       (if key_is event "taskflow-activities" then
          v ← parse (JsString.or_default (newValue event) "[]");
          acts ← typed (array_of_json Activity.of_json v);
          modify (set_activities acts);;
          renderActivityFeed
        else mret tt))
      (λ _, showNotification "Update Error" "Failed to sync with other users"
              "warning").

(** The [storage] listener installed by [setupRealtimeUpdates]. *)
Definition storageListener (e : StorageEvent) : M unit :=
  if key_is e "taskflow-tasks" || key_is e "taskflow-activities"
  then handleRealtimeUpdate e
  else mret tt.

(** The object [exportData] serialises, given the reading [t] of the clock
    taken for [exportDate]. *)
Definition export_document (w : World) (t : Z) : json :=
  JObj [("tasks", array_to_json Task.to_json (tasks w));
        ("columns", array_to_json Column.to_json (columns w));
        ("users", array_to_json User.to_json (users w));
        ("activities", array_to_json Activity.to_json (activities w));
        ("exportDate", JStr (toISOString h t));
        ("version", JStr "1.0")].

(** [exportData()]: the file offered for download is appended to
    [downloads]. *)
Definition exportData : M unit :=
  try_catch
    (t1 ← now;
     w ← gets id;
     let dataStr := JSON_stringify h 2 (export_document w t1) in
     t2 ← now;
     let day := hd EmptyString (JsString.split "T" (toISOString h t2)) in
     modify (λ w, set_downloads
       (downloads w ++
          [Download.mk ("taskflow-backup-" +:+ day +:+ ".json") dataStr]) w);;
     showNotification "Export Successful" "Data has been exported successfully"
       "success")
    (λ _, showNotification "Export Failed" "Failed to export data" "error").

(** [importData(file)], from the moment the reader has loaded the file:
    [text] is [e.target.result]. *)
Definition importData (text : string) : M unit :=
  try_catch
    (importData ← parse text;
     v ← get_prop importData "tasks";
     match v with
     | Some (JArr items) =>
         ts ← typed (mapM Task.of_json items);
         modify (set_tasks ts);;
         save_tasks
     | _ => mret tt
     end;;
     v ← get_prop importData "columns";
     match v with
     | Some (JArr items) =>
         cs ← typed (mapM Column.of_json items);
         modify (set_columns cs);;
         save_columns
     | _ => mret tt
     end;;
     v ← get_prop importData "users";
     match v with
     | Some (JArr items) =>
         us ← typed (mapM User.of_json items);
         modify (set_users us);;
         save_users
     | _ => mret tt
     end;;
     renderCurrentView;;
     showNotification "Import Successful" "Data has been imported successfully"
       "success")
    (λ _, showNotification "Import Failed" "Invalid file format" "error").

End Methods.

(** ** A reference browser

    A concrete [Host] on which the methods can be run: ISO-8601 dates in
    UTC for the years 0000 to 9999, compact JSON text, no storage quota.
    The clock and the random source stay parameters. *)

Module RefHost.

Definition day_ms : Z := 86400000.

(** The civil date of a day number counted from 1970-01-01. *)
Definition civil_of_days (days : Z) : Z * Z * Z :=
  let z := days + 719468 in
  let era := z / 146097 in
  let doe := z - era * 146097 in
  let yoe := (doe - doe / 1460 + doe / 36524 - doe / 146096) / 365 in
  let doy := doe - (365 * yoe + yoe / 4 - yoe / 100) in
  let mp := (5 * doy + 2) / 153 in
  let d := doy - (153 * mp + 2) / 5 + 1 in
  let m := if mp <? 10 then mp + 3 else mp - 9 in
  let y := yoe + era * 400 + (if m <=? 2 then 1 else 0) in
  (y, m, d).

Definition days_of_civil (y m d : Z) : Z :=
  let y := if m <=? 2 then y - 1 else y in
  let era := y / 400 in
  let yoe := y - era * 400 in
  let doy := (153 * (if 2 <? m then m - 3 else m + 9) + 2) / 5 + d - 1 in
  let doe := yoe * 365 + yoe / 4 - yoe / 100 + doy in
  era * 146097 + doe - 719468.

(** [n] in decimal, padded with zeros to [width] digits. *)
Fixpoint pad (width : nat) (n : Z) (k : string) : string :=
  match width with
  | O => k
  | S width' =>
      pad width' (n / 10)
        (String (ascii_of_nat (48 + Z.to_nat (n mod 10))) k)
  end.

(** [new Date(t).toISOString()] *)
Definition toISOString (t : Z) : string :=
  let '(y, m, d) := civil_of_days (t / day_ms) in
  let ms := t mod day_ms in
  let time :=
    pad 2 (ms / 3600000) (String ":" (pad 2 (ms / 60000 mod 60) (String ":"
      (pad 2 (ms / 1000 mod 60) (String "." (pad 3 (ms mod 1000) "Z")))))) in
  pad 4 y (String "-" (pad 2 m (String "-" (pad 2 d (String "T" time))))).

Definition digit (c : ascii) : option Z :=
  let n := nat_of_ascii c in
  if ((48 <=? n)%nat && (n <=? 57)%nat) then Some (Z.of_nat (n - 48)) else None.

Fixpoint digits (acc : Z) (l : list ascii) : option Z :=
  match l with
  | [] => Some acc
  | c :: l' => n ← digit c; digits (10 * acc + n) l'
  end.

(** The time value of [new Date(s)] for the [YYYY-MM-DD] text of a date
    input (midnight UTC); any other text is an invalid date. *)
Definition parseDate (s : string) : option Z :=
  match list_ascii_of_string s with
  | [y1; y2; y3; y4; "-"%char; m1; m2; "-"%char; d1; d2] =>
      y ← digits 0 [y1; y2; y3; y4];
      m ← digits 0 [m1; m2];
      d ← digits 0 [d1; d2];
      if (1 <=? m) && (m <=? 12) && (1 <=? d) && (d <=? 31)
      then Some (days_of_civil y m d * day_ms)
      else None
  | _ => None
  end.

(** [setHours(0, 0, 0, 0)] where local time is UTC. *)
Definition startOfDay (t : Z) : Z := t - t mod day_ms.

(** *** Compact JSON text *)

Definition backslash : ascii := ascii_of_nat 92.
Definition dquote : ascii := ascii_of_nat 34.

Definition needs_escape (c : ascii) : bool :=
  Ascii.eqb c dquote || Ascii.eqb c backslash.

(** The printers take the text that follows as [k]. *)
Fixpoint print_chars (s : string) (k : string) : string :=
  match s with
  | EmptyString => k
  | String c s' =>
      if needs_escape c then String backslash (String c (print_chars s' k))
      else String c (print_chars s' k)
  end.

Definition print_string (s : string) (k : string) : string :=
  String dquote (print_chars s (String dquote k)).

Definition print_number (n : Z) (k : string) : string :=
  DecimalString.NilZero.string_of_int (Z.to_int n) +:+ k.

Fixpoint print (v : json) (k : string) {struct v} : string :=
  match v with
  | JNull => "null" +:+ k
  | JBool true => "true" +:+ k
  | JBool false => "false" +:+ k
  | JNum n => print_number n k
  | JStr s => print_string s k
  | JArr items =>
      String "[" (
        (fix print_items (l : list json) (k : string) {struct l} : string :=
           match l with
           | [] => k
           | x :: l' =>
               print x (match l' with
                        | [] => k
                        | _ => String "," (print_items l' k)
                        end)
           end) items (String "]" k))
  | JObj props =>
      String "{" (
        (fix print_props (l : list (string * json)) (k : string) {struct l}
           : string :=
           match l with
           | [] => k
           | (name, x) :: l' =>
               print_string name (String ":" (
                 print x (match l' with
                          | [] => k
                          | _ => String "," (print_props l' k)
                          end)))
           end) props (String "}" k))
  end.

(** [JSON.stringify(v)]; the indentation only adds white space, which the
    compact form leaves out. *)
Definition JSON_stringify (indent : nat) (v : json) : string :=
  print v EmptyString.

Fixpoint parse_chars (s : string) : option (string * string) :=
  match s with
  | EmptyString => None
  | String c s' =>
      if Ascii.eqb c dquote then Some (EmptyString, s')
      else if Ascii.eqb c backslash then
        match s' with
        | String c' s'' =>
            if needs_escape c' then
              '(r, rest) ← parse_chars s''; Some (String c' r, rest)
            else None
        | EmptyString => None
        end
      else '(r, rest) ← parse_chars s'; Some (String c r, rest)
  end.

Definition number_char (c : ascii) : bool :=
  Ascii.eqb c "-" || match digit c with Some _ => true | None => false end.

(** The longest prefix of number characters, and what follows it. *)
Fixpoint span_number (s : string) : string * string :=
  match s with
  | EmptyString => (EmptyString, EmptyString)
  | String c s' =>
      if number_char c
      then let '(n, rest) := span_number s' in (String c n, rest)
      else (EmptyString, s)
  end.

Definition parse_number (s : string) : option (json * string) :=
  let '(n, rest) := span_number s in
  d ← DecimalString.NilZero.int_of_string n; Some (JNum (Z.of_int d), rest).

Definition strip (lit s : string) : option string :=
  if String.prefix lit s then Some (JsString.drop (String.length lit) s)
  else None.

Fixpoint parse_value (fuel : nat) (s : string) {struct fuel}
  : option (json * string) :=
  match fuel with
  | O => None
  | S fuel' =>
      match s with
      | EmptyString => None
      | String c s' =>
          if Ascii.eqb c "n" then rest ← strip "ull" s'; Some (JNull, rest)
          else if Ascii.eqb c "t" then
            rest ← strip "rue" s'; Some (JBool true, rest)
          else if Ascii.eqb c "f" then
            rest ← strip "alse" s'; Some (JBool false, rest)
          else if Ascii.eqb c dquote then
            '(r, rest) ← parse_chars s'; Some (JStr r, rest)
          else if Ascii.eqb c "[" then
            match s' with
            | String c' rest =>
                if Ascii.eqb c' "]" then Some (JArr [], rest)
                else '(l, rest) ← parse_items fuel' s'; Some (JArr l, rest)
            | EmptyString => None
            end
          else if Ascii.eqb c "{" then
            match s' with
            | String c' rest =>
                if Ascii.eqb c' "}" then Some (JObj [], rest)
                else '(l, rest) ← parse_props fuel' s'; Some (JObj l, rest)
            | EmptyString => None
            end
          else parse_number s
      end
  end
with parse_items (fuel : nat) (s : string) {struct fuel}
  : option (list json * string) :=
  match fuel with
  | O => None
  | S fuel' =>
      '(x, rest) ← parse_value fuel' s;
      match rest with
      | String c rest' =>
          if Ascii.eqb c "," then
            '(l, rest'') ← parse_items fuel' rest'; Some (x :: l, rest'')
          else if Ascii.eqb c "]" then Some ([x], rest')
          else None
      | EmptyString => None
      end
  end
with parse_props (fuel : nat) (s : string) {struct fuel}
  : option (list (string * json) * string) :=
  match fuel with
  | O => None
  | S fuel' =>
      match s with
      | String c s' =>
          if Ascii.eqb c dquote then
            '(name, rest) ← parse_chars s';
            match rest with
            | String c' rest' =>
                if Ascii.eqb c' ":" then
                  '(x, rest'') ← parse_value fuel' rest';
                  match rest'' with
                  | String c'' r =>
                      if Ascii.eqb c'' "," then
                        '(l, r') ← parse_props fuel' r;
                        Some ((name, x) :: l, r')
                      else if Ascii.eqb c'' "}" then Some ([(name, x)], r)
                      else None
                  | EmptyString => None
                  end
                else None
            | EmptyString => None
            end
          else None
      | EmptyString => None
      end
  end.

(** [JSON.parse(text)], [None] for a syntax error. *)
Definition JSON_parse (text : string) : option json :=
  match parse_value (S (String.length text)) text with
  | Some (v, EmptyString) => Some v
  | _ => None
  end.

Definition host (clock : nat → Z) (random : nat → N) : Host :=
  mkHost clock random toISOString parseDate startOfDay JSON_stringify
    JSON_parse (λ _ _ _, true).

End RefHost.

(** ** Sample data: the literals of [initializeData] *)

Module Sample.

Definition users : list User.t :=
  [User.mk "user-1" "Deepanshu" "Deepanshu@company.com" "DC" "Designer" true
     "#1FB8CD";
   User.mk "user-2" "Rajesh" "Rajesh@company.com" "RJ" "Developer" true
     "#FFC185";
   User.mk "user-3" "Ekta" "ekta@company.com" "EK" "Product Manager" false
     "#B4413C"].

Definition columns : list Column.t :=
  [Column.mk "col-backlog" "Backlog" 0 "#64748b";
   Column.mk "col-todo" "To Do" 1 "#3b82f6";
   Column.mk "col-in-progress" "In Progress" 2 "#f59e0b";
   Column.mk "col-review" "Review" 3 "#8b5cf6";
   Column.mk "col-done" "Done" 4 "#10b981"].

Definition tasks : list Task.t :=
  [Task.mk "task-1" "Design Landing Page"
     (Some "Create a modern, responsive landing page for the new product launch")
     "in-progress" "high" (Some "user-1") (Some "2025-08-15")
     "2025-08-01T10:00:00Z" "2025-08-02T14:30:00Z" ["design"; "frontend"]
     "col-in-progress";
   Task.mk "task-2" "API Integration"
     (Some "Integrate payment gateway API with the checkout system")
     "todo" "critical" (Some "user-2") (Some "2025-08-10")
     "2025-08-01T09:00:00Z" "2025-08-01T09:00:00Z" ["backend"; "api"]
     "col-todo";
   Task.mk "task-3" "User Testing"
     (Some "Conduct usability testing with 10 target users")
     "review" "medium" (Some "user-3") (Some "2025-08-20")
     "2025-07-28T11:00:00Z" "2025-08-02T16:00:00Z" ["testing"; "ux"]
     "col-review";
   Task.mk "task-4" "Database Optimization"
     (Some "Optimize database queries for better performance")
     "backlog" "low" (Some "user-2") (Some "2025-08-25")
     "2025-08-01T08:00:00Z" "2025-08-01T08:00:00Z" ["backend"; "performance"]
     "col-backlog";
   Task.mk "task-5" "Mobile App Testing"
     (Some "Complete testing of mobile application features")
     "done" "medium" (Some "user-3") (Some "2025-08-05")
     "2025-07-25T10:00:00Z" "2025-08-01T16:00:00Z" ["mobile"; "testing"]
     "col-done"].

(** An initialised application holding the sample data, the first user
    being the current one, with an empty activity feed. *)
Definition world : World :=
  mkWorld (hd_error users) tasks users columns [] 
    (Filters.mk EmptyString EmptyString EmptyString) true ∅ [] ∅ [] 0 0.

(** A clock that advances by one second between readings, from
    2025-08-03T00:00:00Z. *)
Definition ticking (k : nat) : Z := 1754179200000 + 1000 * Z.of_nat k.

(** A clock so coarse that all readings within the session agree. *)
Definition frozen (k : nat) : Z := 1754179200000.

Definition host : Host := RefHost.host ticking (λ _, 1193046%N).
Definition frozen_host : Host := RefHost.host frozen (λ _, 1193046%N).

(** The task form as [openTaskModal(taskId)] leaves it for an existing
    task: [populateTaskForm] and [form.dataset.taskId = taskId]. *)
Definition form_of (t : Task.t) : TaskForm :=
  mkTaskForm (Some (Task.id t))
    (Some (JsString.or_default (Some (Task.title t)) EmptyString))
    (Some (JsString.or_default (Task.description t) EmptyString))
    (Some (JsString.or_default (Some (Task.priority t)) "medium"))
    (Some (JsString.or_default (Task.assigneeId t) EmptyString))
    (Some (JsString.or_default (Task.dueDate t) EmptyString))
    (Some (JsString.or_default (Some (Task.columnId t)) "col-backlog"))
    (Some (fold_right (λ tag rest,
             match rest with
             | EmptyString => tag
             | _ => tag +:+ ", " +:+ rest
             end) EmptyString (Task.tags t))).

(** The sample application before [init] has finished. *)
Definition uninitialised : World :=
  mkWorld (hd_error users) tasks users columns []
    (Filters.mk EmptyString EmptyString EmptyString) false ∅ [] ∅ [] 0 0.

(** [n] letters [a]. *)
Fixpoint letters (n : nat) : string :=
  match n with
  | O => EmptyString
  | S n' => String "a" (letters n')
  end.

(** The form of the "Add New Task" dialog with a title typed in. *)
Definition new_form (title : string) : TaskForm :=
  mkTaskForm None (Some title) (Some EmptyString) (Some "medium")
    (Some EmptyString) (Some EmptyString) (Some "col-backlog")
    (Some EmptyString).

(** The second sample task, [task-2], and the edit form for it with the
    column select changed to [col-done]. *)
Definition task2 : Task.t :=
  Task.mk "task-2" "API Integration"
    (Some "Integrate payment gateway API with the checkout system")
    "todo" "critical" (Some "user-2") (Some "2025-08-10")
    "2025-08-01T09:00:00Z" "2025-08-01T09:00:00Z" ["backend"; "api"]
    "col-todo".

Definition task2_to_done : TaskForm :=
  mkTaskForm (Some "task-2") (Some "API Integration")
    (Some "Integrate payment gateway API with the checkout system")
    (Some "critical") (Some "user-2") (Some "2025-08-10") (Some "col-done")
    (Some "backend, api").

End Sample.


(** ** Loading, searching and rendering

    The methods around the command layer: start-up from [localStorage],
    the fallback after a failed start, the feed of simulated activity, the
    search suggestions, and the parts of rendering that decide what the
    page shows (the columns of the board, the badge and the label of a due
    date, the age of an activity). *)

Definition set_currentUser (v : option User.t) (w : World) : World :=
  mkWorld v (tasks w) (users w) (columns w) (activities w) (filters w)
    (isInitialized w) (localStorage w) (notifications w) (formErrors w)
    (downloads w) (clockReads w) (randomReads w).

(** A parsed value used as a condition, as in [loadFromStorage(k) || d]. *)
Definition json_truthy (v : json) : bool :=
  match v with
  | JNull => false
  | JBool b => b
  | JNum n => negb (n =? 0)
  | JStr s => JsString.truthy s
  | JArr _ | JObj _ => true
  end.

(** [xs.findIndex(p)]: the index of the first element that satisfies [p],
    [-1] when there is none.  [findIndex_from] counts from [i]. *)
Fixpoint findIndex_from {A} (p : A → bool) (i : Z) (l : list A) : Z :=
  match l with
  | [] => -1
  | x :: l' => if p x then i else findIndex_from p (i + 1) l'
  end.

Definition findIndex {A} (p : A → bool) (l : list A) : Z :=
  findIndex_from p 0 l.

(** [xs.filter((x, index) => p(x, index))], the indices counted from [i]. *)
Fixpoint filter_from {A} (p : A → Z → bool) (i : Z) (l : list A) : list A :=
  match l with
  | [] => []
  | x :: l' =>
      if p x i then x :: filter_from p (i + 1) l'
      else filter_from p (i + 1) l'
  end.

(** [xs.join(sep)] *)
Fixpoint join (sep : string) (l : list string) : string :=
  match l with
  | [] => EmptyString
  | [x] => x
  | x :: l' => x +:+ sep +:+ join sep l'
  end.

(** [Math.ceil(a / b)] for integers [a] and [b > 0]. *)
Definition ceil_div (a b : Z) : Z := - ((- a) / b).

(** An entry of the list [getSearchSuggestions] returns. *)
Module Suggestion.
Record t : Type := mk {
  type : string; title : string; id : string; priority : string }.
End Suggestion.

Definition suggestion_of (task : Task.t) : Suggestion.t :=
  Suggestion.mk "task" (Task.title task) (Task.id task) (Task.priority task).

(** The phrases [simulateRealtimeActivity] chooses from. *)
Definition realtime_phrases : list string :=
  ["Emma Davis commented on " +:+ dq +:+ "User Testing" +:+ dq;
   "Mike Johnson updated the due date for " +:+ dq +:+ "API Integration"
     +:+ dq;
   "Sarah Chen added a new task to Backlog";
   "System: Daily standup meeting in 30 minutes"].

(** The activities [initializeData] starts with when none are stored;
    [t1], [t2] and [t3] are the three readings of the clock it takes. *)
Definition seed_activities (h : Host) (t1 t2 t3 : Z) : list Activity.t :=
  [Activity.mk "activity-1" "task_created"
     ("Sarah Chen created " +:+ dq +:+ "Design Landing Page" +:+ dq)
     "user-1" (Some "task-1") (toISOString h (t1 - 1800000));
   Activity.mk "activity-2" "task_moved"
     ("Mike Johnson moved " +:+ dq +:+ "API Integration" +:+ dq +:+ " to To Do")
     "user-2" (Some "task-2") (toISOString h (t2 - 3600000));
   Activity.mk "activity-3" "task_completed"
     ("Emma Davis completed " +:+ dq +:+ "Mobile App Testing" +:+ dq)
     "user-3" (Some "task-5") (toISOString h (t3 - 7200000))].

(** [select.value = value] read back, for a [select] whose options have
    the values [options]: the first option with that value is selected;
    when there is none, no option is selected and the value reads as the
    empty text. *)
Definition select_value (options : list string) (value : string) : string :=
  if existsb (String.eqb value) options then value else EmptyString.

(** The form controls as [populateTaskForm(task)] leaves them: a control
    that exists takes the value assigned to it.  [task-column] and
    [task-assignee] are the selects [renderFilters] fills, with an option
    for each column and with an empty option and one for each user;
    [column_options] and [assignee_options] are the values of the options
    they have when the form is filled.  The other controls are taken to
    keep the text they are given. *)
Definition populateTaskForm (column_options assignee_options : list string)
    (task : Task.t) (form : TaskForm) : TaskForm :=
  let assign (element : option string) (value : string) : option string :=
    match element with Some _ => Some value | None => None end in
  mkTaskForm (dataset_taskId form)
    (assign (task_title form)
       (JsString.or_default (Some (Task.title task)) EmptyString))
    (assign (task_description form)
       (JsString.or_default (Task.description task) EmptyString))
    (assign (task_priority form)
       (JsString.or_default (Some (Task.priority task)) "medium"))
    (assign (task_assignee form)
       (select_value assignee_options
          (JsString.or_default (Task.assigneeId task) EmptyString)))
    (assign (task_due_date form)
       (JsString.or_default (Task.dueDate task) EmptyString))
    (assign (task_column form)
       (select_value column_options
          (JsString.or_default (Some (Task.columnId task)) "col-backlog")))
    (assign (task_tags form) (join ", " (Task.tags task))).

(** The values of the options [renderFilters] gives the two selects: the
    ids, which it writes into the markup as they are. *)
Definition renderFilters_column_options (w : World) : list string :=
  Column.id <$> columns w.

Definition renderFilters_assignee_options (w : World) : list string :=
  EmptyString :: (User.id <$> users w).

(** [openTaskModal(taskId)]: the form controls as the call leaves them,
    given the controls as they were and the options the two selects have.
    [blank] is the form as [form.reset()] leaves it, each control at the
    default the page gives it.  For an id that no task has, the form stays
    as it was. *)
Definition openTaskModal (column_options assignee_options : list string)
    (blank : TaskForm) (taskId : option string) (form : TaskForm)
  : M TaskForm :=
  let assign (element : option string) (value : string) : option string :=
    match element with Some _ => Some value | None => None end in
  if match taskId with Some i => JsString.truthy i | None => false end
  then
    ts ← gets tasks;
    match List.find (has_id Task.id (default EmptyString taskId)) ts with
    | Some task =>
        let form :=
          populateTaskForm column_options assignee_options task form in
        mret (mkTaskForm taskId (task_title form) (task_description form)
                (task_priority form) (task_assignee form)
                (task_due_date form) (task_column form) (task_tags form))
    | None => mret form
    end
  else
    mret (mkTaskForm None (task_title blank) (task_description blank)
            (assign (task_priority blank) "medium") (task_assignee blank)
            (task_due_date blank)
            (assign (task_column blank)
               (select_value column_options "col-backlog"))
            (task_tags blank)).

Section Views.

Variable h : Host.

(** [date.toLocaleDateString()] for a valid date: the text depends on the
    locale of the browser. *)
Variable toLocaleDateString : Z → string.

(** [loadFromStorage(key)]: the parsed value, [null] for a missing or empty
    item and for text that [JSON.parse] rejects. *)
Definition loadFromStorage (k : string) : M json :=
  try_catch
    (data ← gets (λ w, localStorage w !! k);
     match data with
     | Some text => if JsString.truthy text then parse h text else mret JNull
     | None => mret JNull
     end)
    (λ _, mret JNull).

(** [initializeData()] *)
Definition initializeData : M unit :=
  v ← loadFromStorage "taskflow-users";
  us ← (if json_truthy v then typed (array_of_json User.of_json v)
        else mret Sample.users);
  modify (set_users us);;
  v ← loadFromStorage "taskflow-columns";
  cs ← (if json_truthy v then typed (array_of_json Column.of_json v)
        else mret Sample.columns);
  modify (set_columns cs);;
  v ← loadFromStorage "taskflow-tasks";
  ts ← (if json_truthy v then typed (array_of_json Task.of_json v)
        else mret Sample.tasks);
  modify (set_tasks ts);;
  v ← loadFromStorage "taskflow-activities";
  acts ← (if json_truthy v then typed (array_of_json Activity.of_json v)
          else t1 ← now h; t2 ← now h; t3 ← now h;
               mret (seed_activities h t1 t2 t3));
  modify (set_activities acts);;
  modify (λ w, set_currentUser (hd_error (users w)) w);;
  save_users h;;
  save_columns h;;
  save_tasks h;;
  save_activities h.

(** [initializeMinimalData()] *)
Definition initializeMinimalData : M unit :=
  modify (set_users
    [User.mk "user-1" "Deepanshu" "Deepanshu@company.com" "DC" "Designer" true
       "#1FB8CD"]);;
  modify (set_columns
    [Column.mk "col-todo" "To Do" 0 "#3b82f6";
     Column.mk "col-done" "Done" 1 "#10b981"]);;
  t1 ← now h;
  t2 ← now h;
  modify (set_tasks
    [Task.mk "task-1" "Welcome Task" (Some "Welcome to TaskFlow!") "todo"
       "medium" (Some "user-1") None (toISOString h t1) (toISOString h t2)
       ["welcome"] "col-todo"]);;
  modify (set_activities []);;
  modify (λ w, set_currentUser (hd_error (users w)) w).

(** [renderBasicView()] *)
Definition renderBasicView : M unit :=
  n ← gets (λ w, length (users w));
  (if (n =? 0)%nat then initializeMinimalData else mret tt);;
  renderCurrentView.

(** [syncData()] *)
Definition syncData : M unit :=
  try_catch (save_tasks h;; save_activities h) (λ _, mret tt).

(** [simulateRealtimeActivity()]; [pick] is the draw
    [Math.floor(Math.random() * activities.length)], which uses up one
    reading of [Math.random]. *)
Definition simulateRealtimeActivity (pick : fin 4) : M unit :=
  modify (λ w, set_randomReads (S (randomReads w)) w);;
  let randomActivity := realtime_phrases !!! fin_to_nat pick in
  t1 ← now h;
  t2 ← now h;
  let activity :=
    Activity.mk ("activity-" +:+ pretty t1) "system" randomActivity "system"
      None (toISOString h t2) in
  modify (λ w, set_activities (activity :: activities w) w);;
  save_activities h;;
  renderActivityFeed.

(** [getSearchSuggestions(query)] *)
Definition getSearchSuggestions (query : string) : M (list Suggestion.t) :=
  if negb (JsString.truthy query) || (String.length query <? 2)%nat
  then mret []
  else
    let suggestions : list Suggestion.t := [] in
    let searchTerm := JsString.toLowerCase query in
    ts ← gets tasks;
    let suggestions :=
      fold_left (λ suggestions task,
        if JsString.includes (JsString.toLowerCase (Task.title task)) searchTerm
        then suggestions ++ [suggestion_of task]
        else suggestions) ts suggestions in
    let suggestions :=
      fold_left (λ suggestions task,
        if match Task.description task with
           | Some d =>
               JsString.truthy d
               && JsString.includes (JsString.toLowerCase d) searchTerm
           | None => false
           end
        then suggestions ++ [suggestion_of task]
        else suggestions) ts suggestions in
    mret (take 5
      (filter_from
         (λ suggestion index,
            index =? findIndex
                       (λ s, String.eqb (Suggestion.id s)
                               (Suggestion.id suggestion))
                       suggestions)
         0 suggestions)).

(** [date.toLocaleDateString()], where [None] is an invalid date. *)
Definition localeDate (date : option Z) : string :=
  match date with
  | Some t => toLocaleDateString t
  | None => "Invalid Date"
  end.

(** [formatDate(date)]; [date] is the time value of the [Date] object,
    [None] for an invalid date, for which every comparison fails. *)
Definition formatDate (date : option Z) : M string :=
  n ← now h;
  match date with
  | Some d =>
      let diffTime := d - n in
      let diffDays := ceil_div diffTime (1000 * 60 * 60 * 24) in
      if diffDays =? 0 then mret "Today"
      else if diffDays =? 1 then mret "Tomorrow"
      else if diffDays =? -1 then mret "Yesterday"
      else if (1 <? diffDays) && (diffDays <=? 7)
      then mret (pretty diffDays +:+ " days")
      else if (diffDays <? -1) && (-7 <=? diffDays)
      then mret (pretty (Z.abs diffDays) +:+ " days ago")
      else mret (localeDate date)
  | None => mret (localeDate date)
  end.

(** [getRelativeTime(timestamp)] *)
Definition getRelativeTime (timestamp : string) : M string :=
  n ← now h;
  let time := parseDate h timestamp in
  match time with
  | Some t =>
      let diffMs := n - t in
      let diffMins := diffMs / (1000 * 60) in
      let diffHours := diffMs / (1000 * 60 * 60) in
      let diffDays := diffMs / (1000 * 60 * 60 * 24) in
      if diffMins <? 1 then mret "Just now"
      else if diffMins <? 60 then mret (pretty diffMins +:+ "m ago")
      else if diffHours <? 24 then mret (pretty diffHours +:+ "h ago")
      else if diffDays <? 7 then mret (pretty diffDays +:+ "d ago")
      else mret (localeDate time)
  | None => mret (localeDate time)
  end.

(** The due date on a task card, as [renderTaskCard(task)] shows it: the
    class added to [task-due-date] and the label; [None] when the card has
    no due date. *)
Definition renderTaskCard_dueDate (task : Task.t)
  : M (option (string * string)) :=
  let dueDate :=
    match Task.dueDate task with
    | Some s => if JsString.truthy s then Some (parseDate h s) else None
    | None => None
    end in
  today ← now h;
  match dueDate with
  | Some date =>
      let isOverdue :=
        match date with Some d => d <? today | None => false end in
      let isDueSoon :=
        match date with
        | Some d => d <=? today + 3 * 24 * 60 * 60 * 1000
        | None => false
        end in
      label ← formatDate date;
      mret (Some (if isOverdue then "overdue"
                  else if isDueSoon then "due-soon" else EmptyString,
                  label))
  | None => mret None
  end.

(** The board [renderKanbanView()] draws: each column, in order, with its
    cards, in order; a card is the task with the due date
    [renderTaskCard] shows for it.  Drawing a card reads the clock. *)
Definition renderKanbanView
  : M (list (Column.t * list (Task.t * option (string * string)))) :=
  filteredTasks ← getFilteredTasks;
  cs ← gets columns;
  mapM (λ column,
          let columnTasks :=
            List.filter
              (λ task, String.eqb (Task.columnId task) (Column.id column))
              filteredTasks in
          cards ← mapM (λ task,
                          dueDate ← renderTaskCard_dueDate task;
                          mret (task, dueDate)) columnTasks;
          mret (column, cards)) cs.

End Views.

(** * Vocabulary of the properties *)

(** A computation leaves the part [f] of the world alone, however it
    ends. *)
Definition preserves {A B} (f : World → B) (c : M A) : Prop :=
  ∀ w, f (exec c w) = f w.

(** The status a column id stands for: the id with its first [col-]
    removed, as [replace] does. *)
Definition derived_status (columnId : string) : string :=
  JsString.replace "col-" EmptyString columnId.

Definition lockstep (t : Task.t) : Prop :=
  Task.status t = derived_status (Task.columnId t).

Definition title_rejected (d : TaskData.t) : bool :=
  negb (JsString.truthy (TaskData.title d))
  || (100 <? String.length (TaskData.title d))%nat.

Definition description_rejected (d : TaskData.t) : bool :=
  (500 <? String.length (TaskData.description d))%nat.

(** The due date is a valid date earlier than [today]. *)
Definition dueDate_rejected (h : Host) (d : TaskData.t) (today : Z) : bool :=
  JsString.truthy (TaskData.dueDate d)
  && match parseDate h (TaskData.dueDate d) with
     | Some dueDate => (dueDate <? today)%Z
     | None => false
     end.

Definition tags_rejected (d : TaskData.t) : bool :=
  (10 <? length (TaskData.tags d))%nat.

Definition rejected (h : Host) (d : TaskData.t) (today : Z) : bool :=
  title_rejected d || description_rejected d || dueDate_rejected h d today
  || tags_rejected d.

(** The map [validateTaskForm] returns when the day starts at [today]. *)
Definition errors_of (h : Host) (d : TaskData.t) (today : Z)
  : gmap string string :=
  let e0 : gmap string string :=
    if negb (JsString.truthy (TaskData.title d))
    then {["title" := "Task title is required"]}
    else if (100 <? String.length (TaskData.title d))%nat
    then {["title" := "Task title must be 100 characters or less"]}
    else ∅ in
  let e1 :=
    if description_rejected d
    then <["description" := "Description must be 500 characters or less"]> e0
    else e0 in
  let e2 :=
    if dueDate_rejected h d today
    then <["dueDate" := "Due date cannot be in the past"]> e1
    else e1 in
  if tags_rejected d then <["tags" := "Maximum 10 tags allowed"]> e2 else e2.

Definition tick_if (b : bool) (w : World) : World :=
  if b then set_clockReads (S (clockReads w)) w else w.

(** What [saveTask] makes of a form in the world [w]: the [taskData] it
    builds (its [updatedAt] is the first reading of the clock), the start
    of the day its validation compares the due date with (from the next
    reading), and whether validation reports an error. *)
Definition form_data (h : Host) (form : TaskForm) (w : World) : TaskData.t :=
  taskData_of_form h form (clock h (clockReads w)).

Definition form_today (h : Host) (w : World) : Z :=
  startOfDay h (clock h (S (clockReads w))).

Definition form_rejected (h : Host) (form : TaskForm) (w : World) : bool :=
  rejected h (form_data h form w) (form_today h w).

Definition is_editing (form : TaskForm) : bool :=
  match dataset_taskId form with
  | Some i => JsString.truthy i
  | None => false
  end.

(** The task an accepted creation appends. *)
Definition created_task (h : Host) (form : TaskForm) (w : World) : Task.t :=
  let d := form_data h form w in
  let n := clockReads (tick_if (JsString.truthy (TaskData.dueDate d))
                         (set_clockReads (S (clockReads w)) w)) in
  TaskData.spread ("task-" +:+ pretty (clock h n)) d
    (derived_status (TaskData.columnId d))
    (toISOString h (clock h (S n))).

(** A task's data fails validation, in the words of the form's messages:
    no title or one of more than 100 characters, a description of more than
    500 characters, a due date that is a date before [today], more than 10
    tags. *)
Definition fails_validation (h : Host) (d : TaskData.t) (today : Z) : Prop :=
  TaskData.title d = EmptyString
  ∨ (100 < String.length (TaskData.title d))%nat
  ∨ (500 < String.length (TaskData.description d))%nat
  ∨ (TaskData.dueDate d ≠ EmptyString
     ∧ ∃ due, parseDate h (TaskData.dueDate d) = Some due ∧ due < today)
  ∨ (10 < length (TaskData.tags d))%nat.

(** A task with its [updatedAt] blanked, to compare the other fields. *)
Definition without_updatedAt (t : Task.t) : Task.t :=
  Task.mk (Task.id t) (Task.title t) (Task.description t) (Task.status t)
    (Task.priority t) (Task.assigneeId t) (Task.dueDate t) (Task.createdAt t)
    EmptyString (Task.tags t) (Task.columnId t).

(** Whether [prompt] returned nothing but white space, or nothing. *)
Definition blank (name : option string) : bool :=
  match name with
  | Some n => negb (JsString.truthy (JsString.trim n))
  | None => true
  end.

(** Two characters that are equal, or an ASCII capital and its small
    letter (32 places further in the code table). *)
Definition is_capital (c : ascii) : bool :=
  ((65 <=? nat_of_ascii c)%nat && (nat_of_ascii c <=? 90)%nat).

Definition same_letter (a b : ascii) : bool :=
  Ascii.eqb a b
  || (is_capital a && (nat_of_ascii b =? nat_of_ascii a + 32)%nat)
  || (is_capital b && (nat_of_ascii a =? nat_of_ascii b + 32)%nat).

(** Two texts that differ at most in the case of their letters. *)
Fixpoint same_ignoring_case (a b : string) : Prop :=
  match a, b with
  | EmptyString, EmptyString => True
  | String x a', String y b' =>
      same_letter x y = true ∧ same_ignoring_case a' b'
  | _, _ => False
  end.

(** [needle] occurs in [hay], up to the case of letters. *)
Definition occurs_ignoring_case (needle hay : string) : Prop :=
  ∃ pre mid post,
    hay = pre +:+ mid +:+ post ∧ same_ignoring_case mid needle.

(** A task meets the filter criteria: each of priority, assignee and
    search text is empty or satisfied. *)
Definition satisfies (f : Filters.t) (t : Task.t) : Prop :=
  (Filters.priority f = EmptyString ∨ Task.priority t = Filters.priority f)
  ∧ (Filters.assignee f = EmptyString
     ∨ Task.assigneeId t = Some (Filters.assignee f))
  ∧ (Filters.search f = EmptyString
     ∨ occurs_ignoring_case (Filters.search f) (Task.title t)
     ∨ ∃ d, Task.description t = Some d
            ∧ occurs_ignoring_case (Filters.search f) d).


Definition tasks_updated : Notification.t :=
  Notification.mk "Real-time Update" "Tasks have been updated by a team member"
    "info".


(** [JSON.parse] undoes [JSON.stringify], as it does on values made of
    strings, integers, booleans, [null], arrays and plain objects. *)
Definition json_faithful (h : Host) : Prop :=
  ∀ indent v, JSON_parse h (JSON_stringify h indent v) = Some v.

(** The fuel [RefHost.parse_value] needs for the text of a value. *)
Fixpoint weight (v : json) : nat :=
  match v with
  | JArr items =>
      S ((fix go (l : list json) : nat :=
            match l with
            | [] => O
            | x :: l' => S (weight x + go l')
            end) items)
  | JObj props =>
      S ((fix go (l : list (string * json)) : nat :=
            match l with
            | [] => O
            | (_, x) :: l' => S (weight x + go l')
            end) props)
  | _ => 1
  end.

Definition items_weight (l : list json) : nat :=
  fold_right (λ x n, S (weight x + n)) O l.

Definition props_weight (l : list (string * json)) : nat :=
  fold_right (λ p n, S (weight (snd p) + n)) O l.

(** The text of the items of an array, and of the properties of an
    object, without the brackets. *)
Fixpoint print_items (l : list json) (k : string) : string :=
  match l with
  | [] => k
  | x :: l' =>
      RefHost.print x
        (match l' with [] => k | _ => String "," (print_items l' k) end)
  end.

Fixpoint print_props (l : list (string * json)) (k : string) : string :=
  match l with
  | [] => k
  | (name, x) :: l' =>
      RefHost.print_string name (String ":" (
        RefHost.print x
          (match l' with [] => k | _ => String "," (print_props l' k) end)))
  end.

(** Text that cannot continue a number. *)
Definition ends_number (k : string) : Prop :=
  match k with
  | EmptyString => True
  | String c _ => RefHost.number_char c = false
  end.

Definition all_number (s : string) : Prop :=
  Forall (λ c, RefHost.number_char c = true) (list_ascii_of_string s).

(** Parsing the text of [x] with enough fuel gives [x] back and what
    followed the text. *)
Definition parses (x : json) : Prop :=
  ∀ fuel k, (weight x ≤ fuel)%nat → ends_number k →
            RefHost.parse_value fuel (RefHost.print x k) = Some (x, k).

(** The text of [x] is at least as long as the fuel [x] needs. *)
Definition fits (x : json) : Prop :=
  ∀ k, (weight x + String.length k ≤ String.length (RefHost.print x k))%nat.

(** * Vocabulary of the further properties *)

(** A task mentions the text [query] in its title or in its description,
    up to the case of letters. *)
Definition mentions (query : string) (task : Task.t) : Prop :=
  occurs_ignoring_case query (Task.title task)
  ∨ ∃ d, Task.description task = Some d ∧ occurs_ignoring_case query d.

(** The first suggestion of each id that is not in [seen]. *)
Fixpoint first_of_each (seen : list string) (l : list Suggestion.t)
  : list Suggestion.t :=
  match l with
  | [] => []
  | s :: l' =>
      if bool_decide (Suggestion.id s ∈ seen) then first_of_each seen l'
      else s :: first_of_each (seen ++ [Suggestion.id s]) l'
  end.

(** The test [findIndex] is called with by [getSearchSuggestions]. *)
Definition same_id (s x : Suggestion.t) : bool :=
  String.eqb (Suggestion.id x) (Suggestion.id s).

(** The readings of the clock [renderTaskCard] takes for a task: one for
    [today], one more in [formatDate] when the task has a due date. *)
Definition card_readings (task : Task.t) : nat :=
  match Task.dueDate task with
  | Some s => if JsString.truthy s then 2 else 1
  | None => 1
  end.

(** The tasks the board shows in a column: those that pass the filters and
    carry the column's id. *)
Definition shown_in (w : World) (column : Column.t) : list Task.t :=
  List.filter (λ task, String.eqb (Task.columnId task) (Column.id column))
    (List.filter (matchesFilters (filters w)) (tasks w)).

(** The readings of the clock drawing the board takes. *)
Definition board_readings (w : World) : nat :=
  sum_list_with (λ column, sum_list_with card_readings (shown_in w column))
    (columns w).

(** A tag as the form stores it: not empty, no white space around it, no
    comma in it. *)
Definition comma_free (s : string) : Prop :=
  ¬ In ","%char (list_ascii_of_string s).

Definition clean_tag (tag : string) : Prop :=
  tag ≠ EmptyString ∧ JsString.trim tag = tag ∧ comma_free tag.

(** The storage after [setItem(k, JSON.stringify(v))]: a write the browser
    refuses leaves the storage as it was. *)
Definition write (h : Host) (k : string) (v : json)
    (store : gmap string string) : gmap string string :=
  if setItem_ok h store k (JSON_stringify h 0 v)
  then <[k := JSON_stringify h 0 v]> store
  else store.

(** A browser that never refuses a write. *)
Definition accepts_all (h : Host) : Prop :=
  ∀ store k text, setItem_ok h store k text = true.

(** The item [k] of the storage is the text of [v]. *)
Definition stored (h : Host) (store : gmap string string) (k : string)
    (v : json) : Prop :=
  store !! k = Some (JSON_stringify h 0 v).

(** The storage holds the four collections as they are in memory. *)
Definition persisted (h : Host) (w : World) : Prop :=
  stored h (localStorage w) "taskflow-users"
    (array_to_json User.to_json (users w))
  ∧ stored h (localStorage w) "taskflow-columns"
      (array_to_json Column.to_json (columns w))
  ∧ stored h (localStorage w) "taskflow-tasks"
      (array_to_json Task.to_json (tasks w))
  ∧ stored h (localStorage w) "taskflow-activities"
      (array_to_json Activity.to_json (activities w)).

(** The four items [initializeData] reads. *)
Definition app_keys : list string :=
  ["taskflow-users"; "taskflow-columns"; "taskflow-tasks";
   "taskflow-activities"].

(** The commands a user of the page can give, and the simulated activity
    of team members. *)
Inductive Command : Type :=
| MoveTask (taskId newColumnId : string)
| Drop (draggedTask : option Task.t) (columnId : string)
| ToggleTaskCompletion (taskId : string)
| SaveTask (form : option TaskForm)
| AddColumn (name : option string)
| ExportData
| ImportData (text : string)
| SyncData
| SimulateRealtimeActivity (pick : fin 4).

Definition run (h : Host) (c : Command) : M unit :=
  match c with
  | MoveTask taskId newColumnId => moveTask h taskId newColumnId
  | Drop draggedTask columnId => drop h draggedTask columnId
  | ToggleTaskCompletion taskId => toggleTaskCompletion h taskId
  | SaveTask form => saveTask h form
  | AddColumn name => addColumn h name
  | ExportData => exportData h
  | ImportData text => importData h text
  | SyncData => syncData h
  | SimulateRealtimeActivity pick => simulateRealtimeActivity h pick
  end.

Definition is_import (c : Command) : bool :=
  match c with ImportData _ => true | _ => false end.

(** A computation takes every world to one related to it by [R], however
    it ends. *)
Definition keeps (R : World → World → Prop) {A} (c : M A) : Prop :=
  ∀ w, R w (exec c w).

(** [w'] continues [w]: the tasks of [w] are there, under their ids and in
    their places, possibly followed by new ones; so are the columns and
    the notifications and downloads; the activity feed has grown at its
    front; users, current user, filters and the initialised flag are the
    same. *)
Definition extends (w w' : World) : Prop :=
  Task.id <$> tasks w `prefix_of` Task.id <$> tasks w'
  ∧ columns w `prefix_of` columns w'
  ∧ activities w `suffix_of` activities w'
  ∧ notifications w `prefix_of` notifications w'
  ∧ downloads w `prefix_of` downloads w'
  ∧ users w' = users w
  ∧ currentUser w' = currentUser w
  ∧ filters w' = filters w
  ∧ isInitialized w' = isInitialized w.

(** A storage in step with the collections stays so. *)
Definition stays_persisted (h : Host) (w w' : World) : Prop :=
  persisted h w → persisted h w'.

(** The [storage] event concerns one of the two items the listener
    watches. *)
Definition watched (e : StorageEvent) : Prop :=
  key e = Some "taskflow-tasks" ∨ key e = Some "taskflow-activities".

(** [v[k]] holds no array: [importData] skips the collection. *)
Definition no_array (v : json) (k : string) : Prop :=
  match v with
  | JObj o => match prop k o with Some (JArr _) => False | _ => True end
  | _ => True
  end.

Definition import_failed : Notification.t :=
  Notification.mk "Import Failed" "Invalid file format" "error".

Definition import_successful : Notification.t :=
  Notification.mk "Import Successful" "Data has been imported successfully"
    "success".

(** A command that may set a task's column without deriving its status:
    the edit of a task, and an import. *)
Definition may_edit (c : Command) : bool :=
  match c with
  | SaveTask (Some form) => is_editing form
  | ImportData _ => true
  | _ => false
  end.

(** Every control of the task form is on the page. *)
Definition complete (form : TaskForm) : Prop :=
  is_Some (task_title form) ∧ is_Some (task_description form)
  ∧ is_Some (task_priority form) ∧ is_Some (task_assignee form)
  ∧ is_Some (task_due_date form) ∧ is_Some (task_column form)
  ∧ is_Some (task_tags form).

(** A task whose texts are as [saveTask] stores them: no white space
    around title and description, a priority and a column, clean tags. *)
Definition tidy (task : Task.t) : Prop :=
  JsString.trim (Task.title task) = Task.title task
  ∧ (∀ d, Task.description task = Some d → JsString.trim d = d)
  ∧ Task.priority task ≠ EmptyString
  ∧ Task.columnId task ≠ EmptyString
  ∧ Forall clean_tag (Task.tags task).

(** The task with [updatedAt] set to [u] and each optional text it lacks
    set to the empty text. *)
Definition resaved (task : Task.t) (u : string) : Task.t :=
  Task.mk (Task.id task) (Task.title task)
    (Some (default EmptyString (Task.description task))) (Task.status task)
    (Task.priority task)
    (Some (default EmptyString (Task.assigneeId task)))
    (Some (default EmptyString (Task.dueDate task)))
    (Task.createdAt task) u (Task.tags task) (Task.columnId task).
(** * Properties *)

(** ** Running computations *)

Lemma run_gets {A B} (f : World → A) (k : A → M B) (w : World) :
  (gets f ≫= k) w = k (f w) w.
Proof. reflexivity. Qed.

Lemma run_modify {B} (g : World → World) (k : unit → M B) (w : World) :
  (modify g ≫= k) w = k tt (g w).
Proof. reflexivity. Qed.

Lemma run_now {B} (h : Host) (k : Z → M B) (w : World) :
  (now h ≫= k) w
  = k (clock h (clockReads w)) (set_clockReads (S (clockReads w)) w).
Proof. reflexivity. Qed.

Lemma preserves_bind {A B C} (f : World → C) (c : M A) (k : A → M B) :
  preserves f c → (∀ a, preserves f (k a)) → preserves f (c ≫= k).
Proof.
  intros Hc Hk w. unfold exec, mbind, M_bind.
  specialize (Hc w). unfold exec in Hc.
  destruct (c w) as [[a|e|] w1]; simpl in *; try exact Hc.
  rewrite <- Hc. apply Hk.
Qed.

Lemma preserves_try_catch {A C} (f : World → C) (c : M A)
    (k : JsError → M A) :
  preserves f c → (∀ e, preserves f (k e)) → preserves f (try_catch c k).
Proof.
  intros Hc Hk w. unfold exec, try_catch.
  specialize (Hc w). unfold exec in Hc.
  destruct (c w) as [[a|e|] w1]; simpl in *; try exact Hc.
  rewrite <- Hc. apply Hk.
Qed.

Lemma preserves_ret {A C} (f : World → C) (a : A) : preserves f (mret a).
Proof. intros w. reflexivity. Qed.

(** What the helpers leave alone, by computation. *)
Ltac frame_prim :=
  let w := fresh "w" in
  intros w; unfold exec; cbv [now random16777215 this_currentUser
    saveToStorage save_tasks save_columns save_users save_activities
    showNotification renderCurrentView renderActivityFeed showFormErrors
    clearFormErrors closeTaskModal addActivity gets modify throw typed parse
    mbind M_bind mret M_ret];
  destruct w as [cu ? ? ? ? ? ? ? ? ? ? ? ?]; simpl;
  try destruct cu; reflexivity.

Lemma addActivity_tasks h ty m t : preserves tasks (addActivity h ty m t).
Proof. frame_prim. Qed.
Lemma addActivity_columns h ty m t : preserves columns (addActivity h ty m t).
Proof. frame_prim. Qed.
Lemma addActivity_users h ty m t : preserves users (addActivity h ty m t).
Proof. frame_prim. Qed.
Lemma showNotification_tasks a b c : preserves tasks (showNotification a b c).
Proof. frame_prim. Qed.
Lemma showNotification_columns a b c :
  preserves columns (showNotification a b c).
Proof. frame_prim. Qed.
Lemma save_tasks_tasks h : preserves tasks (save_tasks h).
Proof. frame_prim. Qed.
Lemma save_tasks_columns h : preserves columns (save_tasks h).
Proof. frame_prim. Qed.
Lemma this_currentUser_any {C} (f : World → C) : preserves f this_currentUser.
Proof. frame_prim. Qed.
Lemma closeTaskModal_tasks : preserves tasks closeTaskModal.
Proof. frame_prim. Qed.
Lemma renderCurrentView_any {C} (f : World → C) : preserves f renderCurrentView.
Proof. frame_prim. Qed.

Create HintDb frame.

#[local] Hint Resolve preserves_ret addActivity_tasks addActivity_columns
  addActivity_users showNotification_tasks showNotification_columns
  save_tasks_tasks save_tasks_columns this_currentUser_any
  closeTaskModal_tasks renderCurrentView_any : frame.

Ltac frame :=
  repeat first
    [ solve [auto with frame]
    | apply preserves_bind; [| intros ?]
    | apply preserves_try_catch; [| intros ?]
    | solve [frame_prim] ].

(** ** The string methods on examples *)

Example includes_ex : JsString.includes "payment gateway" "gate" = true.
Proof. reflexivity. Qed.
Example replace_ex :
  JsString.replace "col-" EmptyString "col-in-progress" = "in-progress".
Proof. reflexivity. Qed.
Example replace_first_only_ex :
  JsString.replace "col-" EmptyString "col-col-x" = "col-x".
Proof. reflexivity. Qed.
Example trim_ex : JsString.trim "  a b	 " = "a b".
Proof. reflexivity. Qed.
Example split_ex :
  JsString.split "," "a, b,,c" = ["a"; " b"; EmptyString; "c"].
Proof. reflexivity. Qed.
Example split_empty_ex : JsString.split "," EmptyString = [EmptyString].
Proof. reflexivity. Qed.
Example lower_ex : JsString.toLowerCase "API Integration" = "api integration".
Proof. reflexivity. Qed.

(** ** Arrays updated through [find] *)

Section UpdateFirst.
Context {A : Type} (p : A → bool) (f : A → A).

Lemma find_update_first (l : list A) :
  (∀ x, p x = true → p (f x) = true) →
  List.find p (update_first p f l) = f <$> List.find p l.
Proof.
  intros Hp. induction l as [|x l IH]; simpl; [reflexivity|].
  destruct (p x) eqn:Hx; simpl.
  - rewrite (Hp x Hx). reflexivity.
  - rewrite Hx. exact IH.
Qed.

Lemma update_first_none (l : list A) :
  List.find p l = None → update_first p f l = l.
Proof.
  induction l as [|x l IH]; simpl; [reflexivity|].
  destruct (p x); [discriminate|]. intros H. f_equal. auto.
Qed.

(** Only the first match changes; what comes before and after stays. *)
Lemma update_first_split (l : list A) (x : A) :
  List.find p l = Some x →
  ∃ l1 l2, l = l1 ++ x :: l2 ∧ update_first p f l = l1 ++ f x :: l2
           ∧ List.find p l1 = None.
Proof.
  induction l as [|y l IH]; simpl; [discriminate|].
  destruct (p y) eqn:Hy.
  - intros [= ->]. exists [], l. simpl. auto.
  - intros H. destruct (IH H) as (l1 & l2 & -> & Hu & Hn).
    exists (y :: l1), l2. simpl. rewrite Hu, Hy. auto.
Qed.

Lemma Forall_update_first (P : A → Prop) (l : list A) :
  (∀ x, P x → P (f x)) → Forall P l → Forall P (update_first p f l).
Proof.
  intros Hf. induction 1 as [|y l Hy Hl IH]; simpl; [constructor|].
  destruct (p y); constructor; auto.
Qed.

End UpdateFirst.

(** Drop a computation that preserves [f] from under [f]. *)
Ltac skip_tail f :=
  match goal with
  | |- context [f (snd (?c ?w0))] =>
      let H := fresh in
      assert (H : preserves f c) by frame;
      change (snd (c w0)) with (exec c w0);
      rewrite (H w0); clear H
  end.

(** ** Status and column in lockstep *)

(** On an id that starts with [col-], as all ids of the sample data and of
    [addColumn] do, deriving the status is stripping that prefix. *)
Lemma derived_status_prefix (rest : string) :
  derived_status ("col-" +:+ rest) = rest.
Proof. destruct rest; reflexivity. Qed.

Lemma moveTask_tasks (h : Host) (w : World) (taskId newColumnId : string) :
  tasks (exec (moveTask h taskId newColumnId) w) = tasks w
  ∨ tasks (exec (moveTask h taskId newColumnId) w)
    = update_first (has_id Task.id taskId)
        (Task.set_placement newColumnId (derived_status newColumnId)
           (toISOString h (clock h (clockReads w))))
        (tasks w).
Proof.
  unfold exec, moveTask. rewrite run_gets. simpl.
  destruct (find (has_id Task.id taskId) (tasks w)) as [task|];
    [|left; reflexivity].
  destruct (find (has_id Column.id newColumnId) (columns w)) as [col|];
    [|left; reflexivity].
  right. rewrite run_now, run_modify. skip_tail tasks. reflexivity.
Qed.

(** [moveTask] keeps status and column in lockstep. *)
Lemma moveTask_lockstep (h : Host) (w : World) (taskId newColumnId : string) :
  Forall lockstep (tasks w) →
  Forall lockstep (tasks (exec (moveTask h taskId newColumnId) w)).
Proof.
  intros H. destruct (moveTask_tasks h w taskId newColumnId) as [-> | ->];
    [exact H|].
  apply Forall_update_first; [|exact H]. intros x _. reflexivity.
Qed.

Lemma toggle_column (s : string) :
  (if String.eqb (if String.eqb s "done" then "todo" else "done") "done"
   then "col-done" else "col-todo")
  = (if String.eqb s "done" then "col-todo" else "col-done").
Proof. destruct (String.eqb s "done"); reflexivity. Qed.

Lemma toggleTaskCompletion_tasks (h : Host) (w : World) (taskId : string)
    (task : Task.t) :
  List.find (has_id Task.id taskId) (tasks w) = Some task →
  tasks (exec (toggleTaskCompletion h taskId) w)
  = update_first (has_id Task.id taskId)
      (Task.set_placement
         (if String.eqb (Task.status task) "done" then "col-todo"
          else "col-done")
         (if String.eqb (Task.status task) "done" then "todo" else "done")
         (toISOString h (clock h (clockReads w))))
      (tasks w).
Proof.
  intros Hfind. unfold exec, toggleTaskCompletion.
  rewrite run_gets. simpl. rewrite Hfind, run_now, run_modify, toggle_column.
  skip_tail tasks. reflexivity.
Qed.

Lemma toggleTaskCompletion_missing (h : Host) (w : World) (taskId : string) :
  List.find (has_id Task.id taskId) (tasks w) = None →
  toggleTaskCompletion h taskId w = (Normal tt, w).
Proof.
  intros Hfind. unfold toggleTaskCompletion. rewrite run_gets. simpl.
  rewrite Hfind. reflexivity.
Qed.

(** [toggleTaskCompletion] keeps status and column in lockstep. *)
Lemma toggleTaskCompletion_lockstep (h : Host) (w : World) (taskId : string) :
  Forall lockstep (tasks w) →
  Forall lockstep (tasks (exec (toggleTaskCompletion h taskId) w)).
Proof.
  intros H.
  destruct (find (has_id Task.id taskId) (tasks w)) as [task|] eqn:Hfind.
  - rewrite (toggleTaskCompletion_tasks h w taskId task Hfind).
    apply Forall_update_first; [|exact H]. intros x _. unfold lockstep. simpl.
    destruct (String.eqb (Task.status task) "done"); reflexivity.
  - unfold exec. rewrite toggleTaskCompletion_missing by exact Hfind. exact H.
Qed.

(** C9.  For an existing task, [toggleTaskCompletion] sets status [done]
    and column [col-done] when the status was anything but [done], and
    status [todo] and column [col-todo] when it was [done]; the columns of
    the board are neither consulted nor changed, so the outcome is the same
    whatever columns exist. *)
Theorem toggleTaskCompletion_flips (h : Host) (w : World) (taskId : string)
    (task : Task.t) :
  List.find (has_id Task.id taskId) (tasks w) = Some task →
  let w' := exec (toggleTaskCompletion h taskId) w in
  (∃ task', List.find (has_id Task.id taskId) (tasks w') = Some task'
     ∧ (Task.status task ≠ "done" →
        Task.status task' = "done" ∧ Task.columnId task' = "col-done")
     ∧ (Task.status task = "done" →
        Task.status task' = "todo" ∧ Task.columnId task' = "col-todo"))
  ∧ columns w' = columns w
  ∧ ∀ cols, tasks (exec (toggleTaskCompletion h taskId) (set_columns cols w))
            = tasks w'.
Proof.
  intros Hfind w'. subst w'. split; [|split].
  - rewrite (toggleTaskCompletion_tasks h w taskId task Hfind).
    rewrite find_update_first by (intros x Hx; exact Hx).
    rewrite Hfind. simpl. eexists. split; [reflexivity|]. simpl.
    destruct (String.eqb_spec (Task.status task) "done") as [Heq|Hne].
    + split; [intros Hn; contradiction | intros _; split; reflexivity].
    + split; [intros _; split; reflexivity | intros He; contradiction].
  - unfold exec, toggleTaskCompletion. rewrite run_gets. simpl.
    rewrite Hfind, run_now, run_modify. skip_tail columns. reflexivity.
  - intros cols.
    rewrite (toggleTaskCompletion_tasks h w taskId task Hfind).
    rewrite (toggleTaskCompletion_tasks h (set_columns cols w) taskId task)
      by exact Hfind.
    reflexivity.
Qed.

(** On a board that has no [col-done] column, completing a task leaves
    it in a column that does not exist. *)
Lemma toggleTaskCompletion_flips_witness :
  let w := set_columns (firstn 2 Sample.columns) Sample.world in
  let w' := exec (toggleTaskCompletion Sample.host "task-2") w in
  (∃ task', List.find (has_id Task.id "task-2") (tasks w') = Some task'
     ∧ Task.status task' = "done" ∧ Task.columnId task' = "col-done"
     ∧ List.find (has_id Column.id (Task.columnId task')) (columns w') = None).
Proof.
  intros w w'.
  destruct (toggleTaskCompletion_flips Sample.host w "task-2"
              (Task.mk "task-2" "API Integration"
                 (Some "Integrate payment gateway API with the checkout system")
                 "todo" "critical" (Some "user-2") (Some "2025-08-10")
                 "2025-08-01T09:00:00Z" "2025-08-01T09:00:00Z"
                 ["backend"; "api"] "col-todo") eq_refl)
    as ((task' & Hf & Hnot & _) & Hcols & _).
  exists task'. destruct Hnot as [Hs Hc]; [discriminate|].
  split; [exact Hf|]. split; [exact Hs|]. split; [exact Hc|].
  fold w' in Hcols. rewrite Hcols, Hc. reflexivity.
Defined.

(** ** Validation *)

Lemma long_is_truthy (s : string) (n : nat) :
  (n <? String.length s)%nat = true → JsString.truthy s = true.
Proof.
  destruct s; [|reflexivity]. simpl. intros H. apply Nat.ltb_lt in H. lia.
Qed.

Lemma validateTaskForm_run (h : Host) (d : TaskData.t) (w : World) :
  validateTaskForm h d w
  = (Normal (errors_of h d (startOfDay h (clock h (clockReads w)))),
     tick_if (JsString.truthy (TaskData.dueDate d)) w).
Proof.
  unfold validateTaskForm, errors_of, dueDate_rejected, description_rejected,
    tags_rejected, tick_if.
  assert (Hd : JsString.truthy (TaskData.description d)
               && (500 <? String.length (TaskData.description d))%nat
               = (500 <? String.length (TaskData.description d))%nat).
  { destruct (500 <? String.length (TaskData.description d))%nat eqn:E.
    - rewrite (long_is_truthy _ _ E). reflexivity.
    - apply andb_false_r. }
  rewrite Hd.
  destruct (JsString.truthy (TaskData.dueDate d)); simpl.
  - unfold mbind, M_bind, now, mret, M_ret; simpl.
    destruct (parseDate h (TaskData.dueDate d)) as [x|]; simpl.
    + destruct (x <? startOfDay h (clock h (clockReads w))); reflexivity.
    + reflexivity.
  - reflexivity.
Qed.

Lemma errors_of_empty (h : Host) (d : TaskData.t) (today : Z) :
  rejected h d today = false → errors_of h d today = ∅.
Proof.
  unfold rejected, errors_of, title_rejected. intros H.
  repeat (apply orb_false_iff in H; destruct H as [H ?]).
  rewrite H, H0, H1, H2, H3.
  reflexivity.
Qed.

Lemma errors_of_nonempty (h : Host) (d : TaskData.t) (today : Z) :
  rejected h d today = true → (0 <? size (errors_of h d today))%nat = true.
Proof.
  intros H. apply Nat.ltb_lt.
  enough (errors_of h d today ≠ ∅) as Hne.
  { apply map_size_non_empty_iff in Hne. lia. }
  unfold rejected, title_rejected in H. unfold errors_of.
  destruct (tags_rejected d); [apply insert_non_empty|].
  destruct (dueDate_rejected h d today); [apply insert_non_empty|].
  destruct (description_rejected d); [apply insert_non_empty|].
  destruct (negb (JsString.truthy (TaskData.title d)));
    [apply insert_non_empty|].
  destruct (100 <? String.length (TaskData.title d))%nat;
    [apply insert_non_empty|].
  discriminate.
Qed.

(** Which fields the map has an entry for. *)
Lemma errors_of_lookup (h : Host) (d : TaskData.t) (today : Z) :
  (is_Some (errors_of h d today !! "title") ↔ title_rejected d = true)
  ∧ (is_Some (errors_of h d today !! "description")
     ↔ description_rejected d = true)
  ∧ (is_Some (errors_of h d today !! "dueDate")
     ↔ dueDate_rejected h d today = true)
  ∧ (is_Some (errors_of h d today !! "tags") ↔ tags_rejected d = true)
  ∧ ∀ k, is_Some (errors_of h d today !! k) →
         k ∈ ["title"; "description"; "dueDate"; "tags"].
Proof.
  unfold errors_of, title_rejected.
  destruct (tags_rejected d), (dueDate_rejected h d today),
    (description_rejected d), (negb (JsString.truthy (TaskData.title d))),
    (100 <? String.length (TaskData.title d))%nat; simpl;
  repeat split; intros; simplify_map_eq; try done;
  try (match goal with H : is_Some _ |- _ => destruct H as [? H] end);
  repeat (match goal with
          | H : <[?a:=_]> _ !! ?k = Some _ |- _ =>
              destruct (decide (a = k)) as [<-|];
              [set_solver | rewrite lookup_insert_ne in H by done]
          | H : {[?a:=_]} !! ?k = Some _ |- _ =>
              destruct (decide (a = k)) as [<-|];
              [set_solver | rewrite lookup_singleton_ne in H by done]
          end); try done.
Qed.

(** ** [saveTask] *)

Lemma run_bind {A B} (c : M A) (k : A → M B) (w w1 : World) (a : A) :
  c w = (Normal a, w1) → (c ≫= k) w = k a w1.
Proof. intros H. unfold mbind, M_bind. rewrite H. reflexivity. Qed.

Lemma exec_bind_preserves {A B C} (f : World → C) (c : M A) (k : A → M B) :
  (∀ a, preserves f (k a)) → ∀ w, f (exec (c ≫= k) w) = f (exec c w).
Proof.
  intros Hk w. unfold exec, mbind, M_bind.
  destruct (c w) as [[a|e|] w1]; simpl; try reflexivity. apply Hk.
Qed.

Lemma exec_try_catch_preserves {A C} (f : World → C) (c : M A)
    (k : JsError → M A) :
  (∀ e, preserves f (k e)) → ∀ w, f (exec (try_catch c k) w) = f (exec c w).
Proof.
  intros Hk w. unfold exec, try_catch.
  destruct (c w) as [[a|e|] w1]; simpl; try reflexivity. apply Hk.
Qed.

Lemma clockReads_set (n : nat) (w : World) :
  clockReads (set_clockReads n w) = n.
Proof. reflexivity. Qed.

(** A rejected form: the errors are shown, a notification is raised, and
    that is all. *)
Lemma saveTask_rejected (h : Host) (form : TaskForm) (w : World) :
  form_rejected h form w = true →
  saveTask h (Some form) w
  = (Normal tt,
     set_notifications
       (notifications w ++
        [Notification.mk "Validation Error" "Please fix the errors in the form"
           "error"])
       (set_formErrors (errors_of h (form_data h form w) (form_today h w))
          (tick_if (JsString.truthy (TaskData.dueDate (form_data h form w)))
             (set_clockReads (S (clockReads w)) w)))).
Proof.
  unfold form_rejected. intros Hrej. unfold saveTask.
  rewrite run_now.
  erewrite run_bind by apply validateTaskForm_run.
  rewrite !clockReads_set. fold (form_data h form w) (form_today h w).
  rewrite (errors_of_nonempty _ _ _ Hrej).
  unfold tick_if.
  destruct (JsString.truthy (TaskData.dueDate (form_data h form w)));
    reflexivity.
Qed.

Lemma tasks_tick_if b w : tasks (tick_if b w) = tasks w.
Proof. destruct b; reflexivity. Qed.

(** An accepted edit assigns the form's data to the first task with the
    id of the form. *)
Lemma saveTask_edit_tasks (h : Host) (form : TaskForm) (w : World)
    (taskId : string) :
  dataset_taskId form = Some taskId →
  JsString.truthy taskId = true →
  form_rejected h form w = false →
  tasks (exec (saveTask h (Some form)) w)
  = update_first (has_id Task.id taskId)
      (λ task, TaskData.assign task (form_data h form w)) (tasks w).
Proof.
  unfold form_rejected. intros Hid Htruthy Hok. unfold exec, saveTask.
  rewrite run_now.
  erewrite run_bind by apply validateTaskForm_run.
  rewrite !clockReads_set. fold (form_data h form w) (form_today h w).
  rewrite (errors_of_empty _ _ _ Hok), map_size_empty.
  change (0 <? 0)%nat with false. cbv iota.
  unfold clearFormErrors. rewrite run_modify.
  match goal with |- context [snd (?c ?w0)] =>
    change (snd (c w0)) with (exec c w0) end.
  rewrite exec_try_catch_preserves by (intros ?; frame).
  rewrite exec_bind_preserves by (intros ?; frame).
  rewrite Hid, Htruthy. simpl.
  unfold exec. rewrite run_gets. simpl. rewrite tasks_tick_if. simpl.
  destruct (find (has_id Task.id taskId) (tasks w)) as [task|] eqn:Hfind.
  - match goal with |- context [snd (?c ?w0)] =>
      change (snd (c w0)) with (exec c w0) end.
    rewrite exec_bind_preserves by (intros ?; frame).
    unfold exec, modify. simpl. rewrite tasks_tick_if. reflexivity.
  - simpl. rewrite tasks_tick_if. simpl.
    rewrite update_first_none by exact Hfind. reflexivity.
Qed.

Lemma saveTask_create_tasks (h : Host) (form : TaskForm) (w : World) :
  is_editing form = false →
  form_rejected h form w = false →
  tasks (exec (saveTask h (Some form)) w)
  = tasks w ++ [created_task h form w].
Proof.
  unfold form_rejected, is_editing. intros Hid Hok. unfold exec, saveTask.
  rewrite run_now.
  erewrite run_bind by apply validateTaskForm_run.
  rewrite !clockReads_set. fold (form_data h form w) (form_today h w).
  rewrite (errors_of_empty _ _ _ Hok), map_size_empty.
  change (0 <? 0)%nat with false. cbv iota.
  unfold clearFormErrors. rewrite run_modify.
  match goal with |- context [snd (?c ?w0)] =>
    change (snd (c w0)) with (exec c w0) end.
  rewrite exec_try_catch_preserves by (intros ?; frame).
  rewrite exec_bind_preserves by (intros ?; frame).
  rewrite Hid.
  unfold exec. rewrite !run_now, run_modify.
  match goal with |- context [snd (?c ?w0)] =>
    change (snd (c w0)) with (exec c w0) end.
  assert (Htail : ∀ (c : M unit) w0, preserves tasks c → tasks (exec c w0) = tasks w0)
    by (intros c w0 Hc; apply Hc).
  rewrite Htail by frame. unfold created_task, derived_status.
  cbn -[tick_if form_data JsString.replace]. rewrite tasks_tick_if.
  reflexivity.
Qed.

Lemma rejected_iff (h : Host) (d : TaskData.t) (today : Z) :
  rejected h d today = true ↔ fails_validation h d today.
Proof.
  unfold rejected, fails_validation, title_rejected, description_rejected,
    dueDate_rejected, tags_rejected.
  rewrite !orb_true_iff, negb_true_iff, andb_true_iff, !Nat.ltb_lt.
  assert (Ht : ∀ s, JsString.truthy s = false ↔ s = EmptyString).
  { intros [|c s]; simpl; split; congruence. }
  assert (Hn : ∀ s, JsString.truthy s = true ↔ s ≠ EmptyString).
  { intros [|c s]; simpl; split; congruence. }
  rewrite Ht, Hn.
  assert (Hd : match parseDate h (TaskData.dueDate d) with
               | Some dueDate => (dueDate <? today)%Z
               | None => false
               end = true
               ↔ ∃ due, parseDate h (TaskData.dueDate d) = Some due
                        ∧ due < today).
  { destruct (parseDate h (TaskData.dueDate d)) as [x|].
    - rewrite Z.ltb_lt. split; [eauto|]. intros (y & [= <-] & Hy). exact Hy.
    - split; [discriminate|]. intros (y & Hy & _). discriminate. }
  rewrite Hd. tauto.
Qed.

Lemma title_rejected_iff (d : TaskData.t) :
  title_rejected d = true
  ↔ TaskData.title d = EmptyString
    ∨ (100 < String.length (TaskData.title d))%nat.
Proof.
  unfold title_rejected. rewrite orb_true_iff, negb_true_iff, Nat.ltb_lt.
  destruct (TaskData.title d); simpl; intuition congruence.
Qed.

(** C5.  A title of more than 100 characters (after trimming) is rejected
    with the title message and no task is added; a title of exactly 100
    characters, in a form whose other fields are in order, is accepted and
    the task is appended.  Whenever a check fails, [saveTask] ends normally
    having shown a non-empty map of messages keyed by the failing fields,
    and tasks, columns, users, activities and local storage are
    untouched. *)
Theorem saveTask_validation_all_or_nothing (h : Host) (form : TaskForm)
    (w : World) :
  let d := form_data h form w in
  let today := form_today h w in
  let w' := exec (saveTask h (Some form)) w in
  ((100 < String.length (TaskData.title d))%nat →
     formErrors w' !! "title"
     = Some "Task title must be 100 characters or less"
     ∧ tasks w' = tasks w)
  ∧ (String.length (TaskData.title d) = 100%nat →
     ¬ fails_validation h d today →
     is_editing form = false →
     ∃ t, tasks w' = tasks w ++ [t] ∧ Task.title t = TaskData.title d)
  ∧ (fails_validation h d today →
     fst (saveTask h (Some form) w) = Normal tt
     ∧ formErrors w' ≠ ∅
     ∧ (∀ k, is_Some (formErrors w' !! k) →
             k ∈ ["title"; "description"; "dueDate"; "tags"])
     ∧ (is_Some (formErrors w' !! "title")
        ↔ TaskData.title d = EmptyString
          ∨ (100 < String.length (TaskData.title d))%nat)
     ∧ (is_Some (formErrors w' !! "description")
        ↔ (500 < String.length (TaskData.description d))%nat)
     ∧ (is_Some (formErrors w' !! "dueDate")
        ↔ dueDate_rejected h d today = true)
     ∧ (is_Some (formErrors w' !! "tags")
        ↔ (10 < length (TaskData.tags d))%nat)
     ∧ tasks w' = tasks w ∧ columns w' = columns w ∧ users w' = users w
     ∧ activities w' = activities w ∧ localStorage w' = localStorage w).
Proof.
  intros d today w'. subst d today w'.
  assert (Hrej : fails_validation h (form_data h form w) (form_today h w) →
                 saveTask h (Some form) w
                 = (Normal tt,
                    set_notifications
                      (notifications w ++
                       [Notification.mk "Validation Error"
                          "Please fix the errors in the form" "error"])
                      (set_formErrors
                         (errors_of h (form_data h form w) (form_today h w))
                         (tick_if
                            (JsString.truthy
                               (TaskData.dueDate (form_data h form w)))
                            (set_clockReads (S (clockReads w)) w))))).
  { intros Hf. apply saveTask_rejected. unfold form_rejected.
    apply rejected_iff. exact Hf. }
  split; [|split].
  - intros Hlong. unfold exec. rewrite Hrej by (right; left; exact Hlong).
    simpl. rewrite tasks_tick_if. split; [|reflexivity].
    unfold errors_of.
    assert (Ht : JsString.truthy (TaskData.title (form_data h form w)) = true).
    { apply (long_is_truthy _ 100). apply Nat.ltb_lt. exact Hlong. }
    rewrite Ht. apply Nat.ltb_lt in Hlong. rewrite Hlong. simpl.
    destruct (tags_rejected _), (dueDate_rejected _ _ _),
      (description_rejected _); by simplify_map_eq.
  - intros Hlen Hok Hnew. exists (created_task h form w). split.
    + apply saveTask_create_tasks; [exact Hnew|]. unfold form_rejected.
      destruct (rejected h (form_data h form w) (form_today h w)) eqn:E;
        [|reflexivity].
      exfalso. apply Hok, rejected_iff, E.
    + reflexivity.
  - intros Hf. unfold exec. rewrite (Hrej Hf). simpl.
    destruct (errors_of_lookup h (form_data h form w) (form_today h w))
      as (Ht & Hd & Hdue & Htags & Hdom).
    split; [reflexivity|]. split.
    { pose proof (errors_of_nonempty h _ _ (proj2 (rejected_iff _ _ _) Hf))
        as Hs.
      apply Nat.ltb_lt in Hs. apply map_size_non_empty_iff. lia. }
    split; [exact Hdom|].
    split.
    { rewrite Ht. apply title_rejected_iff. }
    split.
    { rewrite Hd. unfold description_rejected. apply Nat.ltb_lt. }
    split; [exact Hdue|].
    split.
    { rewrite Htags. unfold tags_rejected. apply Nat.ltb_lt. }
    repeat match goal with
           | |- context [tick_if ?b _] => destruct b; simpl
           end.
    all: repeat split; reflexivity.
Qed.

(** The boundary on the sample board: 101 letters are turned down, 100
    letters make a task. *)
Lemma saveTask_validation_all_or_nothing_witness :
  let too_long := Sample.new_form (Sample.letters 101) in
  let just_fits := Sample.new_form (Sample.letters 100) in
  let w1 := exec (saveTask Sample.host (Some too_long)) Sample.world in
  let w2 := exec (saveTask Sample.host (Some just_fits)) Sample.world in
  (formErrors w1 !! "title" = Some "Task title must be 100 characters or less"
   ∧ tasks w1 = tasks Sample.world)
  ∧ (∃ t, tasks w2 = tasks Sample.world ++ [t]
          ∧ Task.title t = Sample.letters 100)
  ∧ (activities w1 = activities Sample.world
     ∧ localStorage w1 = localStorage Sample.world).
Proof.
  intros too_long just_fits w1 w2.
  destruct (saveTask_validation_all_or_nothing Sample.host too_long
              Sample.world) as (H1 & _ & H3).
  destruct (saveTask_validation_all_or_nothing Sample.host just_fits
              Sample.world) as (_ & H2 & _).
  split; [|split].
  - apply H1. vm_compute. lia.
  - destruct H2 as (t & Ht & Htitle).
    + vm_compute. reflexivity.
    + intros [H|[H|[H|[[H _]|H]]]].
      * vm_compute in H. discriminate H.
      * vm_compute in H. lia.
      * vm_compute in H. lia.
      * apply H. reflexivity.
      * vm_compute in H. lia.
    + reflexivity.
    + exists t. split; [exact Ht|]. rewrite Htitle. vm_compute. reflexivity.
  - destruct H3 as (_ & _ & _ & _ & _ & _ & _ & _ & _ & _ & Ha & Hl).
    + right; left. vm_compute. lia.
    + split; [exact Ha | exact Hl].
Defined.

(** ** Editing a task *)

(** C10.  An accepted edit of an existing task replaces that task, at its
    place in the array, by one with the same [id], [createdAt] (and
    [status]) whose seven form fields are those computed from the form,
    and leaves the tasks before and after it as they were.  A control that
    holds no value thus yields the empty string, or no tags, whatever the
    task had before. *)
Theorem saveTask_edit_overwrites_form_fields (h : Host) (form : TaskForm)
    (w : World) (taskId : string) (task : Task.t) :
  dataset_taskId form = Some taskId →
  JsString.truthy taskId = true →
  List.find (has_id Task.id taskId) (tasks w) = Some task →
  form_rejected h form w = false →
  let w' := exec (saveTask h (Some form)) w in
  ∃ before after task',
    tasks w = before ++ task :: after
    ∧ tasks w' = before ++ task' :: after
    ∧ Task.id task' = Task.id task
    ∧ Task.createdAt task' = Task.createdAt task
    ∧ Task.status task' = Task.status task
    ∧ Task.title task'
      = JsString.trim (JsString.or_default (task_title form) EmptyString)
    ∧ Task.description task'
      = Some (JsString.trim
                (JsString.or_default (task_description form) EmptyString))
    ∧ Task.priority task' = JsString.or_default (task_priority form) "medium"
    ∧ Task.assigneeId task'
      = Some (JsString.or_default (task_assignee form) EmptyString)
    ∧ Task.dueDate task'
      = Some (JsString.or_default (task_due_date form) EmptyString)
    ∧ Task.columnId task'
      = JsString.or_default (task_column form) "col-backlog"
    ∧ Task.tags task'
      = List.filter JsString.truthy
          (JsString.trim <$>
             JsString.split ","
               (JsString.or_default (task_tags form) EmptyString))
    ∧ (task_description form = None →
       Task.description task' = Some EmptyString)
    ∧ (task_assignee form = None → Task.assigneeId task' = Some EmptyString)
    ∧ (task_due_date form = None → Task.dueDate task' = Some EmptyString)
    ∧ (task_tags form = None → Task.tags task' = []).
Proof.
  intros Hid Htruthy Hfind Hok w'. subst w'.
  rewrite (saveTask_edit_tasks h form w taskId Hid Htruthy Hok).
  destruct (update_first_split (has_id Task.id taskId)
              (λ task, TaskData.assign task (form_data h form w))
              (tasks w) task Hfind) as (before & after & Hw & Hw' & _).
  exists before, after, (TaskData.assign task (form_data h form w)).
  split; [exact Hw|]. split; [exact Hw'|].
  repeat (split; [reflexivity|]).
  repeat split; intros Hnone; simpl; rewrite Hnone; reflexivity.
Qed.

(** Saving the edit form of [task-2] with every optional control emptied:
    the description, assignee, due date and tags the task had are gone. *)
Lemma saveTask_edit_overwrites_form_fields_witness :
  let form :=
    mkTaskForm (Some "task-2") (Some "API Integration") None (Some "critical")
      None None (Some "col-todo") None in
  let w' := exec (saveTask Sample.host (Some form)) Sample.world in
  ∃ before after task',
    tasks Sample.world = before ++ Sample.task2 :: after
    ∧ tasks w' = before ++ task' :: after
    ∧ Task.id task' = "task-2"
    ∧ Task.createdAt task' = "2025-08-01T09:00:00Z"
    ∧ Task.description task' = Some EmptyString
    ∧ Task.assigneeId task' = Some EmptyString
    ∧ Task.dueDate task' = Some EmptyString
    ∧ Task.tags task' = [].
Proof.
  intros form w'.
  destruct (saveTask_edit_overwrites_form_fields Sample.host form Sample.world
              "task-2" Sample.task2 eq_refl eq_refl eq_refl eq_refl)
    as (before & after & task' & Hw & Hw' & Hi & Hc & _ & _ & _ & _ & _ & _
        & _ & _ & Hd & Ha & Hdue & Ht).
  exists before, after, task'.
  split; [exact Hw|]. split; [exact Hw'|]. split; [exact Hi|].
  split; [exact Hc|]. split; [exact (Hd eq_refl)|].
  split; [exact (Ha eq_refl)|]. split; [exact (Hdue eq_refl)|].
  exact (Ht eq_refl).
Defined.

(** ** What a mutation does to [updatedAt] *)

Lemma map_update_first_twice {A B} (p : A → bool) (f1 f2 : A → A)
    (g : A → B) (l : list A) :
  (∀ x, p x = true → p (f1 x) = true) →
  (∀ x, g (f2 (f1 x)) = g (f1 x)) →
  g <$> update_first p f2 (update_first p f1 l) = g <$> update_first p f1 l.
Proof.
  intros Hp Hg. induction l as [|x l IH]; simpl; [reflexivity|].
  destruct (p x) eqn:Hx; simpl.
  - rewrite (Hp x Hx). simpl. rewrite Hg. reflexivity.
  - rewrite Hx. simpl. f_equal. exact IH.
Qed.

Lemma saveTask_rejected_tasks (h : Host) (form : TaskForm) (w : World) :
  form_rejected h form w = true →
  tasks (exec (saveTask h (Some form)) w) = tasks w.
Proof.
  intros H. unfold exec. rewrite (saveTask_rejected h form w H). simpl.
  rewrite tasks_tick_if. reflexivity.
Qed.

Lemma moveTask_found (h : Host) (w : World) (taskId newColumnId : string)
    (task : Task.t) (col : Column.t) :
  List.find (has_id Task.id taskId) (tasks w) = Some task →
  List.find (has_id Column.id newColumnId) (columns w) = Some col →
  tasks (exec (moveTask h taskId newColumnId) w)
  = update_first (has_id Task.id taskId)
      (Task.set_placement newColumnId (derived_status newColumnId)
         (toISOString h (clock h (clockReads w))))
      (tasks w).
Proof.
  intros Ht Hc. unfold exec, moveTask. rewrite run_gets. simpl.
  rewrite Ht, Hc, run_now, run_modify. skip_tail tasks. reflexivity.
Qed.

(** C4, as the code has it.  Saving the same accepted edit a second time
    leaves every task as the first save left it, [updatedAt] apart; and
    each mutation of a task ([saveTask] on an edit, [moveTask],
    [toggleTaskCompletion]) stores as [updatedAt] the ISO text of the
    reading of the clock it takes, whatever the task held before. *)
Theorem updatedAt_is_the_clock_reading (h : Host) (form : TaskForm)
    (w : World) (taskId : string) :
  dataset_taskId form = Some taskId →
  JsString.truthy taskId = true →
  form_rejected h form w = false →
  let w1 := exec (saveTask h (Some form)) w in
  let w2 := exec (saveTask h (Some form)) w1 in
  without_updatedAt <$> tasks w2 = without_updatedAt <$> tasks w1
  ∧ (∀ t1, List.find (has_id Task.id taskId) (tasks w1) = Some t1 →
       Task.updatedAt t1 = toISOString h (clock h (clockReads w)))
  ∧ (form_rejected h form w1 = false →
     ∀ t2, List.find (has_id Task.id taskId) (tasks w2) = Some t2 →
       Task.updatedAt t2 = toISOString h (clock h (clockReads w1)))
  ∧ (∀ i c task col t',
       List.find (has_id Task.id i) (tasks w) = Some task →
       List.find (has_id Column.id c) (columns w) = Some col →
       List.find (has_id Task.id i) (tasks (exec (moveTask h i c) w))
       = Some t' →
       Task.updatedAt t' = toISOString h (clock h (clockReads w)))
  ∧ (∀ i t',
       List.find (has_id Task.id i)
         (tasks (exec (toggleTaskCompletion h i) w)) = Some t' →
       Task.updatedAt t' = toISOString h (clock h (clockReads w))).
Proof.
  intros Hid Htruthy Hok w1 w2.
  assert (H1 : tasks w1
               = update_first (has_id Task.id taskId)
                   (λ task, TaskData.assign task (form_data h form w))
                   (tasks w))
    by (apply saveTask_edit_tasks; assumption).
  split; [|split; [|split; [|split]]].
  - destruct (form_rejected h form w1) eqn:Hrej.
    + subst w2. rewrite (saveTask_rejected_tasks h form w1 Hrej).
      reflexivity.
    + subst w2.
      rewrite (saveTask_edit_tasks h form w1 taskId Hid Htruthy Hrej), H1.
      apply map_update_first_twice.
      * intros x Hx. exact Hx.
      * intros x. reflexivity.
  - intros t1. rewrite H1, find_update_first by (intros x Hx; exact Hx).
    destruct (find (has_id Task.id taskId) (tasks w)); simpl;
      [|discriminate].
    intros [= <-]. reflexivity.
  - intros Hrej t2. subst w2.
    rewrite (saveTask_edit_tasks h form w1 taskId Hid Htruthy Hrej).
    rewrite find_update_first by (intros x Hx; exact Hx).
    destruct (find (has_id Task.id taskId) (tasks w1)); simpl;
      [|discriminate].
    intros [= <-]. reflexivity.
  - intros i c task col t' Ht Hc.
    rewrite (moveTask_found h w i c task col Ht Hc).
    rewrite find_update_first by (intros x Hx; exact Hx).
    rewrite Ht. simpl. intros [= <-]. reflexivity.
  - intros i t'.
    destruct (find (has_id Task.id i) (tasks w)) as [task|] eqn:Ht.
    + rewrite (toggleTaskCompletion_tasks h w i task Ht).
      rewrite find_update_first by (intros x Hx; exact Hx).
      rewrite Ht. simpl. intros [= <-]. reflexivity.
    + unfold exec. rewrite (toggleTaskCompletion_missing h w i Ht). simpl.
      rewrite Ht. discriminate.
Qed.

(** Two saves of the same edit, one second apart on the clock. *)
Lemma updatedAt_is_the_clock_reading_witness :
  let form := Sample.form_of Sample.task2 in
  let w1 := exec (saveTask Sample.host (Some form)) Sample.world in
  let w2 := exec (saveTask Sample.host (Some form)) w1 in
  without_updatedAt <$> tasks w2 = without_updatedAt <$> tasks w1
  ∧ (∀ t1, List.find (has_id Task.id "task-2") (tasks w1) = Some t1 →
       Task.updatedAt t1 = "2025-08-03T00:00:00.000Z").
Proof.
  intros form w1 w2.
  destruct (updatedAt_is_the_clock_reading Sample.host form Sample.world
              "task-2" eq_refl eq_refl eq_refl) as (Hsame & Hfirst & _).
  split; [exact Hsame|]. intros t1 Ht1. rewrite (Hfirst t1 Ht1).
  vm_compute. reflexivity.
Defined.

(** C4, as stated, fails: on a clock that gives the same reading twice,
    the second save of an edit leaves [updatedAt] where the first put it,
    so it has not strictly increased. *)
Lemma updatedAt_not_strictly_increasing :
  let form := Sample.form_of Sample.task2 in
  let w1 := exec (saveTask Sample.frozen_host (Some form)) Sample.world in
  let w2 := exec (saveTask Sample.frozen_host (Some form)) w1 in
  ∃ t1 t2,
    List.find (has_id Task.id "task-2") (tasks w1) = Some t1
    ∧ List.find (has_id Task.id "task-2") (tasks w2) = Some t2
    ∧ Task.updatedAt t2 = Task.updatedAt t1
    ∧ String.ltb (Task.updatedAt t1) (Task.updatedAt t2) = false
    ∧ length (activities w2) = 2%nat.
Proof.
  vm_compute. eexists. eexists.
  split; [reflexivity|]. split; [reflexivity|]. repeat split.
Qed.

(** ** Status and column after each command *)

(** Creating a task keeps status and column in lockstep. *)
Lemma saveTask_create_lockstep (h : Host) (form : TaskForm) (w : World) :
  is_editing form = false →
  Forall lockstep (tasks w) →
  Forall lockstep (tasks (exec (saveTask h (Some form)) w)).
Proof.
  intros Hnew H. destruct (form_rejected h form w) eqn:Hrej.
  - rewrite (saveTask_rejected_tasks h form w Hrej). exact H.
  - rewrite (saveTask_create_tasks h form w Hnew Hrej).
    apply Forall_app. split; [exact H|]. constructor; [|constructor].
    reflexivity.
Qed.

(** C1 fails on the edit path of [saveTask].  On the sample board, where
    every task has the status of its column, saving the edit form of
    [task-2] with the column changed to [col-done] moves the task to that
    column and leaves its status [todo]. *)
Theorem saveTask_edit_leaves_status_stale :
  let w' := exec (saveTask Sample.host (Some Sample.task2_to_done))
              Sample.world in
  Forall lockstep (tasks Sample.world)
  ∧ ∃ t, List.find (has_id Task.id "task-2") (tasks w') = Some t
         ∧ Task.columnId t = "col-done"
         ∧ Task.status t = "todo"
         ∧ ¬ lockstep t.
Proof.
  split.
  - repeat constructor.
  - vm_compute. eexists. split; [reflexivity|].
    split; [reflexivity|]. split; [reflexivity|]. discriminate.
Qed.

(** ** Moving a task *)

(** A task created in [col-todo] has status [todo]; moved to [col-done]
    it has status [done], one [task_moved] activity is on top of the feed
    and [updatedAt] holds the later reading of the clock. *)
Example create_then_move :
  let form :=
    mkTaskForm None (Some "X") None None None None (Some "col-todo") None in
  let w1 := exec (saveTask Sample.host (Some form)) Sample.world in
  let w2 := exec (moveTask Sample.host "task-1754179201000" "col-done") w1 in
  (Task.status <$> last (tasks w1)) = Some "todo"
  ∧ (Task.id <$> last (tasks w1)) = Some "task-1754179201000"
  ∧ (Task.status <$> last (tasks w2)) = Some "done"
  ∧ (Activity.type <$> activities w2) = ["task_moved"; "task_created"]
  ∧ (Task.updatedAt <$> last (tasks w1)) = Some "2025-08-03T00:00:00.000Z"
  ∧ (Task.updatedAt <$> last (tasks w2)) = Some "2025-08-03T00:00:05.000Z".
Proof. vm_compute. repeat split. Qed.

(** C2, as stated, fails: [moveTask] called with the column the task is
    in appends an activity and rewrites the task ([updatedAt]). *)
Lemma moveTask_to_current_column_changes_state :
  ∃ t c,
    In t (tasks Sample.world) ∧ In c (columns Sample.world)
    ∧ Column.id c = Task.columnId t
    ∧ let w' := exec (moveTask Sample.host (Task.id t) (Column.id c))
                  Sample.world in
      length (activities w') = S (length (activities Sample.world))
      ∧ (∃ t', List.find (has_id Task.id (Task.id t)) (tasks w') = Some t'
               ∧ Task.updatedAt t' ≠ Task.updatedAt t).
Proof.
  exists Sample.task2, (Column.mk "col-todo" "To Do" 1 "#3b82f6").
  split; [right; left; reflexivity|].
  split; [right; left; reflexivity|].
  split; [reflexivity|].
  vm_compute. split; [reflexivity|].
  eexists. split; [reflexivity|]. discriminate.
Qed.

(** C2, as the code has it.  The check is made by the [drop] listener:
    dropping the dragged task on the column it is in does nothing at all
    (no activity, no change to the task or to anything else), and so does
    a drop with nothing dragged; on any other column the listener is
    [moveTask]. *)
Theorem drop_on_current_column_is_noop (h : Host) (w : World) (d : Task.t)
    (columnId : string) :
  drop h (Some d) (Task.columnId d) w = (Normal tt, w)
  ∧ drop h None columnId w = (Normal tt, w)
  ∧ drop h (Some d) columnId w
    = if String.eqb (Task.columnId d) columnId then (Normal tt, w)
      else moveTask h (Task.id d) columnId w.
Proof.
  split; [|split].
  - unfold drop. rewrite String.eqb_refl. reflexivity.
  - reflexivity.
  - unfold drop. destruct (String.eqb (Task.columnId d) columnId); reflexivity.
Qed.

(** ** Adding a column *)

Lemma truthy_trim (s : string) :
  JsString.truthy (JsString.trim s) = true → JsString.truthy s = true.
Proof. destruct s; [discriminate | reflexivity]. Qed.

(** C8.  With a name that is not blank after trimming, [addColumn]
    appends exactly one column, named by the trimmed text, whose [order] is
    the number of columns there were; with a blank name, or none, it does
    nothing: no column, no notification, no write. *)
Theorem addColumn_appends_or_rejects (h : Host) (w : World)
    (name : option string) :
  (blank name = false →
     ∃ c, columns (exec (addColumn h name) w) = columns w ++ [c]
          ∧ Column.order c = Z.of_nat (length (columns w))
          ∧ Some (Column.name c) = JsString.trim <$> name)
  ∧ (blank name = true → addColumn h name w = (Normal tt, w)).
Proof.
  split; intros Hb.
  - destruct name as [n|]; [|discriminate]. simpl in Hb.
    apply negb_false_iff in Hb.
    unfold addColumn. rewrite Hb, (truthy_trim _ Hb). simpl.
    eexists. split; [reflexivity|]. split; reflexivity.
  - destruct name as [n|]; [|reflexivity]. simpl in Hb.
    apply negb_true_iff in Hb. unfold addColumn. rewrite Hb.
    rewrite andb_false_r. reflexivity.
Qed.

(** On a board of three columns the column [Blocked] gets order 3, and a
    blank name after it leaves the four columns. *)
Lemma addColumn_appends_or_rejects_witness :
  let board := set_columns (firstn 3 Sample.columns) Sample.world in
  let w1 := exec (addColumn Sample.host (Some "Blocked")) board in
  let w2 := exec (addColumn Sample.host (Some "   ")) w1 in
  (∃ c, columns w1 = columns board ++ [c] ∧ Column.order c = 3
        ∧ Column.name c = "Blocked")
  ∧ w2 = w1 ∧ length (columns w2) = 4%nat.
Proof.
  intros board w1 w2.
  destruct (addColumn_appends_or_rejects Sample.host board (Some "Blocked"))
    as [Hadd _].
  destruct (addColumn_appends_or_rejects Sample.host w1 (Some "   "))
    as [_ Hrej].
  destruct (Hadd eq_refl) as (c & Hc & Ho & Hn).
  assert (Hw2 : w2 = w1).
  { unfold w2, exec. rewrite (Hrej eq_refl). reflexivity. }
  split; [|split].
  - exists c. split; [exact Hc|]. split; [exact Ho|].
    injection Hn as Hn. exact Hn.
  - exact Hw2.
  - rewrite Hw2. fold w1 in Hc. rewrite Hc. reflexivity.
Defined.

(** ** The filter engine *)

Lemma append_nil_l (s : string) : EmptyString +:+ s = s.
Proof. reflexivity. Qed.

Lemma append_cons (x : ascii) (a b : string) :
  String x a +:+ b = String x (a +:+ b).
Proof. reflexivity. Qed.

Lemma prefix_nil (s : string) : String.prefix EmptyString s = true.
Proof. destruct s; reflexivity. Qed.

Lemma prefix_spec (a s : string) :
  String.prefix a s = true ↔ ∃ post, s = a +:+ post.
Proof.
  revert s. induction a as [|x a IH]; intros s.
  - rewrite prefix_nil. split; [|reflexivity]. intros _. exists s. reflexivity.
  - destruct s as [|y s]; simpl.
    + split; [discriminate|]. intros (post & H). discriminate.
    + destruct (ascii_dec x y) as [->|Hne].
      * rewrite IH. split; intros (post & H); exists post.
        -- rewrite H. reflexivity.
        -- rewrite append_cons in H. injection H as H. exact H.
      * split; [discriminate|]. intros (post & H).
        rewrite append_cons in H. injection H as H _. congruence.
Qed.

Lemma includes_spec (s sub : string) :
  JsString.includes s sub = true ↔ ∃ pre post, s = pre +:+ sub +:+ post.
Proof.
  induction s as [|c s IH].
  - change (JsString.includes EmptyString sub)
      with (String.prefix sub EmptyString || false).
    rewrite orb_false_r, prefix_spec. split.
    + intros (post & H). exists EmptyString, post. exact H.
    + intros ([|x pre] & post & H); [exists post; exact H | discriminate].
  - change (JsString.includes (String c s) sub)
      with (String.prefix sub (String c s) || JsString.includes s sub).
    rewrite orb_true_iff, IH, prefix_spec. split.
    + intros [(post & H) | (pre & post & H)].
      * exists EmptyString, post. exact H.
      * exists (String c pre), post. rewrite append_cons, H. reflexivity.
    + intros ([|x pre] & post & H).
      * left. exists post. exact H.
      * right. rewrite append_cons in H. injection H as _ H.
        exists pre, post. exact H.
Qed.

Lemma toLowerCase_app (a b : string) :
  JsString.toLowerCase (a +:+ b)
  = JsString.toLowerCase a +:+ JsString.toLowerCase b.
Proof.
  induction a as [|x a IH]; [reflexivity|].
  rewrite append_cons. simpl. rewrite append_cons. f_equal. exact IH.
Qed.

(** A split of the lowered text is the lowering of a split of the text. *)
Lemma toLowerCase_split (s a b : string) :
  JsString.toLowerCase s = a +:+ b →
  ∃ s1 s2, s = s1 +:+ s2 ∧ JsString.toLowerCase s1 = a
           ∧ JsString.toLowerCase s2 = b.
Proof.
  revert s. induction a as [|x a IH]; intros s H.
  - exists EmptyString, s. auto.
  - rewrite append_cons in H.
    destruct s as [|y s]; simpl in H; [discriminate|].
    injection H as Hx H. destruct (IH s H) as (s1 & s2 & -> & H1 & H2).
    exists (String y s1), s2. simpl. rewrite Hx, H1. auto.
Qed.

Lemma toLowerCase_nil (s : string) :
  JsString.toLowerCase s = EmptyString → s = EmptyString.
Proof. destruct s; [reflexivity | discriminate]. Qed.

(** Lowering two characters gives the same character exactly when they are
    the same letter; checked on the 256 x 256 pairs. *)
Lemma lower_char_same (x y : ascii) :
  JsString.lower_char x = JsString.lower_char y ↔ same_letter x y = true.
Proof.
  pose (check := λ n m : nat,
          Bool.eqb (Ascii.eqb (JsString.lower_char (ascii_of_nat n))
                      (JsString.lower_char (ascii_of_nat m)))
            (same_letter (ascii_of_nat n) (ascii_of_nat m))).
  assert (Hall : forallb (λ n, forallb (check n) (seq 0 256)) (seq 0 256)
                 = true) by (vm_compute; reflexivity).
  rewrite forallb_forall in Hall.
  specialize (Hall (nat_of_ascii x)).
  rewrite forallb_forall in Hall.
  assert (Hx : In (nat_of_ascii x) (seq 0 256))
    by (apply in_seq; pose proof (nat_ascii_bounded x); lia).
  assert (Hy : In (nat_of_ascii y) (seq 0 256))
    by (apply in_seq; pose proof (nat_ascii_bounded y); lia).
  specialize (Hall Hx (nat_of_ascii y) Hy). unfold check in Hall.
  rewrite !ascii_nat_embedding in Hall. apply Bool.eqb_prop in Hall.
  rewrite <- Hall, Ascii.eqb_eq. reflexivity.
Qed.

Lemma toLowerCase_same (a b : string) :
  JsString.toLowerCase a = JsString.toLowerCase b ↔ same_ignoring_case a b.
Proof.
  revert b. induction a as [|x a IH]; intros [|y b]; simpl;
    try (split; [discriminate | contradiction]).
  - split; auto.
  - rewrite <- IH, <- lower_char_same. split.
    + intros [= Hc Hs]. auto.
    + intros [-> ->]. reflexivity.
Qed.

(** What [toLowerCase().includes(...)] decides. *)
Lemma includes_ignoring_case (hay needle : string) :
  JsString.includes (JsString.toLowerCase hay) (JsString.toLowerCase needle)
  = true
  ↔ occurs_ignoring_case needle hay.
Proof.
  rewrite includes_spec. unfold occurs_ignoring_case.
  split.
  - intros (pre & post & H).
    destruct (toLowerCase_split _ _ _ H) as (s1 & s23 & -> & H1 & H23).
    destruct (toLowerCase_split _ _ _ H23) as (s2 & s3 & -> & H2 & H3).
    exists s1, s2, s3. split; [reflexivity|]. apply toLowerCase_same, H2.
  - intros (pre & mid & post & -> & Hmid). apply toLowerCase_same in Hmid.
    exists (JsString.toLowerCase pre), (JsString.toLowerCase post).
    rewrite !toLowerCase_app, Hmid. reflexivity.
Qed.

Lemma truthy_true (s : string) : JsString.truthy s = true ↔ s ≠ EmptyString.
Proof. destruct s; simpl; split; congruence. Qed.

Lemma truthy_false (s : string) : JsString.truthy s = false ↔ s = EmptyString.
Proof. destruct s; simpl; split; congruence. Qed.

Lemma occurs_nonempty (needle hay : string) :
  needle ≠ EmptyString → occurs_ignoring_case needle hay →
  hay ≠ EmptyString.
Proof.
  intros Hn (pre & mid & post & -> & Hmid) H.
  destruct pre; [|discriminate]. destruct mid; [|discriminate].
  apply Hn. destruct needle; [reflexivity | contradiction].
Qed.

(** The callback of [getFilteredTasks] decides the criteria. *)
Lemma matchesFilters_spec (f : Filters.t) (t : Task.t) :
  matchesFilters f t = true ↔ satisfies f t.
Proof.
  unfold matchesFilters, satisfies.
  rewrite !andb_true_iff, !orb_true_iff, !negb_true_iff, !truthy_false,
    String.eqb_eq, !includes_ignoring_case.
  assert (Ha : match Task.assigneeId t with
               | Some a => String.eqb a (Filters.assignee f)
               | None => false
               end = true ↔ Task.assigneeId t = Some (Filters.assignee f)).
  { destruct (Task.assigneeId t) as [a|].
    - rewrite String.eqb_eq. split; congruence.
    - split; discriminate. }
  assert (Hd : Filters.search f ≠ EmptyString →
               (match Task.description t with
                | Some d =>
                    JsString.truthy d
                    && JsString.includes (JsString.toLowerCase d)
                         (JsString.toLowerCase (Filters.search f))
                | None => false
                end = true
                ↔ ∃ d, Task.description t = Some d
                       ∧ occurs_ignoring_case (Filters.search f) d)).
  { intros Hs. destruct (Task.description t) as [d|].
    - rewrite andb_true_iff, includes_ignoring_case, truthy_true. split.
      + intros [_ H]. eauto.
      + intros (d' & [= <-] & H). split; [|exact H].
        eapply occurs_nonempty; eassumption.
    - split; [discriminate|]. intros (d' & [=] & _). }
  rewrite Ha.
  destruct (string_dec (Filters.search f) EmptyString) as [He|Hne].
  - tauto.
  - rewrite (Hd Hne). tauto.
Qed.

Lemma sublist_filter_bool {A} (p : A → bool) (l : list A) :
  List.filter p l `sublist_of` l.
Proof.
  induction l as [|x l IH]; simpl; [constructor|].
  destruct (p x); [apply sublist_skip | apply sublist_cons]; exact IH.
Qed.

(** C3.  [getFilteredTasks] returns a subsequence of the task list, in the
    list's order, holding exactly the tasks that meet the criteria (it is
    the list filtered by any test deciding them), and leaves the world, the
    task list included, as it was. *)
Theorem getFilteredTasks_is_the_matching_subsequence (w : World) :
  ∃ r, getFilteredTasks w = (Normal r, w)
       ∧ r `sublist_of` tasks w
       ∧ (∀ t, In t r ↔ In t (tasks w) ∧ satisfies (filters w) t)
       ∧ (∀ p : Task.t → bool,
            (∀ t, p t = true ↔ satisfies (filters w) t) →
            r = List.filter p (tasks w)).
Proof.
  exists (List.filter (matchesFilters (filters w)) (tasks w)).
  split; [reflexivity|]. split; [apply sublist_filter_bool|]. split.
  - intros t. rewrite filter_In, matchesFilters_spec. reflexivity.
  - intros p Hp. apply filter_ext. intros t.
    specialize (Hp t). pose proof (matchesFilters_spec (filters w) t) as Hm.
    destruct (p t), (matchesFilters (filters w) t); try reflexivity.
    + apply Hm, Hp. reflexivity.
    + symmetry. apply Hp, Hm. reflexivity.
Qed.

(** A search for text found only in a description, in another case. *)
Lemma getFilteredTasks_is_the_matching_subsequence_witness :
  let w := mkWorld (currentUser Sample.world) Sample.tasks Sample.users
             Sample.columns [] (Filters.mk EmptyString EmptyString "GATEWAY")
             true ∅ [] ∅ [] 0 0 in
  ∃ r, getFilteredTasks w = (Normal r, w) ∧ r = [Sample.task2]
       ∧ satisfies (filters w) Sample.task2.
Proof.
  intros w.
  destruct (getFilteredTasks_is_the_matching_subsequence w)
    as (r & Hrun & _ & Hin & _).
  exists r. split; [exact Hrun|].
  assert (Hr : r = [Sample.task2]).
  { vm_compute in Hrun. injection Hrun as <-. reflexivity. }
  split; [exact Hr|].
  apply (Hin Sample.task2). rewrite Hr. left. reflexivity.
Defined.

(** ** Records as JSON values and back *)

Lemma User_of_to_json (u : User.t) : User.of_json (User.to_json u) = Some u.
Proof. destruct u. reflexivity. Qed.

Lemma Column_of_to_json (c : Column.t) :
  Column.of_json (Column.to_json c) = Some c.
Proof. destruct c. reflexivity. Qed.

Lemma Activity_of_to_json (a : Activity.t) :
  Activity.of_json (Activity.to_json a) = Some a.
Proof. destruct a as [i ty m u [tk|] ts]; reflexivity. Qed.

Lemma Task_of_to_json (t : Task.t) : Task.of_json (Task.to_json t) = Some t.
Proof.
  destruct t as [i ti [d|] s p [a|] [due|] cr up tg c];
    unfold Task.of_json, Task.to_json, str_prop, opt_str_prop, prop; simpl;
    rewrite (mapM_fmap_Some json_str JStr tg) by reflexivity; reflexivity.
Qed.

(** ** The realtime bridge *)

(** The guard of [handleRealtimeUpdate]: while [isInitialized] is not set
    the handler returns at once.  No storage event meets this case: the
    listener that calls the handler is registered by [init] in the run
    that sets the flag. *)
Lemma handleRealtimeUpdate_ignored_before_init :
  let malformed := mkStorageEvent (Some "taskflow-tasks") (Some "{oops") in
  let empty := mkStorageEvent (Some "taskflow-tasks") (Some "[]") in
  JSON_parse Sample.host "{oops" = None
  ∧ notifications
      (exec (handleRealtimeUpdate Sample.host malformed) Sample.uninitialised)
    = []
  ∧ JSON_parse Sample.host "[]" = Some (JArr [])
  ∧ tasks (exec (handleRealtimeUpdate Sample.host empty) Sample.uninitialised)
    = Sample.tasks.
Proof. vm_compute. repeat split. Qed.



(** ** The reference browser's JSON *)

(** Induction on a JSON value, with the property in hand for the items of
    an array and the values of an object. *)
Lemma json_induction (P : json → Prop) :
  P JNull →
  (∀ b, P (JBool b)) →
  (∀ n, P (JNum n)) →
  (∀ s, P (JStr s)) →
  (∀ l, Forall P l → P (JArr l)) →
  (∀ l, Forall (λ p, P (snd p)) l → P (JObj l)) →
  ∀ v, P v.
Proof.
  intros Hnull Hbool Hnum Hstr Harr Hobj. fix IH 1.
  intros [|b|n|s|l|l].
  - exact Hnull.
  - apply Hbool.
  - apply Hnum.
  - apply Hstr.
  - apply Harr. revert l. fix IHl 1. intros [|x l].
    + constructor.
    + constructor; [apply IH | apply IHl].
  - apply Hobj. revert l. fix IHl 1. intros [|[n x] l].
    + constructor.
    + constructor; [apply IH | apply IHl].
Qed.

Lemma print_arr (l : list json) (k : string) :
  RefHost.print (JArr l) k = String "[" (print_items l (String "]" k)).
Proof.
  reflexivity.
Qed.

Lemma print_obj (l : list (string * json)) (k : string) :
  RefHost.print (JObj l) k = String "{" (print_props l (String "}" k)).
Proof.
  reflexivity.
Qed.

Lemma weight_arr (l : list json) : weight (JArr l) = S (items_weight l).
Proof.
  reflexivity.
Qed.

Lemma weight_obj (l : list (string * json)) :
  weight (JObj l) = S (props_weight l).
Proof.
  simpl. f_equal. induction l as [|[n x] l IH]; simpl; [reflexivity|].
  rewrite IH. reflexivity.
Qed.

Lemma parse_chars_print (s k : string) :
  RefHost.parse_chars (RefHost.print_chars s (String RefHost.dquote k))
  = Some (s, k).
Proof.
  induction s as [|c s IH]; [reflexivity|].
  simpl. unfold RefHost.needs_escape.
  destruct (Ascii.eqb c RefHost.dquote) eqn:Hq; simpl.
  - apply Ascii.eqb_eq in Hq. subst c. simpl. rewrite IH. reflexivity.
  - destruct (Ascii.eqb c RefHost.backslash) eqn:Hb; simpl.
    + apply Ascii.eqb_eq in Hb. subst c. simpl. rewrite IH. reflexivity.
    + rewrite Hq, Hb, IH. reflexivity.
Qed.

Lemma all_number_uint (d : Decimal.uint) :
  all_number (DecimalString.NilEmpty.string_of_uint d).
Proof.
  unfold all_number. induction d; simpl; constructor; auto.
Qed.

Lemma all_number_int (n : Z) :
  all_number (DecimalString.NilZero.string_of_int (Z.to_int n)).
Proof.
  assert (Hu : ∀ d, all_number (DecimalString.NilZero.string_of_uint d)).
  { intros d. destruct d; try apply all_number_uint.
    unfold all_number. simpl. constructor; auto. }
  destruct n as [|p|p].
  - exact (Hu (Decimal.D0 Decimal.Nil)).
  - exact (Hu (Pos.to_uint p)).
  - unfold all_number. constructor; [reflexivity|].
    exact (Hu (Pos.to_uint p)).
Qed.

Lemma span_number_app (s k : string) :
  all_number s → ends_number k → RefHost.span_number (s +:+ k) = (s, k).
Proof.
  unfold all_number. intros Hs Hk. induction s as [|c s IH].
  - rewrite append_nil_l. destruct k as [|c k]; [reflexivity|].
    simpl in *. rewrite Hk. reflexivity.
  - rewrite append_cons. simpl in *. inversion Hs as [|? ? Hc Hs']; subst.
    rewrite Hc, (IH Hs'). reflexivity.
Qed.

Lemma parse_number_print (n : Z) (k : string) :
  ends_number k →
  RefHost.parse_number (RefHost.print_number n k) = Some (JNum n, k).
Proof.
  intros Hk. unfold RefHost.parse_number, RefHost.print_number.
  rewrite (span_number_app _ k (all_number_int n) Hk).
  rewrite DecimalString.NilZero.isi.
  - simpl. rewrite DecimalZ.of_to. reflexivity.
  - destruct n; simpl; try discriminate.
    intros [= H]. exact (DecimalPos.Unsigned.to_uint_nonnil _ H).
  - destruct n; simpl; try discriminate.
    intros [= H]. exact (DecimalPos.Unsigned.to_uint_nonnil _ H).
Qed.

(** A number's text starts with a number character. *)
Lemma print_number_head (n : Z) (k : string) :
  ∃ c rest, RefHost.print_number n k = String c rest
            ∧ RefHost.number_char c = true.
Proof.
  unfold RefHost.print_number.
  pose proof (all_number_int n) as Hall. unfold all_number in Hall.
  destruct (DecimalString.NilZero.string_of_int (Z.to_int n)) as [|c s] eqn:E.
  - exfalso. destruct n; simpl in E; try discriminate.
    + destruct (Pos.to_uint p) eqn:Ep; simpl in E; try discriminate.
  - exists c, (s +:+ k). split; [reflexivity|].
    simpl in Hall. inversion Hall. assumption.
Qed.

Lemma parse_value_number (fuel : nat) (n : Z) (k : string) :
  ends_number k →
  RefHost.parse_value (S fuel) (RefHost.print_number n k) = Some (JNum n, k).
Proof.
  intros Hk. pose proof (parse_number_print n k Hk) as Hp.
  destruct (print_number_head n k) as (c & rest & E & Hc).
  rewrite E in *. simpl.
  destruct (Ascii.eqb_spec c "n") as [->|_]; [discriminate Hc|].
  destruct (Ascii.eqb_spec c "t") as [->|_]; [discriminate Hc|].
  destruct (Ascii.eqb_spec c "f") as [->|_]; [discriminate Hc|].
  destruct (Ascii.eqb_spec c RefHost.dquote) as [->|_]; [discriminate Hc|].
  destruct (Ascii.eqb_spec c "[") as [->|_]; [discriminate Hc|].
  destruct (Ascii.eqb_spec c "{") as [->|_]; [discriminate Hc|].
  exact Hp.
Qed.

Lemma drop_app (lit k : string) :
  JsString.drop (String.length lit) (lit +:+ k) = k.
Proof.
  induction lit as [|c lit IH]; [destruct k; reflexivity|]. exact IH.
Qed.

Lemma strip_app (lit k : string) : RefHost.strip lit (lit +:+ k) = Some k.
Proof.
  unfold RefHost.strip.
  rewrite (proj2 (prefix_spec lit (lit +:+ k))) by (exists k; reflexivity).
  rewrite drop_app. reflexivity.
Qed.

(** The text of a value never starts with a closing bracket. *)
Lemma print_head (v : json) (k : string) :
  ∃ c rest, RefHost.print v k = String c rest ∧ Ascii.eqb c "]" = false.
Proof.
  destruct v as [|[|]|n|s|l|l].
  - eexists _, _. split; reflexivity.
  - eexists _, _. split; reflexivity.
  - eexists _, _. split; reflexivity.
  - destruct (print_number_head n k) as (c & rest & E & Hc).
    exists c, rest. split; [exact E|].
    destruct (Ascii.eqb_spec c "]") as [->|_]; [discriminate Hc|reflexivity].
  - eexists _, _. split; reflexivity.
  - eexists _, _. split; reflexivity.
  - eexists _, _. split; reflexivity.
Qed.

Lemma parse_items_print (l : list json) :
  Forall parses l → l ≠ [] →
  ∀ fuel k, (items_weight l ≤ fuel)%nat →
            RefHost.parse_items fuel (print_items l (String "]" k))
            = Some (l, k).
Proof.
  induction 1 as [|x l Hx Hl IH]; [congruence|]. intros _ fuel k Hfuel.
  simpl in Hfuel. destruct fuel as [|fuel]; [lia|].
  destruct l as [|y l].
  - change (RefHost.parse_items (S fuel) (print_items [x] (String "]" k)))
      with ('(x0, rest) ← RefHost.parse_value fuel
                            (RefHost.print x (String "]" k));
            match rest with
            | String c rest' =>
                if Ascii.eqb c ","
                then '(l, rest'') ← RefHost.parse_items fuel rest';
                     Some (x0 :: l, rest'')
                else if Ascii.eqb c "]" then Some ([x0], rest') else None
            | EmptyString => None
            end).
    rewrite (Hx fuel (String "]" k)) by (first [lia | reflexivity]).
    reflexivity.
  - remember (y :: l) as l' eqn:El'.
    assert (Hr : RefHost.parse_items fuel (print_items l' (String "]" k))
                 = Some (l', k)).
    { apply IH; [subst l'; congruence|]. simpl in Hfuel. lia. }
    change (RefHost.parse_items (S fuel)
              (print_items (x :: l') (String "]" k)))
      with ('(x0, rest) ← RefHost.parse_value fuel
                            (RefHost.print x
                               (match l' with
                                | [] => String "]" k
                                | _ => String ","
                                         (print_items l' (String "]" k))
                                end));
            match rest with
            | String c rest' =>
                if Ascii.eqb c ","
                then '(l, rest'') ← RefHost.parse_items fuel rest';
                     Some (x0 :: l, rest'')
                else if Ascii.eqb c "]" then Some ([x0], rest') else None
            | EmptyString => None
            end).
    rewrite El' at 1. cbv iota.
    rewrite (Hx fuel _) by (first [lia | reflexivity]).
    simpl. rewrite Hr. reflexivity.
Qed.

Lemma parse_props_print (l : list (string * json)) :
  Forall (λ p, parses (snd p)) l → l ≠ [] →
  ∀ fuel k, (props_weight l ≤ fuel)%nat →
            RefHost.parse_props fuel (print_props l (String "}" k))
            = Some (l, k).
Proof.
  induction 1 as [|[n x] l Hx Hl IH]; [congruence|]. intros _ fuel k Hfuel.
  simpl in Hfuel, Hx. destruct fuel as [|fuel]; [lia|].
  assert (Hstep : ∀ k1,
            RefHost.parse_props (S fuel)
              (RefHost.print_string n (String ":" (RefHost.print x k1)))
            = '(x0, rest) ← RefHost.parse_value fuel (RefHost.print x k1);
              match rest with
              | String c r =>
                  if Ascii.eqb c ","
                  then '(l, r') ← RefHost.parse_props fuel r;
                       Some ((n, x0) :: l, r')
                  else if Ascii.eqb c "}" then Some ([(n, x0)], r) else None
              | EmptyString => None
              end).
  { intros k1. unfold RefHost.print_string.
    change (RefHost.parse_props (S fuel)
              (String RefHost.dquote
                 (RefHost.print_chars n
                    (String RefHost.dquote
                       (String ":" (RefHost.print x k1))))))
      with ('(name, rest) ← RefHost.parse_chars
                              (RefHost.print_chars n
                                 (String RefHost.dquote
                                    (String ":" (RefHost.print x k1))));
            match rest with
            | String c' rest' =>
                if Ascii.eqb c' ":" then
                  '(x0, rest'') ← RefHost.parse_value fuel rest';
                  match rest'' with
                  | String c'' r =>
                      if Ascii.eqb c'' ","
                      then '(l, r') ← RefHost.parse_props fuel r;
                           Some ((name, x0) :: l, r')
                      else if Ascii.eqb c'' "}" then Some ([(name, x0)], r)
                      else None
                  | EmptyString => None
                  end
                else None
            | EmptyString => None
            end).
    rewrite parse_chars_print. reflexivity. }
  destruct l as [|y l].
  - change (print_props [(n, x)] (String "}" k))
      with (RefHost.print_string n (String ":"
              (RefHost.print x (String "}" k)))).
    rewrite Hstep.
    rewrite (Hx fuel (String "}" k)) by (first [lia | reflexivity]).
    reflexivity.
  - remember (y :: l) as l' eqn:El'.
    assert (Hr : RefHost.parse_props fuel (print_props l' (String "}" k))
                 = Some (l', k)).
    { apply IH; [subst l'; congruence|]. simpl in Hfuel. lia. }
    change (print_props ((n, x) :: l') (String "}" k))
      with (RefHost.print_string n (String ":"
              (RefHost.print x
                 (match l' with
                  | [] => String "}" k
                  | _ => String "," (print_props l' (String "}" k))
                  end)))).
    rewrite Hstep. rewrite El' at 1. cbv iota.
    rewrite (Hx fuel _) by (first [lia | reflexivity]).
    simpl. rewrite Hr. reflexivity.
Qed.

(** Parsing the text of a value gives the value back and stops where the
    text ends. *)
Lemma parse_value_print (v : json) : parses v.
Proof.
  induction v as [|b|n|s|l IH|l IH] using json_induction;
    intros fuel k Hfuel Hk; (destruct fuel as [|fuel]; [simpl in Hfuel; lia|]).
  - change (RefHost.print JNull k) with (String "n" ("ull" +:+ k)).
    simpl. rewrite strip_app. reflexivity.
  - destruct b.
    + change (RefHost.print (JBool true) k) with (String "t" ("rue" +:+ k)).
      simpl. rewrite strip_app. reflexivity.
    + change (RefHost.print (JBool false) k) with (String "f" ("alse" +:+ k)).
      simpl. rewrite strip_app. reflexivity.
  - apply parse_value_number. exact Hk.
  - simpl. rewrite parse_chars_print. reflexivity.
  - rewrite print_arr. rewrite weight_arr in Hfuel. destruct l as [|x l].
    + reflexivity.
    + pose proof (parse_items_print (x :: l) IH ltac:(congruence) fuel k
                    ltac:(lia)) as Hitems.
      destruct (print_head x (match l with
                              | [] => String "]" k
                              | _ => String "," (print_items l (String "]" k))
                              end)) as (c & rest & E & Hc).
      change (print_items (x :: l) (String "]" k))
        with (RefHost.print x (match l with
                               | [] => String "]" k
                               | _ => String "," (print_items l (String "]" k))
                               end)) in *.
      rewrite E in *.
      change (RefHost.parse_value (S fuel) (String "[" (String c rest)))
        with (if Ascii.eqb c "]" then Some (JArr [], rest)
              else '(l0, rest0) ← RefHost.parse_items fuel (String c rest);
                   Some (JArr l0, rest0)).
      rewrite Hc, Hitems. reflexivity.
  - rewrite print_obj. rewrite weight_obj in Hfuel. destruct l as [|[n x] l].
    + reflexivity.
    + pose proof (parse_props_print ((n, x) :: l) IH ltac:(congruence) fuel k
                    ltac:(lia)) as Hprops.
      change (print_props ((n, x) :: l) (String "}" k))
        with (String RefHost.dquote
                (RefHost.print_chars n (String RefHost.dquote (String ":"
                   (RefHost.print x
                      (match l with
                       | [] => String "}" k
                       | _ => String "," (print_props l (String "}" k))
                       end)))))) in *.
      match goal with
      | |- RefHost.parse_value (S fuel) (String "{" (String ?c ?rest)) = _ =>
          change (RefHost.parse_value (S fuel) (String "{" (String c rest)))
            with (if Ascii.eqb c "}" then Some (JObj [], rest)
                  else '(l0, rest0) ← RefHost.parse_props fuel (String c rest);
                       Some (JObj l0, rest0))
      end.
      rewrite Hprops. reflexivity.
Qed.

Lemma length_append (a b : string) :
  String.length (a +:+ b) = (String.length a + String.length b)%nat.
Proof.
  induction a as [|c a IH]; [reflexivity|].
  rewrite append_cons. simpl. rewrite IH. reflexivity.
Qed.

Lemma length_print_chars (s k : string) :
  (String.length k ≤ String.length (RefHost.print_chars s k))%nat.
Proof.
  induction s as [|c s IH]; simpl; [lia|].
  destruct (RefHost.needs_escape c); simpl; lia.
Qed.

Lemma print_items_more (x : json) (l : list json) (k : string) :
  l ≠ [] →
  print_items (x :: l) k = RefHost.print x (String "," (print_items l k)).
Proof. destruct l; [congruence | reflexivity]. Qed.

Lemma print_props_more (n : string) (x : json) (l : list (string * json))
    (k : string) :
  l ≠ [] →
  print_props ((n, x) :: l) k
  = RefHost.print_string n (String ":" (
      RefHost.print x (String "," (print_props l k)))).
Proof. destruct l; [congruence | reflexivity]. Qed.

Lemma length_print_items (l : list json) (k : string) :
  Forall fits l →
  (items_weight l + String.length k
   ≤ String.length (print_items l (String "]" k)))%nat.
Proof.
  induction 1 as [|x l Hx Hl IH]; [simpl; lia|].
  destruct (decide (l = [])) as [->|Hne].
  - specialize (Hx (String "]" k)). simpl in *. lia.
  - rewrite print_items_more by exact Hne.
    specialize (Hx (String "," (print_items l (String "]" k)))).
    change (items_weight (x :: l)) with (S (weight x + items_weight l)).
    change (String.length (String "," (print_items l (String "]" k))))
      with (S (String.length (print_items l (String "]" k)))) in Hx.
    lia.
Qed.

Lemma length_print_props (l : list (string * json)) (k : string) :
  Forall (λ p, fits (snd p)) l →
  (props_weight l + String.length k
   ≤ String.length (print_props l (String "}" k)))%nat.
Proof.
  induction 1 as [|[n x] l Hx Hl IH]; [simpl; lia|].
  simpl in Hx.
  assert (Hstr : ∀ k1, (S (S (S (String.length k1)))
                        ≤ String.length
                            (RefHost.print_string n (String ":" k1)))%nat).
  { intros k1. unfold RefHost.print_string.
    pose proof (length_print_chars n (String RefHost.dquote (String ":" k1))).
    simpl in *. lia. }
  change (props_weight ((n, x) :: l)) with (S (weight x + props_weight l)).
  destruct (decide (l = [])) as [->|Hne].
  - specialize (Hx (String "}" k)).
    specialize (Hstr (RefHost.print x (String "}" k))).
    change (print_props [(n, x)] (String "}" k))
      with (RefHost.print_string n (String ":"
              (RefHost.print x (String "}" k)))).
    simpl in Hx. simpl props_weight. lia.
  - rewrite print_props_more by exact Hne.
    specialize (Hx (String "," (print_props l (String "}" k)))).
    specialize (Hstr (RefHost.print x
                        (String "," (print_props l (String "}" k))))).
    change (String.length (String "," (print_props l (String "}" k))))
      with (S (String.length (print_props l (String "}" k)))) in Hx.
    lia.
Qed.

(** The text of a value is at least as long as the fuel it needs. *)
Lemma length_print (v : json) : fits v.
Proof.
  induction v as [|b|n|s|l IH|l IH] using json_induction; intros k.
  - change (RefHost.print JNull k) with ("null" +:+ k).
    rewrite length_append. simpl. lia.
  - destruct b.
    + change (RefHost.print (JBool true) k) with ("true" +:+ k).
      rewrite length_append. simpl. lia.
    + change (RefHost.print (JBool false) k) with ("false" +:+ k).
      rewrite length_append. simpl. lia.
  - destruct (print_number_head n k) as (c & rest & E & _).
    change (RefHost.print (JNum n) k) with (RefHost.print_number n k).
    pose proof (f_equal String.length E) as El.
    unfold RefHost.print_number in El. rewrite length_append in El.
    unfold RefHost.print_number. rewrite length_append.
    destruct (DecimalString.NilZero.string_of_int (Z.to_int n)) as [|c' s']
      eqn:Es; simpl in *; [|lia].
    exfalso. pose proof (parse_number_print n EmptyString I) as Hp.
    unfold RefHost.parse_number, RefHost.print_number in Hp.
    rewrite Es in Hp. discriminate Hp.
  - change (RefHost.print (JStr s) k)
      with (String RefHost.dquote
              (RefHost.print_chars s (String RefHost.dquote k))).
    pose proof (length_print_chars s (String RefHost.dquote k)).
    simpl in *. lia.
  - rewrite print_arr, weight_arr.
    pose proof (length_print_items l k IH). simpl. lia.
  - rewrite print_obj, weight_obj.
    pose proof (length_print_props l k IH). simpl. lia.
Qed.

(** [JSON.parse] of the reference browser undoes its [JSON.stringify]. *)
Lemma RefHost_json_faithful (clock : nat → Z) (random : nat → N) :
  json_faithful (RefHost.host clock random).
Proof.
  intros indent v. simpl. unfold RefHost.JSON_parse, RefHost.JSON_stringify.
  rewrite (parse_value_print v _ EmptyString); [reflexivity| |exact I].
  pose proof (length_print v EmptyString). simpl in *. lia.
Qed.

(** ** Export and import *)

(** C6.  On a browser whose [JSON.parse] undoes [JSON.stringify], the
    document [exportData] offers for download, given to [importData] in any
    state of the application, is imported without error and leaves tasks,
    columns and users equal, element by element and in order, to those of
    the exporting state. *)
Theorem import_of_export_restores (h : Host) (w w0 : World) :
  json_faithful h →
  ∃ file,
    last (downloads (exec (exportData h) w)) = Some file
    ∧ fst (importData h (Download.content file) w0) = Normal tt
    ∧ let w' := exec (importData h (Download.content file)) w0 in
      tasks w' = tasks w ∧ columns w' = columns w ∧ users w' = users w.
Proof.
  intros Hjson.
  eexists. split.
  { unfold exec, exportData, try_catch. rewrite run_now, run_gets, run_now.
    rewrite run_modify. unfold showNotification, modify. simpl.
    apply last_snoc. }
  simpl Download.content.
  unfold exec, importData, try_catch, mbind at 1, M_bind at 1, parse.
  rewrite Hjson.
  unfold export_document, get_prop, array_to_json. simpl. 
  unfold typed, mbind, M_bind. simpl.
  rewrite (mapM_fmap_Some _ _ _ Task_of_to_json).
  unfold save_tasks, saveToStorage, gets, modify, mbind, M_bind. simpl.
  rewrite (mapM_fmap_Some _ _ _ Column_of_to_json).
  unfold save_columns, saveToStorage, gets, modify, mbind, M_bind. simpl.
  rewrite (mapM_fmap_Some _ _ _ User_of_to_json).
  unfold save_users, saveToStorage, gets, modify, mbind, M_bind. simpl.
  repeat split; reflexivity.
Qed.

(** Export from the sample application, import into one that had lost
    its data. *)
Lemma import_of_export_restores_witness :
  let blank := set_tasks [] (set_columns [] (set_users [] Sample.world)) in
  ∃ file,
    last (downloads (exec (exportData Sample.host) Sample.world)) = Some file
    ∧ Download.name file = "taskflow-backup-2025-08-03.json"
    ∧ let w' := exec (importData Sample.host (Download.content file)) blank in
      tasks w' = Sample.tasks ∧ columns w' = Sample.columns
      ∧ users w' = Sample.users.
Proof.
  intros blank.
  destruct (import_of_export_restores Sample.host Sample.world blank
              (RefHost_json_faithful _ _)) as (file & Hfile & _ & Hsame).
  exists file. split; [exact Hfile|]. split; [|exact Hsame].
  vm_compute in Hfile. injection Hfile as <-. reflexivity.
Defined.

(** * Further properties *)

(** ** Running computations, continued *)

Lemma run_typed {A B} (a : A) (k : A → M B) (w : World) :
  (typed (Some a) ≫= k) w = k a w.
Proof. reflexivity. Qed.

Lemma run_ret {A B} (a : A) (k : A → M B) (w : World) :
  (mret a ≫= k) w = k a w.
Proof. reflexivity. Qed.

Lemma run_assoc {A B C} (c : M A) (f : A → M B) (g : B → M C) (w : World) :
  ((c ≫= f) ≫= g) w = (c ≫= (λ a, f a ≫= g)) w.
Proof.
  unfold mbind, M_bind. destruct (c w) as [[a|e|] w1]; reflexivity.
Qed.

(** ** Search suggestions *)

Lemma fold_left_push {A B} (p : A → bool) (f : A → B) (l : list A)
    (acc : list B) :
  fold_left (λ acc x, if p x then acc ++ [f x] else acc) l acc
  = acc ++ (f <$> List.filter p l).
Proof.
  revert acc. induction l as [|x l IH]; intros acc; simpl.
  - rewrite app_nil_r. reflexivity.
  - rewrite IH. destruct (p x); [|reflexivity].
    rewrite <- app_assoc. reflexivity.
Qed.

Lemma findIndex_from_range {A} (p : A → bool) (i : Z) (l : list A) :
  findIndex_from p i l = -1
  ∨ i ≤ findIndex_from p i l < i + Z.of_nat (length l).
Proof.
  revert i. induction l as [|x l IH]; intros i; simpl; [left; reflexivity|].
  destruct (p x); [right; lia|].
  destruct (IH (i + 1)) as [H|H]; [left; exact H | right; lia].
Qed.

(** No element before the first match satisfies the test. *)
Lemma findIndex_from_skip {A} (p : A → bool) (i : Z) (pre rest : list A) :
  Forall (λ x, p x = false) pre →
  findIndex_from p i (pre ++ rest)
  = findIndex_from p (i + Z.of_nat (length pre)) rest.
Proof.
  intros H. revert i. induction H as [|x pre Hx _ IH]; intros i; simpl.
  - f_equal. lia.
  - rewrite Hx, IH. f_equal. lia.
Qed.

Lemma findIndex_from_found {A} (p : A → bool) (i : Z) (pre rest : list A) :
  0 ≤ i → Exists (λ x, p x = true) pre →
  0 ≤ findIndex_from p i (pre ++ rest) < i + Z.of_nat (length pre).
Proof.
  intros Hi H. revert i Hi.
  induction pre as [|x pre IH]; intros i Hi; [inversion H|].
  simpl. destruct (p x) eqn:Hx; [lia|].
  inversion H as [? ? Hx'|? ? H']; subst; [congruence|].
  specialize (IH H' (i + 1) ltac:(lia)). lia.
Qed.

Lemma first_of_each_seen (seen1 seen2 : list string) (l : list Suggestion.t) :
  (∀ i, i ∈ seen1 ↔ i ∈ seen2) →
  first_of_each seen1 l = first_of_each seen2 l.
Proof.
  revert seen1 seen2. induction l as [|s l IH]; intros seen1 seen2 H; simpl;
    [reflexivity|].
  rewrite (bool_decide_ext _ _ (H (Suggestion.id s))).
  destruct (bool_decide (Suggestion.id s ∈ seen2)); [apply IH, H|].
  f_equal. apply IH. intros i. rewrite !elem_of_app, H. reflexivity.
Qed.

(** The filter of [getSearchSuggestions] keeps the first suggestion of each
    id. *)
Lemma filter_from_first_of_each (all pre l : list Suggestion.t) :
  all = pre ++ l →
  filter_from (λ s index, index =? findIndex (same_id s) all)
    (Z.of_nat (length pre)) l
  = first_of_each (Suggestion.id <$> pre) l.
Proof.
  revert pre. induction l as [|s l IH]; intros pre Hall; [reflexivity|].
  assert (Hnext : all = (pre ++ [s]) ++ l)
    by (rewrite <- app_assoc; exact Hall).
  specialize (IH (pre ++ [s]) Hnext).
  rewrite length_app, Nat2Z.inj_add, fmap_app in IH.
  change (Z.of_nat (length [s])) with 1 in IH.
  change (Suggestion.id <$> [s]) with [Suggestion.id s] in IH.
  cbn [filter_from first_of_each]. case_bool_decide as Hseen.
  - assert (Hex : Exists (λ x, same_id s x = true) pre).
    { apply Exists_exists. apply list_elem_of_fmap in Hseen.
      destruct Hseen as (x & Hid & Hx). exists x. split; [exact Hx|].
      unfold same_id. apply String.eqb_eq. congruence. }
    pose proof (findIndex_from_found (same_id s) 0 pre (s :: l)
                  ltac:(lia) Hex) as Hlt.
    unfold findIndex. rewrite Hall.
    destruct (Z.eqb_spec (Z.of_nat (length pre))
                (findIndex_from (same_id s) 0 (pre ++ s :: l))) as [He|_];
      [lia|].
    rewrite <- Hall. unfold findIndex in IH. rewrite IH.
    apply first_of_each_seen. intros i. rewrite elem_of_app, list_elem_of_singleton.
    split; [|tauto]. intros [H | ->]; [exact H | exact Hseen].
  - assert (Hall' : Forall (λ x, same_id s x = false) pre).
    { apply Forall_forall. intros x Hx.
      destruct (same_id s x) eqn:Hsame; [|reflexivity].
      exfalso. apply Hseen. apply list_elem_of_fmap. exists x.
      unfold same_id in Hsame. apply String.eqb_eq in Hsame.
      split; [congruence | exact Hx]. }
    unfold findIndex in *. rewrite Hall at 1.
    rewrite (findIndex_from_skip _ _ _ _ Hall'). simpl.
    unfold same_id at 1. rewrite String.eqb_refl, Z.add_0_l, Z.eqb_refl.
    f_equal. exact IH.
Qed.

Lemma first_of_each_sublist (seen : list string) (l : list Suggestion.t) :
  first_of_each seen l `sublist_of` l.
Proof.
  revert seen. induction l as [|s l IH]; intros seen; simpl; [constructor|].
  destruct (bool_decide (Suggestion.id s ∈ seen));
    [apply sublist_cons | apply sublist_skip]; apply IH.
Qed.

Lemma first_of_each_fresh (seen : list string) (l : list Suggestion.t) :
  NoDup (Suggestion.id <$> first_of_each seen l)
  ∧ ∀ i, i ∈ Suggestion.id <$> first_of_each seen l → i ∉ seen.
Proof.
  revert seen. induction l as [|s l IH]; intros seen; simpl.
  - split; [constructor|]. intros i Hi. inversion Hi.
  - case_bool_decide as Hseen; [apply IH|].
    destruct (IH (seen ++ [Suggestion.id s])) as [Hnd Hfresh].
    split.
    + rewrite fmap_cons. constructor; [|exact Hnd].
      intros Hin. apply (Hfresh _ Hin), elem_of_app. right. constructor.
    + intros i. rewrite fmap_cons, elem_of_cons. intros [-> | Hin];
        [exact Hseen|].
      intros Hi. apply (Hfresh _ Hin), elem_of_app. left. exact Hi.
Qed.

Lemma first_of_each_covers (seen : list string) (l : list Suggestion.t)
    (s : Suggestion.t) :
  s ∈ l →
  Suggestion.id s ∈ seen
  ∨ Suggestion.id s ∈ Suggestion.id <$> first_of_each seen l.
Proof.
  revert seen. induction l as [|x l IH]; intros seen Hs; [inversion Hs|].
  simpl. apply elem_of_cons in Hs. case_bool_decide as Hseen.
  - destruct Hs as [-> | Hs]; [left; exact Hseen | apply IH, Hs].
  - rewrite fmap_cons, elem_of_cons. destruct Hs as [-> | Hs]; [auto|].
    destruct (IH (seen ++ [Suggestion.id x]) Hs) as [H | H]; [|auto].
    apply elem_of_app in H. destruct H as [H | H]; [auto|].
    apply list_elem_of_singleton in H. auto.
Qed.

(** Which tasks the two loops of [getSearchSuggestions] push. *)
Lemma title_mentions (query : string) (task : Task.t) :
  JsString.includes (JsString.toLowerCase (Task.title task))
    (JsString.toLowerCase query) = true
  ↔ occurs_ignoring_case query (Task.title task).
Proof. apply includes_ignoring_case. Qed.

Lemma description_mentions (query : string) (task : Task.t) :
  query ≠ EmptyString →
  match Task.description task with
  | Some d =>
      JsString.truthy d
      && JsString.includes (JsString.toLowerCase d) (JsString.toLowerCase query)
  | None => false
  end = true
  ↔ ∃ d, Task.description task = Some d ∧ occurs_ignoring_case query d.
Proof.
  intros Hq. destruct (Task.description task) as [d|].
  - rewrite andb_true_iff, includes_ignoring_case, truthy_true. split.
    + intros [_ H]. eauto.
    + intros (d' & [= <-] & H). split; [|exact H].
      eapply occurs_nonempty; eassumption.
  - split; [discriminate|]. intros (d' & [=] & _).
Qed.

(** What [getSearchSuggestions] returns for a query of two characters or
    more. *)
Lemma getSearchSuggestions_run (query : string) (w : World) :
  (2 ≤ String.length query)%nat →
  getSearchSuggestions query w
  = (Normal
       (take 5
          (first_of_each []
             ((suggestion_of <$>
                 List.filter
                   (λ task,
                      JsString.includes
                        (JsString.toLowerCase (Task.title task))
                        (JsString.toLowerCase query)) (tasks w))
              ++ (suggestion_of <$>
                    List.filter
                      (λ task,
                         match Task.description task with
                         | Some d =>
                             JsString.truthy d
                             && JsString.includes (JsString.toLowerCase d)
                                  (JsString.toLowerCase query)
                         | None => false
                         end) (tasks w))))), w).
Proof.
  intros Hlen. unfold getSearchSuggestions.
  destruct query as [|a [|b query]]; simpl in Hlen; try lia.
  change (negb (JsString.truthy (String a (String b query)))) with false.
  replace (String.length (String a (String b query)) <? 2)%nat with false
    by (symmetry; apply Nat.ltb_ge; simpl; lia).
  cbv beta iota. change (false || false) with false. cbv iota.
  rewrite run_gets. rewrite !fold_left_push. rewrite app_nil_l.
  unfold mret, M_ret. do 3 f_equal.
  apply (filter_from_first_of_each _ [] _ eq_refl).
Qed.

(** X1.  Every suggestion stands for a task that mentions the query, which has
    at least two characters; at most five suggestions are made, no two for
    the same task id; the store is left as it was. *)
Theorem getSearchSuggestions_are_matches (query : string) (w : World) :
  ∃ l, getSearchSuggestions query w = (Normal l, w)
       ∧ (length l ≤ 5)%nat
       ∧ NoDup (Suggestion.id <$> l)
       ∧ ∀ s, s ∈ l →
           (2 ≤ String.length query)%nat
           ∧ ∃ task, task ∈ tasks w ∧ mentions query task
                     ∧ s = Suggestion.mk "task" (Task.title task)
                             (Task.id task) (Task.priority task).
Proof.
  destruct (le_lt_dec 2 (String.length query)) as [Hlen|Hlen].
  - eexists. split; [apply getSearchSuggestions_run, Hlen|].
    assert (Hq : query ≠ EmptyString) by (intros ->; simpl in Hlen; lia).
    split; [rewrite length_take; lia|]. split.
    + rewrite fmap_take. eapply sublist_NoDup; [|apply sublist_take].
      apply first_of_each_fresh.
    + intros s Hs. split; [exact Hlen|].
      apply elem_of_take in Hs. destruct Hs as (i & Hs & _).
      apply list_elem_of_lookup_2 in Hs.
      apply (λ H, elem_of_sublist _ _ _ H (first_of_each_sublist _ _)) in Hs.
      apply elem_of_app in Hs. destruct Hs as [Hs|Hs];
        apply list_elem_of_fmap in Hs; destruct Hs as (task & -> & Hs);
        apply list_elem_of_In, filter_In in Hs; destruct Hs as [Hin Hp];
        exists task; (split; [apply list_elem_of_In, Hin|]);
        (split; [|reflexivity]).
      * left. apply title_mentions, Hp.
      * right. apply (description_mentions query task Hq), Hp.
  - exists []. split.
    + unfold getSearchSuggestions.
      replace (String.length query <? 2)%nat with true
        by (symmetry; apply Nat.ltb_lt; lia).
      rewrite orb_true_r. reflexivity.
    + split; [simpl; lia|]. split; [constructor|].
      intros s Hs. inversion Hs.
Qed.

(** X2.  A task that mentions a query of two characters or more is among the
    suggestions by its id, unless five other suggestions come first. *)
Theorem getSearchSuggestions_finds (query : string) (w : World)
    (task : Task.t) :
  (2 ≤ String.length query)%nat → task ∈ tasks w → mentions query task →
  ∃ l, getSearchSuggestions query w = (Normal l, w)
       ∧ (Task.id task ∈ Suggestion.id <$> l ∨ length l = 5%nat).
Proof.
  intros Hlen Hin Hm.
  assert (Hq : query ≠ EmptyString) by (intros ->; simpl in Hlen; lia).
  eexists. split; [apply getSearchSuggestions_run, Hlen|].
  match goal with |- context [take 5 ?l] => set (found := l) end.
  assert (Hid : Task.id task ∈ Suggestion.id <$> found).
  { unfold found.
    match goal with |- context [first_of_each [] ?l] => set (all := l) end.
    assert (Hs : suggestion_of task ∈ all).
    { unfold all. apply elem_of_app. apply list_elem_of_In in Hin.
      destruct Hm as [Ht|Hd]; [left|right]; apply list_elem_of_fmap;
        exists task; (split; [reflexivity|]);
        apply list_elem_of_In, filter_In; (split; [exact Hin|]).
      - apply title_mentions, Ht.
      - apply (description_mentions query task Hq), Hd. }
    destruct (first_of_each_covers [] all _ Hs) as [H|H];
      [inversion H | exact H]. }
  destruct (le_lt_dec (length found) 5) as [Hle|Hgt].
  - left. rewrite take_ge by exact Hle. exact Hid.
  - right. rewrite length_take. lia.
Qed.

(** A search for [GATEWAY] on the sample board finds [task-2], whose
    description has the word [gateway]. *)
Lemma getSearchSuggestions_finds_witness :
  ∃ l, getSearchSuggestions "GATEWAY" Sample.world = (Normal l, Sample.world)
       ∧ (Task.id Sample.task2 ∈ Suggestion.id <$> l ∨ length l = 5%nat).
Proof.
  apply (getSearchSuggestions_finds "GATEWAY" Sample.world Sample.task2).
  - simpl. lia.
  - simpl. right. left.
  - right. eexists. split; [reflexivity|].
    apply includes_ignoring_case. vm_compute. reflexivity.
Defined.

(** ** Labels of dates *)

(** Linear arithmetic with division by a constant. *)
Ltac div_lia := Z.to_euclidean_division_equations; lia.

(** X3.  The age of an activity is cut into ranges of elapsed milliseconds: less
    than a minute old, or dated in the future, reads [Just now]; then whole
    minutes up to an hour, whole hours up to a day, whole days up to a
    week; from a week on the date is shown.  One reading of the clock is
    taken. *)
Theorem getRelativeTime_ranges (h : Host) (toLocaleDateString : Z → string)
    (timestamp : string) (w : World) (t : Z) :
  parseDate h timestamp = Some t →
  let age := clock h (clockReads w) - t in
  ∃ label,
    getRelativeTime h toLocaleDateString timestamp w
    = (Normal label, set_clockReads (S (clockReads w)) w)
    ∧ (age < 60000 → label = "Just now")
    ∧ (60000 ≤ age < 3600000 →
       label = pretty (age / 60000) +:+ "m ago" ∧ 1 ≤ age / 60000 < 60)
    ∧ (3600000 ≤ age < 86400000 →
       label = pretty (age / 3600000) +:+ "h ago" ∧ 1 ≤ age / 3600000 < 24)
    ∧ (86400000 ≤ age < 604800000 →
       label = pretty (age / 86400000) +:+ "d ago" ∧ 1 ≤ age / 86400000 < 7)
    ∧ (604800000 ≤ age → label = toLocaleDateString t).
Proof.
  intros Ht age. unfold getRelativeTime. rewrite run_now, Ht.
  fold age. cbv zeta.
  change (1000 * 60 * 60 * 24) with 86400000.
  change (1000 * 60 * 60) with 3600000.
  change (1000 * 60) with 60000.
  clearbody age.
  destruct (Z.ltb_spec (age / 60000) 1) as [H1|H1];
    [|destruct (Z.ltb_spec (age / 60000) 60) as [H2|H2];
      [|destruct (Z.ltb_spec (age / 3600000) 24) as [H3|H3];
        [|destruct (Z.ltb_spec (age / 86400000) 7) as [H4|H4]]]];
    eexists; (split; [reflexivity|]);
    repeat split; intros; repeat split;
    first [reflexivity | div_lia | exfalso; div_lia].
Qed.

(** An activity dated a day before the clock of the sample browser. *)
Lemma getRelativeTime_ranges_witness :
  ∃ label,
    getRelativeTime Sample.host (λ _, "8/2/2025") "2025-08-02" Sample.world
    = (Normal label, set_clockReads 1 Sample.world)
    ∧ label = "1d ago".
Proof.
  destruct (getRelativeTime_ranges Sample.host (λ _, "8/2/2025") "2025-08-02"
              Sample.world 1754092800000 eq_refl)
    as (label & Hrun & _ & _ & _ & Hday & _).
  exists label. split; [exact Hrun|].
  destruct Hday as [-> _]; [|reflexivity].
  vm_compute. split; [discriminate | reflexivity].
Defined.

(** A timestamp that is no date reads [Invalid Date]. *)
Lemma getRelativeTime_invalid (h : Host) (toLocaleDateString : Z → string)
    (timestamp : string) (w : World) :
  parseDate h timestamp = None →
  getRelativeTime h toLocaleDateString timestamp w
  = (Normal "Invalid Date", set_clockReads (S (clockReads w)) w).
Proof.
  intros Ht. unfold getRelativeTime. rewrite run_now, Ht. reflexivity.
Qed.

(** X4.  The label of a due date counts elapsed time, not calendar days: a time
    up to 24 hours back reads [Today], any time ahead by 24 hours or less,
    be it a millisecond, reads [Tomorrow]; the day counts are rounded up. *)
Theorem formatDate_ranges (h : Host) (toLocaleDateString : Z → string)
    (d : Z) (w : World) :
  let ahead := d - clock h (clockReads w) in
  ∃ label,
    formatDate h toLocaleDateString (Some d) w
    = (Normal label, set_clockReads (S (clockReads w)) w)
    ∧ (-86400000 < ahead ≤ 0 → label = "Today")
    ∧ (0 < ahead ≤ 86400000 → label = "Tomorrow")
    ∧ (-172800000 < ahead ≤ -86400000 → label = "Yesterday")
    ∧ (86400000 < ahead ≤ 604800000 →
       ∃ n, label = pretty n +:+ " days" ∧ 2 ≤ n ≤ 7
            ∧ (n - 1) * 86400000 < ahead ≤ n * 86400000)
    ∧ (-691200000 < ahead ≤ -172800000 →
       ∃ n, label = pretty n +:+ " days ago" ∧ 2 ≤ n ≤ 7
            ∧ n * 86400000 ≤ - ahead < (n + 1) * 86400000)
    ∧ (604800000 < ahead ∨ ahead ≤ -691200000 →
       label = toLocaleDateString d).
Proof.
  intros ahead. unfold formatDate. rewrite run_now. fold ahead. cbv zeta.
  change (1000 * 60 * 60 * 24) with 86400000.
  unfold ceil_div.
  set (n := - (- ahead / 86400000)).
  assert (Hn : (n - 1) * 86400000 < ahead ≤ n * 86400000)
    by (unfold n; div_lia).
  clearbody n. clearbody ahead.
  repeat (match goal with
          | |- context [Z.eqb ?a ?b] => destruct (Z.eqb_spec a b)
          | |- context [Z.ltb ?a ?b] => destruct (Z.ltb_spec a b)
          | |- context [Z.leb ?a ?b] => destruct (Z.leb_spec a b)
          end; cbn [andb]; cbv iota);
    eexists; (split; [reflexivity|]);
    repeat split; intros;
    first [reflexivity | exists n; repeat split; lia
          | exists (Z.abs n); repeat split; lia | exfalso; lia].
Qed.

Lemma formatDate_today (h : Host) (toLocaleDateString : Z → string)
    (d : Z) (w : World) :
  clock h (clockReads w) - 86400000 < d ≤ clock h (clockReads w) →
  formatDate h toLocaleDateString (Some d) w
  = (Normal "Today", set_clockReads (S (clockReads w)) w).
Proof.
  intros Hd. unfold formatDate. rewrite run_now.
  replace (ceil_div (d - clock h (clockReads w)) (1000 * 60 * 60 * 24))
    with 0 by (unfold ceil_div; div_lia).
  reflexivity.
Qed.

(** X5.  A due date that has passed by less than 24 hours is marked overdue on
    the card while its label still reads [Today]. *)
Theorem renderTaskCard_overdue_reads_today (h : Host)
    (toLocaleDateString : Z → string) (task : Task.t) (w : World)
    (s : string) (d : Z) :
  Task.dueDate task = Some s → s ≠ EmptyString → parseDate h s = Some d →
  d < clock h (clockReads w) →
  clock h (S (clockReads w)) - 86400000 < d ≤ clock h (S (clockReads w)) →
  fst (renderTaskCard_dueDate h toLocaleDateString task w)
  = Normal (Some ("overdue", "Today")).
Proof.
  intros Hdue Hs Hd Hpast Hday. unfold renderTaskCard_dueDate.
  rewrite Hdue. apply truthy_true in Hs. rewrite Hs, Hd, run_now.
  replace (d <? clock h (clockReads w)) with true
    by (symmetry; apply Z.ltb_lt; exact Hpast).
  rewrite (run_bind _ _ _ _ _
             (formatDate_today h toLocaleDateString d
                (set_clockReads (S (clockReads w)) w) Hday)).
  reflexivity.
Qed.

(** A task due on 2025-08-03, looked at one second after that midnight. *)
Lemma renderTaskCard_overdue_reads_today_witness :
  fst (renderTaskCard_dueDate Sample.host (λ _, "8/3/2025")
         (Task.mk "task-9" "Due today" None "todo" "medium" None
            (Some "2025-08-03") "2025-08-01T10:00:00Z" "2025-08-01T10:00:00Z"
            [] "col-todo")
         (set_clockReads 1 Sample.world))
  = Normal (Some ("overdue", "Today")).
Proof.
  apply (renderTaskCard_overdue_reads_today Sample.host _ _ _ "2025-08-03"
           1754179200000);
    [reflexivity | discriminate | reflexivity | reflexivity
    | vm_compute; split; [reflexivity | discriminate]].
Defined.

(** ** The board *)

Lemma formatDate_run (h : Host) (toLocaleDateString : Z → string)
    (date : option Z) (w : World) :
  ∃ label,
    formatDate h toLocaleDateString date w
    = (Normal label, set_clockReads (S (clockReads w)) w).
Proof.
  unfold formatDate. rewrite run_now. destruct date as [d|]; [|eauto].
  cbv zeta.
  repeat (match goal with
          | |- context [if ?b then _ else _] => destruct b
          end);
    eexists; reflexivity.
Qed.

(** Drawing the due date of a card changes nothing but the count of
    readings of the clock. *)
Lemma renderTaskCard_dueDate_run (h : Host) (toLocaleDateString : Z → string)
    (task : Task.t) (w : World) :
  ∃ dueDate,
    renderTaskCard_dueDate h toLocaleDateString task w
    = (Normal dueDate, set_clockReads (clockReads w + card_readings task) w).
Proof.
  unfold renderTaskCard_dueDate, card_readings. rewrite run_now.
  assert (Hone : set_clockReads (S (clockReads w)) w
                 = set_clockReads (clockReads w + 1) w)
    by (rewrite Nat.add_1_r; reflexivity).
  destruct (Task.dueDate task) as [s|];
    [|rewrite <- Hone; eexists; reflexivity].
  destruct (JsString.truthy s); [|rewrite <- Hone; eexists; reflexivity].
  destruct (formatDate_run h toLocaleDateString (parseDate h s)
              (set_clockReads (S (clockReads w)) w)) as (label & Hlabel).
  rewrite (run_bind _ _ _ _ _ Hlabel). eexists. unfold mret, M_ret.
  apply pair_equal_spec. split; [reflexivity|].
  destruct w. simpl. unfold set_clockReads. simpl. f_equal. lia.
Qed.

(** A list drawn item by item, each item advancing the count of clock
    readings by its own number. *)
Lemma mapM_readings {A B} (f : A → M B) (n : A → nat) (P : A → B → Prop) :
  (∀ x w, ∃ b, f x w = (Normal b, set_clockReads (clockReads w + n x) w)
               ∧ P x b) →
  ∀ l w, ∃ bs,
    mapM f l w
    = (Normal bs, set_clockReads (clockReads w + sum_list_with n l) w)
    ∧ Forall2 P l bs.
Proof.
  intros Hf. induction l as [|x l IH]; intros w.
  - exists []. split; [|constructor]. simpl. unfold mret, M_ret.
    apply pair_equal_spec. split; [reflexivity|].
    destruct w. unfold set_clockReads. simpl. f_equal. lia.
  - destruct (Hf x w) as (b & Hb & HP).
    destruct (IH (set_clockReads (clockReads w + n x) w))
      as (bs & Hbs & HPs).
    exists (b :: bs). split; [|constructor; assumption].
    change (mapM f (x :: l)) with (y ← f x; k ← mapM f l; mret (y :: k)).
    rewrite (run_bind _ _ _ _ _ Hb), (run_bind _ _ _ _ _ Hbs).
    unfold mret, M_ret. apply pair_equal_spec. split; [reflexivity|].
    destruct w. unfold set_clockReads. simpl. f_equal. lia.
Qed.

(** X6.  The board lists the columns in the order of the store, and a
    task has a card on it exactly when it passes the filters and its
    [columnId] is the id of a column: a task in a column the board does
    not have is shown nowhere.  Drawing the board leaves the application
    as it was but for the count of readings of the clock, which grows by
    one for each card and one more for each card with a due date. *)
Theorem renderKanbanView_cards (h : Host) (toLocaleDateString : Z → string)
    (w : World) :
  ∃ board,
    renderKanbanView h toLocaleDateString w
    = (Normal board, set_clockReads (clockReads w + board_readings w) w)
    ∧ fst <$> board = columns w
    ∧ ∀ task,
        (∃ column cards dueDate,
           (column, cards) ∈ board ∧ (task, dueDate) ∈ cards)
        ↔ (task ∈ tasks w ∧ satisfies (filters w) task
           ∧ ∃ column, column ∈ columns w
                       ∧ Column.id column = Task.columnId task).
Proof.
  unfold renderKanbanView, getFilteredTasks.
  rewrite run_assoc, !run_gets, run_ret, run_gets.
  change (id w) with w.
  destruct (mapM_readings
              (λ column,
                 cards ← mapM (λ task,
                                 dueDate ← renderTaskCard_dueDate h
                                             toLocaleDateString task;
                                 mret (task, dueDate))
                          (List.filter
                             (λ task, String.eqb (Task.columnId task)
                                        (Column.id column))
                             (List.filter (matchesFilters (filters w))
                                (tasks w)));
                 mret (column, cards))
              (λ column, sum_list_with card_readings (shown_in w column))
              (λ column entry,
                 fst entry = column
                 ∧ fst <$> snd entry = shown_in w column))
    with (l := columns w) (w := w) as (board & Hrun & Hboard).
  { intros column w0.
    destruct (mapM_readings
                (λ task,
                   dueDate ← renderTaskCard_dueDate h toLocaleDateString
                               task;
                   mret (task, dueDate))
                card_readings (λ task card, fst card = task))
      with (l := shown_in w column) (w := w0) as (cards & Hcards & Hfst).
    { intros task w1.
      destruct (renderTaskCard_dueDate_run h toLocaleDateString task w1)
        as (dueDate & Hdue).
      exists (task, dueDate). rewrite (run_bind _ _ _ _ _ Hdue). auto. }
    exists (column, cards). fold (shown_in w column).
    rewrite (run_bind _ _ _ _ _ Hcards). split; [reflexivity|].
    split; [reflexivity|]. simpl. clear -Hfst.
    induction Hfst as [|task card l cards Hc _ IH]; [reflexivity|].
    rewrite fmap_cons, Hc, IH. reflexivity. }
  exists board. split; [exact Hrun|].
  assert (Hcols : fst <$> board = columns w).
  { clear -Hboard. induction Hboard as [|c entry l bs [Hc _] _ IH];
      [reflexivity|].
    rewrite fmap_cons, Hc, IH. reflexivity. }
  split; [exact Hcols|].
  assert (Hshown : ∀ task column,
            task ∈ shown_in w column
            ↔ task ∈ tasks w ∧ satisfies (filters w) task
              ∧ Column.id column = Task.columnId task).
  { intros task column. unfold shown_in.
    rewrite !list_elem_of_In, !filter_In, String.eqb_eq,
      matchesFilters_spec.
    intuition congruence. }
  intros task. split.
  - intros (column & cards & dueDate & Hin & Hcard).
    assert (Hentry : column ∈ columns w
                     ∧ fst <$> cards = shown_in w column).
    { clear -Hboard Hin.
      induction Hboard as [|c entry l bs [Hc Hs] _ IH]; [inversion Hin|].
      apply elem_of_cons in Hin. destruct Hin as [<- | Hin].
      - simpl in *. subst c. split; [left | exact Hs].
      - destruct (IH Hin) as [H1 H2]. split; [right; exact H1 | exact H2]. }
    destruct Hentry as [Hc Hs].
    assert (Ht : task ∈ shown_in w column).
    { rewrite <- Hs. apply list_elem_of_fmap. exists (task, dueDate). auto. }
    apply Hshown in Ht. destruct Ht as (Ht & Hm & Hid). eauto.
  - intros (Ht & Hm & column & Hc & Hid).
    assert (Hentry : ∃ cards, (column, cards) ∈ board
                              ∧ fst <$> cards = shown_in w column).
    { clear -Hboard Hc.
      induction Hboard as [|c [c' cards] l bs [Hc' Hs] _ IH];
        [inversion Hc|].
      simpl in *. subst c'. apply elem_of_cons in Hc.
      destruct Hc as [-> | Hc].
      - exists cards. split; [left | exact Hs].
      - destruct (IH Hc) as (cards' & Hin & Hs').
        exists cards'. split; [right; exact Hin | exact Hs']. }
    destruct Hentry as (cards & Hin & Hs).
    assert (Hshow : task ∈ fst <$> cards)
      by (rewrite Hs; apply Hshown; auto).
    apply list_elem_of_fmap in Hshow.
    destruct Hshow as ([task' dueDate] & Heq & Hcard). simpl in Heq.
    subst task'. eauto.
Qed.

(** The sample board: five cards, each with a due date, ten readings of
    the clock. *)
Lemma renderKanbanView_cards_witness :
  ∃ board,
    renderKanbanView Sample.host (λ _, "8/15/2025") Sample.world
    = (Normal board, set_clockReads 10 Sample.world)
    ∧ fst <$> board = Sample.columns.
Proof.
  destruct (renderKanbanView_cards Sample.host (λ _, "8/15/2025")
              Sample.world) as (board & Hrun & Hcols & _).
  exists board. split; [exact Hrun | exact Hcols].
Defined.

(** ** Tags *)

Lemma trimStart_head (s : string) :
  JsString.trimStart s = EmptyString
  ∨ ∃ c r, JsString.trimStart s = String c r ∧ JsString.is_space c = false.
Proof.
  induction s as [|c s IH]; simpl; [left; reflexivity|].
  destruct (JsString.is_space c) eqn:Hc; [exact IH|].
  right. exists c, s. auto.
Qed.

Lemma trimEnd_cons (c : ascii) (s : string) :
  JsString.is_space c = false →
  ∃ r, JsString.trimEnd (String c s) = String c r.
Proof.
  intros Hc. simpl. rewrite Hc. destruct (JsString.trimEnd s); eauto.
Qed.

Lemma trimEnd_idem (s : string) :
  JsString.trimEnd (JsString.trimEnd s) = JsString.trimEnd s.
Proof.
  induction s as [|c s IH]; [reflexivity|]. simpl.
  destruct (JsString.trimEnd s) as [|x r] eqn:Hr.
  - destruct (JsString.is_space c) eqn:Hc; [reflexivity|].
    simpl. rewrite Hc. reflexivity.
  - change (JsString.trimEnd (String c (String x r)))
      with (match JsString.trimEnd (String x r) with
            | EmptyString =>
                if JsString.is_space c then EmptyString
                else String c EmptyString
            | String y r' => String c (String y r')
            end).
    rewrite IH. reflexivity.
Qed.

Lemma trim_idem (s : string) :
  JsString.trim (JsString.trim s) = JsString.trim s.
Proof.
  unfold JsString.trim.
  destruct (trimStart_head s) as [-> | (c & r & -> & Hc)]; [reflexivity|].
  destruct (trimEnd_cons c r Hc) as (r' & Hr).
  rewrite Hr. simpl JsString.trimStart. rewrite Hc, <- Hr.
  apply trimEnd_idem.
Qed.

Lemma trimStart_chars (c : ascii) (s : string) :
  In c (list_ascii_of_string (JsString.trimStart s)) →
  In c (list_ascii_of_string s).
Proof.
  induction s as [|x s IH]; simpl; [tauto|].
  destruct (JsString.is_space x); simpl; tauto.
Qed.

Lemma trimEnd_chars (c : ascii) (s : string) :
  In c (list_ascii_of_string (JsString.trimEnd s)) →
  In c (list_ascii_of_string s).
Proof.
  induction s as [|x s IH]; simpl; [tauto|].
  destruct (JsString.trimEnd s) as [|y r].
  - destruct (JsString.is_space x); simpl; tauto.
  - simpl in *. tauto.
Qed.

Lemma trim_comma_free (s : string) :
  comma_free s → comma_free (JsString.trim s).
Proof.
  unfold comma_free, JsString.trim. intros H Hin.
  apply H, trimStart_chars, trimEnd_chars, Hin.
Qed.

(** No piece of a split text holds the separator. *)
Lemma split_pieces (sep : ascii) (s : string) :
  Forall (λ piece, ¬ In sep (list_ascii_of_string piece))
    (JsString.split sep s).
Proof.
  induction s as [|c s IH]; simpl.
  - constructor; [simpl; tauto | constructor].
  - destruct (Ascii.eqb_spec c sep) as [->|Hne].
    + constructor; [simpl; tauto | exact IH].
    + destruct (JsString.split sep s) as [|piece rest].
      * constructor; [simpl; intuition congruence | constructor].
      * inversion IH as [|? ? Hp Hrest]; subst.
        constructor; [simpl; intuition congruence | exact Hrest].
Qed.

(** X7.  The tags [saveTask] reads from the form are never empty, carry no
    white space around them and hold no comma, whatever was typed. *)
Theorem saveTask_tags_are_clean (h : Host) (form : TaskForm) (t : Z) :
  Forall clean_tag (TaskData.tags (taskData_of_form h form t)).
Proof.
  unfold taskData_of_form. cbn [TaskData.tags].
  apply Forall_forall. intros tag Hin.
  apply list_elem_of_In, filter_In in Hin. destruct Hin as [Hin Htruthy].
  apply list_elem_of_In, list_elem_of_fmap in Hin.
  destruct Hin as (piece & -> & Hpiece).
  split; [apply truthy_true, Htruthy|]. split; [apply trim_idem|].
  apply trim_comma_free.
  pose proof (split_pieces ","
                (JsString.or_default (task_tags form) EmptyString)) as Hall.
  rewrite Forall_forall in Hall. apply Hall, Hpiece.
Qed.

Lemma append_assoc_string (a b c : string) :
  (a +:+ b) +:+ c = a +:+ (b +:+ c).
Proof.
  induction a as [|x a IH]; [reflexivity|].
  rewrite !append_cons, IH. reflexivity.
Qed.

Lemma chars_append (a b : string) :
  list_ascii_of_string (a +:+ b)
  = list_ascii_of_string a ++ list_ascii_of_string b.
Proof.
  induction a as [|x a IH]; [reflexivity|].
  rewrite append_cons. simpl. rewrite IH. reflexivity.
Qed.

Lemma split_whole (sep : ascii) (s : string) :
  ¬ In sep (list_ascii_of_string s) → JsString.split sep s = [s].
Proof.
  induction s as [|c s IH]; simpl; [reflexivity|]. intros H.
  destruct (Ascii.eqb_spec c sep) as [->|Hne]; [tauto|].
  rewrite IH by tauto. reflexivity.
Qed.

Lemma split_append (sep : ascii) (a b : string) :
  ¬ In sep (list_ascii_of_string a) →
  JsString.split sep (a +:+ String sep b) = a :: JsString.split sep b.
Proof.
  induction a as [|c a IH]; intros H.
  - rewrite append_nil_l. simpl. rewrite Ascii.eqb_refl. reflexivity.
  - rewrite append_cons. simpl in *.
    destruct (Ascii.eqb_spec c sep) as [->|Hne]; [tauto|].
    rewrite IH by tauto. reflexivity.
Qed.

(** Splitting a joined list at the commas gives the items back, each but
    the first behind a space. *)
Lemma split_join (tags : list string) (x : string) (pre : string) :
  comma_free pre → Forall comma_free (x :: tags) →
  JsString.split "," (pre +:+ join ", " (x :: tags))
  = (pre +:+ x) :: ((λ y, " " +:+ y) <$> tags).
Proof.
  revert x pre. induction tags as [|y tags IH]; intros x pre Hpre Hall.
  - simpl join. apply split_whole. inversion Hall; subst.
    unfold comma_free in *. rewrite chars_append, in_app_iff. tauto.
  - inversion Hall as [|? ? Hx Hrest]; subst.
    change (join ", " (x :: y :: tags))
      with (x +:+ String "," (" " +:+ join ", " (y :: tags))).
    rewrite <- append_assoc_string, split_append.
    + rewrite (IH y " " ltac:(unfold comma_free; simpl; intuition congruence)
                 Hrest).
      reflexivity.
    + unfold comma_free in *. rewrite chars_append, in_app_iff. tauto.
Qed.

(** The tags of a task survive [populateTaskForm] followed by the reading
    of the form, when they are tags as [saveTask] makes them. *)
Lemma tags_round_trip (h : Host)
    (column_options assignee_options : list string) (task : Task.t) (form : TaskForm) (t : Z) :
  task_tags form ≠ None → Forall clean_tag (Task.tags task) →
  TaskData.tags
    (taskData_of_form h
       (populateTaskForm column_options assignee_options task form) t)
  = Task.tags task.
Proof.
  intros Hform Hclean. unfold taskData_of_form, populateTaskForm.
  cbn [TaskData.tags task_tags].
  destruct (task_tags form) as [old|]; [clear Hform | congruence].
  assert (Hor : ∀ s, JsString.or_default (Some s) EmptyString = s)
    by (intros [|? ?]; reflexivity).
  rewrite Hor.
  destruct (Task.tags task) as [|x tags]; [reflexivity|].
  change (join ", " (x :: tags)) with (EmptyString +:+ join ", " (x :: tags)).
  rewrite split_join.
  - rewrite append_nil_l, fmap_cons, <- list_fmap_compose.
    inversion Hclean as [|? ? (Hx & Htrim & _) Hrest]; subst.
    rewrite Htrim. simpl. apply truthy_true in Hx. rewrite Hx. f_equal.
    clear -Hrest. induction Hrest as [|y tags (Hy & Htrim & _) _ IH];
      [reflexivity|].
    simpl. change (JsString.trim (" " +:+ y)) with (JsString.trim y).
    rewrite Htrim. apply truthy_true in Hy. rewrite Hy. f_equal. exact IH.
  - unfold comma_free. simpl. tauto.
  - eapply Forall_impl; [exact Hclean|]. intros ? (_ & _ & H). exact H.
Qed.

(** ** Storage *)

Lemma array_of_to_json {A} (enc : A → json) (dec : json → option A)
    (l : list A) :
  (∀ x, dec (enc x) = Some x) →
  array_of_json dec (array_to_json enc l) = Some l.
Proof. intros H. apply mapM_fmap_Some, H. Qed.

(** X8.  [loadFromStorage] never throws and leaves the world as it was; it
    returns something other than [null] only for an item that holds text
    [JSON.parse] accepts, and then what the text parses to. *)
Theorem loadFromStorage_is_safe (h : Host) (k : string) (w : World) :
  ∃ v, loadFromStorage h k w = (Normal v, w)
       ∧ (v ≠ JNull →
          ∃ text, localStorage w !! k = Some text ∧ text ≠ EmptyString
                  ∧ JSON_parse h text = Some v).
Proof.
  unfold loadFromStorage, try_catch. rewrite run_gets.
  destruct (localStorage w !! k) as [text|] eqn:Hk.
  - destruct text as [|c text].
    + exists JNull. split; [reflexivity | congruence].
    + cbn [JsString.truthy]. unfold parse.
      destruct (JSON_parse h (String c text)) as [v|] eqn:Hparse.
      * exists v. split; [reflexivity|]. intros _.
        exists (String c text). split; [reflexivity|].
        split; [discriminate | exact Hparse].
      * exists JNull. split; [reflexivity | congruence].
  - exists JNull. split; [reflexivity | congruence].
Qed.

Lemma loadFromStorage_stored (h : Host) (k : string) (v : json) (w : World) :
  json_faithful h → JSON_parse h EmptyString = None →
  stored h (localStorage w) k v →
  loadFromStorage h k w = (Normal v, w).
Proof.
  intros Hjson Hempty Hk. unfold loadFromStorage, try_catch.
  rewrite run_gets, Hk.
  destruct (JSON_stringify h 0 v) as [|c text] eqn:Htext.
  - specialize (Hjson 0%nat v). rewrite Htext in Hjson. congruence.
  - cbn [JsString.truthy]. unfold parse. rewrite <- Htext, Hjson. reflexivity.
Qed.

Lemma loadFromStorage_missing (h : Host) (k : string) (w : World) :
  localStorage w !! k = None → loadFromStorage h k w = (Normal JNull, w).
Proof.
  intros Hk. unfold loadFromStorage, try_catch. rewrite run_gets, Hk.
  reflexivity.
Qed.

Lemma loadFromStorage_corrupt (h : Host) (k text : string) (w : World) :
  localStorage w !! k = Some text → JSON_parse h text = None →
  loadFromStorage h k w = (Normal JNull, w).
Proof.
  intros Hk Hparse. unfold loadFromStorage, try_catch.
  rewrite run_gets, Hk. unfold parse. rewrite Hparse.
  destruct (JsString.truthy text); reflexivity.
Qed.

(** What [loadFromStorage] returns depends on the storage only. *)
Lemma loadFromStorage_value (h : Host) (k : string) (w1 w2 : World) :
  localStorage w1 = localStorage w2 →
  fst (loadFromStorage h k w1) = fst (loadFromStorage h k w2).
Proof.
  intros Hsame. unfold loadFromStorage, try_catch. rewrite !run_gets, Hsame.
  destruct (localStorage w2 !! k) as [text|]; [|reflexivity].
  destruct (JsString.truthy text); [|reflexivity].
  unfold parse. destruct (JSON_parse h text); reflexivity.
Qed.

Lemma saveToStorage_run (h : Host) (k : string) (v : json) (w : World) :
  saveToStorage h k v w
  = (Normal tt, set_localStorage (write h k v (localStorage w)) w).
Proof. reflexivity. Qed.

(** X9.  What was saved under a key is what loading the key gives, on a browser
    whose [JSON.parse] undoes [JSON.stringify] and rejects the empty text;
    when the browser refuses the write, loading gives what it gave before. *)
Theorem loadFromStorage_after_saveToStorage (h : Host) (k : string)
    (v : json) (w : World) :
  json_faithful h → JSON_parse h EmptyString = None →
  fst (loadFromStorage h k (exec (saveToStorage h k v) w))
  = if setItem_ok h (localStorage w) k (JSON_stringify h 0 v)
    then Normal v
    else fst (loadFromStorage h k w).
Proof.
  intros Hjson Hempty. unfold exec. rewrite saveToStorage_run.
  cbn [snd]. unfold write.
  destruct (setItem_ok h (localStorage w) k (JSON_stringify h 0 v)).
  - rewrite (loadFromStorage_stored h k v); [reflexivity | assumption..|].
    unfold stored. simpl. apply lookup_insert_eq.
  - apply loadFromStorage_value. reflexivity.
Qed.

(** The sample tasks, saved and loaded in the reference browser. *)
Lemma loadFromStorage_after_saveToStorage_witness :
  fst (loadFromStorage Sample.host "taskflow-tasks"
         (exec (saveToStorage Sample.host "taskflow-tasks"
                  (array_to_json Task.to_json Sample.tasks)) Sample.world))
  = Normal (array_to_json Task.to_json Sample.tasks).
Proof.
  apply (loadFromStorage_after_saveToStorage Sample.host "taskflow-tasks"
           (array_to_json Task.to_json Sample.tasks) Sample.world).
  - apply RefHost_json_faithful.
  - reflexivity.
Defined.

(** ** Start-up *)

Lemma json_truthy_array {A} (enc : A → json) (l : list A) :
  json_truthy (array_to_json enc l) = true.
Proof. reflexivity. Qed.

Lemma saveToStorage_same (h : Host) (k : string) (v : json) (w : World) :
  stored h (localStorage w) k v → saveToStorage h k v w = (Normal tt, w).
Proof.
  intros Hk. rewrite saveToStorage_run. f_equal.
  destruct w. unfold set_localStorage, write. simpl in *. f_equal.
  destruct (setItem_ok h _ k _); [|reflexivity].
  apply insert_id, Hk.
Qed.

(** Saving collections the storage is in step with changes nothing. *)
Lemma save_all_same (h : Host) (w : World) :
  persisted h w →
  (save_users h;; save_columns h;; save_tasks h;; save_activities h) w
  = (Normal tt, w).
Proof.
  intros (Hu & Hc & Ht & Ha).
  unfold save_users, save_columns, save_tasks, save_activities.
  rewrite run_assoc, run_gets.
  rewrite (run_bind _ _ _ _ _ (saveToStorage_same h _ _ w Hu)).
  rewrite run_assoc, run_gets.
  rewrite (run_bind _ _ _ _ _ (saveToStorage_same h _ _ w Hc)).
  rewrite run_assoc, run_gets.
  rewrite (run_bind _ _ _ _ _ (saveToStorage_same h _ _ w Ht)).
  rewrite run_gets. apply saveToStorage_same, Ha.
Qed.

Lemma write_accepted (h : Host) (k : string) (v : json)
    (store : gmap string string) :
  accepts_all h → write h k v store = <[k := JSON_stringify h 0 v]> store.
Proof. intros Hok. unfold write. rewrite Hok. reflexivity. Qed.

(** X10.  A page load after a session that left the storage in step with its
    collections brings these back as they were; the first of the users
    becomes the current user, and the storage stays as it is. *)
Theorem initializeData_restores (h : Host) (w w0 : World) :
  json_faithful h → JSON_parse h EmptyString = None →
  persisted h w0 → localStorage w = localStorage w0 →
  initializeData h w
  = (Normal tt,
     mkWorld (head (users w0)) (tasks w0) (users w0) (columns w0)
       (activities w0) (filters w) (isInitialized w) (localStorage w)
       (notifications w) (formErrors w) (downloads w) (clockReads w)
       (randomReads w)).
Proof.
  intros Hjson Hempty (Hu & Hc & Ht & Ha) Hsame. rewrite <- Hsame in *.
  unfold initializeData.
  rewrite (run_bind _ _ _ _ _
             (loadFromStorage_stored h _ _ w Hjson Hempty Hu)).
  rewrite json_truthy_array, (array_of_to_json _ _ _ User_of_to_json).
  rewrite run_typed, run_modify.
  rewrite (run_bind _ _ _ _ _
             (loadFromStorage_stored h _ _ (set_users _ w) Hjson Hempty Hc)).
  rewrite json_truthy_array, (array_of_to_json _ _ _ Column_of_to_json).
  rewrite run_typed, run_modify.
  rewrite (run_bind _ _ _ _ _
             (loadFromStorage_stored h _ _ (set_columns _ (set_users _ w))
                Hjson Hempty Ht)).
  rewrite json_truthy_array, (array_of_to_json _ _ _ Task_of_to_json).
  rewrite run_typed, run_modify.
  rewrite (run_bind _ _ _ _ _
             (loadFromStorage_stored h _ _
                (set_tasks _ (set_columns _ (set_users _ w)))
                Hjson Hempty Ha)).
  rewrite json_truthy_array, (array_of_to_json _ _ _ Activity_of_to_json).
  rewrite run_typed, !run_modify.
  rewrite save_all_same by (repeat split; assumption).
  destruct w; reflexivity.
Qed.

(** A first session on the sample board, then a reload into a fresh
    page. *)
Lemma initializeData_restores_witness :
  let w0 := exec (initializeData Sample.host) Sample.uninitialised in
  let w := set_tasks [] (set_users [] (set_activities []
             (set_localStorage (localStorage w0) Sample.uninitialised))) in
  tasks (exec (initializeData Sample.host) w) = Sample.tasks
  ∧ length (activities (exec (initializeData Sample.host) w)) = 3%nat.
Proof.
  intros w0 w. unfold exec.
  rewrite (initializeData_restores Sample.host w w0
             (RefHost_json_faithful _ _) eq_refl);
    [split; reflexivity | | reflexivity].
  vm_compute. repeat split; reflexivity.
Defined.

(** X11.  A first visit: with none of the four items in the storage, the sample
    users, columns and tasks and three dated activities are set up, the
    first sample user becomes the current user, and, on a browser that
    accepts the writes, the storage is in step with them. *)
Theorem initializeData_first_visit (h : Host) (w : World) :
  (∀ k, k ∈ app_keys → localStorage w !! k = None) →
  ∃ w',
    initializeData h w = (Normal tt, w')
    ∧ users w' = Sample.users ∧ columns w' = Sample.columns
    ∧ tasks w' = Sample.tasks
    ∧ activities w'
      = seed_activities h (clock h (clockReads w))
          (clock h (S (clockReads w))) (clock h (S (S (clockReads w))))
    ∧ currentUser w' = head Sample.users
    ∧ (accepts_all h → persisted h w').
Proof.
  intros Hnone.
  assert (Hu : localStorage w !! "taskflow-users" = None)
    by (apply Hnone; repeat constructor).
  assert (Hc : localStorage w !! "taskflow-columns" = None)
    by (apply Hnone; repeat constructor).
  assert (Ht : localStorage w !! "taskflow-tasks" = None)
    by (apply Hnone; repeat constructor).
  assert (Ha : localStorage w !! "taskflow-activities" = None)
    by (apply Hnone; repeat constructor).
  unfold initializeData.
  rewrite (run_bind _ _ _ _ _ (loadFromStorage_missing h _ w Hu)).
  cbn [json_truthy]. rewrite run_ret, run_modify.
  rewrite (run_bind _ _ _ _ _ (loadFromStorage_missing h _ (set_users _ w) Hc)).
  cbn [json_truthy]. rewrite run_ret, run_modify.
  rewrite (run_bind _ _ _ _ _
             (loadFromStorage_missing h _ (set_columns _ (set_users _ w)) Ht)).
  cbn [json_truthy]. rewrite run_ret, run_modify.
  rewrite (run_bind _ _ _ _ _
             (loadFromStorage_missing h _
                (set_tasks _ (set_columns _ (set_users _ w))) Ha)).
  cbn [json_truthy].
  eexists. split.
  { unfold save_users, save_columns, save_tasks, save_activities,
      saveToStorage, now, gets, modify, mbind, M_bind, mret, M_ret.
    cbn [snd fst]. reflexivity. }
  cbn -[seed_activities Sample.users Sample.columns Sample.tasks write].
  repeat (split; [reflexivity|]).
  intros Hok. unfold persisted, stored.
  cbn -[seed_activities Sample.users Sample.columns Sample.tasks
        JSON_stringify array_to_json].
  rewrite !Hok.
  repeat split;
    repeat first [ apply lookup_insert_eq
                 | rewrite lookup_insert_ne by discriminate ].
Qed.

(** The sample application before its first start. *)
Lemma initializeData_first_visit_witness :
  ∃ w',
    initializeData Sample.host Sample.uninitialised = (Normal tt, w')
    ∧ tasks w' = Sample.tasks
    ∧ persisted Sample.host w'.
Proof.
  destruct (initializeData_first_visit Sample.host Sample.uninitialised)
    as (w' & Hrun & _ & _ & Ht & _ & _ & Hp).
  - intros k _. reflexivity.
  - exists w'. split; [exact Hrun|]. split; [exact Ht|].
    apply Hp. intros ? ? ?. reflexivity.
Defined.

Lemma save_all_run (h : Host) (w : World) :
  (save_users h;; save_columns h;; save_tasks h;; save_activities h) w
  = (Normal tt,
     set_localStorage
       (write h "taskflow-activities"
          (array_to_json Activity.to_json (activities w))
          (write h "taskflow-tasks" (array_to_json Task.to_json (tasks w))
             (write h "taskflow-columns"
                (array_to_json Column.to_json (columns w))
                (write h "taskflow-users"
                   (array_to_json User.to_json (users w))
                   (localStorage w))))) w).
Proof. destruct w. reflexivity. Qed.

Lemma persisted_after_save_all (h : Host) (w : World) :
  accepts_all h →
  persisted h
    (set_localStorage
       (write h "taskflow-activities"
          (array_to_json Activity.to_json (activities w))
          (write h "taskflow-tasks" (array_to_json Task.to_json (tasks w))
             (write h "taskflow-columns"
                (array_to_json Column.to_json (columns w))
                (write h "taskflow-users"
                   (array_to_json User.to_json (users w))
                   (localStorage w))))) w).
Proof.
  intros Hok. rewrite !(write_accepted h _ _ _ Hok).
  unfold persisted, stored. destruct w. simpl.
  repeat split;
    repeat first [ apply lookup_insert_eq
                 | rewrite lookup_insert_ne by discriminate ].
Qed.

(** X12.  A tasks item that [JSON.parse] rejects is given up without notice: the
    sample tasks take its place, in memory and, on a browser that accepts
    the writes, in the storage, where they overwrite the text; the other
    collections come back as they were stored. *)
Theorem initializeData_replaces_corrupt_tasks (h : Host) (w w0 : World)
    (text : string) :
  json_faithful h → JSON_parse h EmptyString = None → accepts_all h →
  persisted h w0 →
  localStorage w = <["taskflow-tasks" := text]> (localStorage w0) →
  JSON_parse h text = None →
  ∃ w',
    initializeData h w = (Normal tt, w')
    ∧ tasks w' = Sample.tasks
    ∧ users w' = users w0 ∧ columns w' = columns w0
    ∧ activities w' = activities w0
    ∧ persisted h w'.
Proof.
  intros Hjson Hempty Hok (Hu & Hc & _ & Ha) Hw Hparse.
  assert (Hu' : stored h (localStorage w) "taskflow-users"
                  (array_to_json User.to_json (users w0)))
    by (unfold stored; rewrite Hw, lookup_insert_ne by discriminate;
        exact Hu).
  assert (Hc' : stored h (localStorage w) "taskflow-columns"
                  (array_to_json Column.to_json (columns w0)))
    by (unfold stored; rewrite Hw, lookup_insert_ne by discriminate;
        exact Hc).
  assert (Ha' : stored h (localStorage w) "taskflow-activities"
                  (array_to_json Activity.to_json (activities w0)))
    by (unfold stored; rewrite Hw, lookup_insert_ne by discriminate;
        exact Ha).
  assert (Ht' : localStorage w !! "taskflow-tasks" = Some text)
    by (rewrite Hw; apply lookup_insert_eq).
  unfold initializeData.
  rewrite (run_bind _ _ _ _ _
             (loadFromStorage_stored h _ _ w Hjson Hempty Hu')).
  rewrite json_truthy_array, (array_of_to_json _ _ _ User_of_to_json).
  rewrite run_typed, run_modify.
  rewrite (run_bind _ _ _ _ _
             (loadFromStorage_stored h _ _ (set_users _ w) Hjson Hempty Hc')).
  rewrite json_truthy_array, (array_of_to_json _ _ _ Column_of_to_json).
  rewrite run_typed, run_modify.
  rewrite (run_bind _ _ _ _ _
             (loadFromStorage_corrupt h _ text
                (set_columns _ (set_users _ w)) Ht' Hparse)).
  cbn [json_truthy]. rewrite run_ret, run_modify.
  rewrite (run_bind _ _ _ _ _
             (loadFromStorage_stored h _ _
                (set_tasks _ (set_columns _ (set_users _ w)))
                Hjson Hempty Ha')).
  rewrite json_truthy_array, (array_of_to_json _ _ _ Activity_of_to_json).
  rewrite run_typed, !run_modify, save_all_run.
  eexists. split; [reflexivity|].
  repeat (split; [reflexivity|]).
  apply persisted_after_save_all, Hok.
Qed.

(** The storage of a first session with the tasks item cut short. *)
Lemma initializeData_replaces_corrupt_tasks_witness :
  let w0 :=
    set_tasks [Sample.task2]
      (exec (initializeData Sample.host) Sample.uninitialised) in
  let w1 := exec (syncData Sample.host) w0 in
  let w :=
    set_localStorage (<["taskflow-tasks" := "[{"]> (localStorage w1))
      Sample.uninitialised in
  ∃ w',
    initializeData Sample.host w = (Normal tt, w')
    ∧ tasks w' = Sample.tasks
    ∧ persisted Sample.host w'.
Proof.
  intros w0 w1 w.
  destruct (initializeData_replaces_corrupt_tasks Sample.host w w1 "[{")
    as (w' & Hrun & Ht & _ & _ & _ & Hp).
  - apply RefHost_json_faithful.
  - reflexivity.
  - intros ? ? ?. reflexivity.
  - vm_compute. repeat split; reflexivity.
  - reflexivity.
  - reflexivity.
  - exists w'. split; [exact Hrun|]. split; [exact Ht | exact Hp].
Defined.

(** X13.  [renderBasicView] leaves an application that has users alone.  One
    without users gets the minimal data: one user, two columns and the
    welcome task replace whatever tasks and activities were loaded, while
    the storage keeps what it held. *)
Theorem renderBasicView_falls_back (h : Host) (w : World) :
  (users w ≠ [] → renderBasicView h w = (Normal tt, w))
  ∧ (users w = [] →
     ∃ w',
       renderBasicView h w = (Normal tt, w')
       ∧ Task.title <$> tasks w' = ["Welcome Task"]
       ∧ User.id <$> users w' = ["user-1"]
       ∧ Column.id <$> columns w' = ["col-todo"; "col-done"]
       ∧ activities w' = []
       ∧ currentUser w' = head (users w')
       ∧ localStorage w' = localStorage w).
Proof.
  unfold renderBasicView. rewrite run_gets. split.
  - intros Hne. destruct (users w); [congruence | reflexivity].
  - intros ->. eexists. split; [reflexivity|]. repeat split.
Qed.

(** ** What every command keeps *)

Section Keeps.

Context (R : World → World → Prop) {Hrefl : Reflexive R}
  {Htrans : Transitive R}.

Lemma keeps_ret {A} (a : A) : keeps R (mret a).
Proof. intros w. apply Hrefl. Qed.

Lemma keeps_bind {A B} (c : M A) (k : A → M B) :
  keeps R c → (∀ a, keeps R (k a)) → keeps R (c ≫= k).
Proof.
  intros Hc Hk w. specialize (Hc w). unfold exec, mbind, M_bind in *.
  destruct (c w) as [[a|e|] w1]; simpl in *; try exact Hc.
  eapply Htrans; [exact Hc | apply Hk].
Qed.

Lemma keeps_try_catch {A} (c : M A) (k : JsError → M A) :
  keeps R c → (∀ e, keeps R (k e)) → keeps R (try_catch c k).
Proof.
  intros Hc Hk w. specialize (Hc w). unfold exec, try_catch in *.
  destruct (c w) as [[a|e|] w1]; simpl in *; try exact Hc.
  eapply Htrans; [exact Hc | apply Hk].
Qed.

(** Two steps taken as one. *)
Lemma keeps_block {A B C} (c1 : M A) (c2 : M B) (k : B → M C) :
  keeps R (c1;; c2) → (∀ b, keeps R (k b)) →
  keeps R (c1 ≫= λ _, c2 ≫= k).
Proof.
  intros H12 Hk w.
  assert (Heq : (c1 ≫= λ _, c2 ≫= k) w = ((c1;; c2) ≫= k) w).
  { unfold mbind, M_bind. destruct (c1 w) as [[a|e|] w1]; reflexivity. }
  unfold exec. rewrite Heq. apply (keeps_bind _ _ H12 Hk).
Qed.

Lemma keeps_same {A} (c : M A) :
  (∀ w, exec c w = w) → keeps R c.
Proof. intros H w. rewrite H. apply Hrefl. Qed.

End Keeps.

#[local] Instance extends_refl : Reflexive extends.
Proof. intros w. unfold extends. repeat split; reflexivity. Qed.

#[local] Instance extends_trans : Transitive extends.
Proof.
  intros w1 w2 w3 (T1 & C1 & A1 & N1 & D1 & U1 & Cu1 & F1 & I1)
    (T2 & C2 & A2 & N2 & D2 & U2 & Cu2 & F2 & I2).
  unfold extends.
  repeat split; try (etrans; eassumption); congruence.
Qed.

Lemma update_first_ids (i : string) (f : Task.t → Task.t) (l : list Task.t) :
  (∀ x, Task.id (f x) = Task.id x) →
  Task.id <$> update_first (has_id Task.id i) f l = Task.id <$> l.
Proof.
  intros Hf. induction l as [|x l IH]; [reflexivity|].
  cbn [update_first]. destruct (has_id Task.id i x); rewrite !fmap_cons;
    [rewrite Hf | rewrite IH]; reflexivity.
Qed.

(** The steps the commands are made of, each run on an explicit world. *)
Ltac run_prim :=
  let w := fresh "w" in
  intros w; unfold exec; cbv [now random16777215 this_currentUser
    saveToStorage save_tasks save_columns save_users save_activities
    showNotification renderCurrentView renderActivityFeed showFormErrors
    clearFormErrors closeTaskModal addActivity gets modify throw typed parse
    get_prop mbind M_bind mret M_ret];
  destruct w as [cu ? ? ? ? ? ? ? ? ? ? ? ?]; simpl;
  try destruct cu; simpl.

Ltac extends_prim :=
  run_prim; unfold extends; simpl;
  repeat split;
  first [ reflexivity
        | rewrite update_first_ids by reflexivity; reflexivity
        | apply prefix_app_r; reflexivity
        | rewrite fmap_app; apply prefix_app_r; reflexivity
        | apply suffix_cons_r; reflexivity ].

Lemma exec_parse (h : Host) (text : string) (w : World) :
  exec (parse h text) w = w.
Proof. unfold exec, parse. destruct (JSON_parse h text); reflexivity. Qed.

Lemma exec_typed {A} (v : option A) (w : World) : exec (typed v) w = w.
Proof. destruct v; reflexivity. Qed.

Lemma exec_get_prop (v : json) (k : string) (w : World) :
  exec (get_prop v k) w = w.
Proof. destruct v; reflexivity. Qed.

Ltac keeps_split R prim :=
  repeat first
    [ apply (keeps_ret R)
    | apply (keeps_same R);
      solve [ intros; first [apply exec_parse | apply exec_typed
                            | apply exec_get_prop] ]
    | match goal with
      | |- keeps _ (mbind (λ _, mbind _ _) _) =>
          apply (keeps_block R); [solve [prim] | intros ?]
      end
    | match goal with
      | |- keeps _ (modify _ ≫= λ _, saveToStorage _ _ _) => solve [prim]
      | |- keeps _ (modify _ ≫= λ _, save_tasks _) => solve [prim]
      | |- keeps _ (modify _ ≫= λ _, save_columns _) => solve [prim]
      | |- keeps _ (modify _ ≫= λ _, save_users _) => solve [prim]
      | |- keeps _ (save_tasks _) => solve [prim]
      | |- keeps _ (save_columns _) => solve [prim]
      | |- keeps _ (save_users _) => solve [prim]
      | |- keeps _ (save_activities _) => solve [prim]
      | |- keeps _ (addActivity _ _ _ _) => solve [prim]
      end
    | apply (keeps_bind R); [| intros ?]
    | apply (keeps_try_catch R); [| intros ?]
    | match goal with
      | |- keeps _ (match ?x with _ => _ end) => destruct x
      end
    | solve [prim] ].

Lemma validateTaskForm_extends (h : Host) (d : TaskData.t) :
  keeps extends (validateTaskForm h d).
Proof.
  intros w. unfold exec. rewrite validateTaskForm_run. cbn [snd].
  destruct (JsString.truthy (TaskData.dueDate d)); simpl;
    [|reflexivity].
  destruct w; unfold extends; simpl; repeat split; reflexivity.
Qed.

(** X14.  No command other than an import removes, replaces or reorders what
    the application holds: every task stays in its place under its id,
    every column stays as it is, the activity feed only grows at the
    front, notifications and downloads are only added, and users, current
    user and filters stay the same. *)
Theorem commands_only_extend (h : Host) (c : Command) (w : World) :
  is_import c = false → extends w (exec (run h c) w).
Proof.
  intros Hc. revert w. change (keeps extends (run h c)).
  destruct c; try discriminate; clear Hc; unfold run.
  - unfold moveTask. keeps_split extends extends_prim.
  - unfold drop, moveTask. keeps_split extends extends_prim.
  - unfold toggleTaskCompletion. keeps_split extends extends_prim.
  - unfold saveTask. destruct form as [form|]; [|apply (keeps_ret extends)].
    apply (keeps_bind extends); [extends_prim | intros t].
    apply (keeps_bind extends); [apply validateTaskForm_extends
                                | intros errors].
    keeps_split extends extends_prim.
  - unfold addColumn. keeps_split extends extends_prim.
  - unfold exportData. keeps_split extends extends_prim.
  - unfold syncData. keeps_split extends extends_prim.
  - unfold simulateRealtimeActivity. keeps_split extends extends_prim.
Qed.

(** Adding a column to the sample board. *)
Lemma commands_only_extend_witness :
  extends Sample.world
    (exec (run Sample.host (AddColumn (Some "Blocked"))) Sample.world).
Proof.
  apply (commands_only_extend Sample.host (AddColumn (Some "Blocked"))).
  reflexivity.
Defined.

#[local] Instance stays_persisted_refl (h : Host) :
  Reflexive (stays_persisted h).
Proof. intros w H. exact H. Qed.

#[local] Instance stays_persisted_trans (h : Host) :
  Transitive (stays_persisted h).
Proof. intros w1 w2 w3 H1 H2 H. apply H2, H1, H. Qed.

Ltac persisted_prim Hok :=
  run_prim; unfold stays_persisted, persisted, stored; simpl;
  rewrite ?Hok;
  let Hu := fresh "Hu" in
  let Hc := fresh "Hc" in
  let Ht := fresh "Ht" in
  let Ha := fresh "Ha" in
  intros (Hu & Hc & Ht & Ha);
  repeat split;
  repeat first [ assumption
               | apply lookup_insert_eq
               | rewrite lookup_insert_ne by discriminate ].

Lemma validateTaskForm_stays_persisted (h : Host) (d : TaskData.t) :
  keeps (stays_persisted h) (validateTaskForm h d).
Proof.
  intros w. unfold exec. rewrite validateTaskForm_run. cbn [snd].
  destruct (JsString.truthy (TaskData.dueDate d)); simpl;
    [|reflexivity].
  destruct w. intros H. exact H.
Qed.

(** With a current user, [saveTask] leaves a storage that was in step with
    the collections in step with them. *)
Lemma saveTask_stays_persisted (h : Host) (form : option TaskForm)
    (w : World) :
  accepts_all h → currentUser w ≠ None →
  persisted h w → persisted h (exec (saveTask h form) w).
Proof.
  intros Hok Huser Hp. unfold exec, saveTask.
  destruct form as [form|]; [|exact Hp].
  rewrite run_now. erewrite run_bind by apply validateTaskForm_run.
  destruct (0 <? size _)%nat.
  - revert Hp. unfold tick_if.
    destruct (JsString.truthy _); destruct w; exact (λ H, H).
  - unfold tick_if.
    destruct (currentUser w) as [u|] eqn:Hu; [clear Huser | congruence].
    destruct w as [cu ts us cs acts fl ini ls ns fe ds n r].
    simpl in Hu. subst cu.
    destruct Hp as (Hpu & Hpc & Hpt & Hpa).
    unfold stored in *. simpl in Hpu, Hpc, Hpt, Hpa.
    destruct (JsString.truthy _);
      (destruct (match dataset_taskId form with
                 | Some i => JsString.truthy i
                 | None => false
                 end);
       [ cbv [clearFormErrors closeTaskModal try_catch gets modify mbind
              M_bind mret M_ret]; simpl;
         destruct (find _ ts)
       | ]);
      cbv [now this_currentUser saveToStorage save_tasks save_activities
           showNotification renderCurrentView renderActivityFeed
           clearFormErrors closeTaskModal addActivity try_catch gets modify
           mbind M_bind mret M_ret]; simpl;
      unfold persisted, stored; simpl; rewrite ?Hok;
      repeat split;
      repeat first [ assumption
                   | apply lookup_insert_eq
                   | rewrite lookup_insert_ne by discriminate ].
Qed.

(** X15.  On a browser that accepts the writes and with a current user, every
    command leaves a storage that was in step with the four collections in
    step with them: what a reload would bring back is what the page
    shows. *)
Theorem commands_keep_storage_in_step (h : Host) (c : Command) (w : World) :
  accepts_all h → currentUser w ≠ None →
  persisted h w → persisted h (exec (run h c) w).
Proof.
  intros Hok Huser.
  destruct c; unfold run;
    try (apply saveTask_stays_persisted; assumption);
    clear Huser; revert w;
    match goal with
    | |- ∀ w, persisted h w → persisted h (exec ?c w) =>
        change (keeps (stays_persisted h) c)
    end.
  - unfold moveTask.
    keeps_split (stays_persisted h) ltac:(persisted_prim Hok).
  - unfold drop, moveTask.
    keeps_split (stays_persisted h) ltac:(persisted_prim Hok).
  - unfold toggleTaskCompletion.
    keeps_split (stays_persisted h) ltac:(persisted_prim Hok).
  - unfold addColumn.
    keeps_split (stays_persisted h) ltac:(persisted_prim Hok).
  - unfold exportData.
    keeps_split (stays_persisted h) ltac:(persisted_prim Hok).
  - unfold importData.
    keeps_split (stays_persisted h) ltac:(persisted_prim Hok).
  - unfold syncData.
    keeps_split (stays_persisted h) ltac:(persisted_prim Hok).
  - unfold simulateRealtimeActivity.
    keeps_split (stays_persisted h) ltac:(persisted_prim Hok).
Qed.

(** The first session on the sample board, then a task moved. *)
Lemma commands_keep_storage_in_step_witness :
  persisted Sample.host
    (exec (run Sample.host (MoveTask "task-2" "col-done"))
       (exec (initializeData Sample.host) Sample.uninitialised)).
Proof.
  apply (commands_keep_storage_in_step Sample.host
           (MoveTask "task-2" "col-done")).
  - intros ? ? ?. reflexivity.
  - vm_compute. discriminate.
  - vm_compute. repeat split; reflexivity.
Defined.

(** ** Commands without a current user *)

(** X16.  Without a current user a move is made and saved, and then fails: a
    [TypeError] ends it before the activity is recorded and before the
    notification is raised. *)
Theorem moveTask_without_user (h : Host) (w : World)
    (taskId newColumnId : string) (task : Task.t) (col : Column.t) :
  currentUser w = None →
  List.find (has_id Task.id taskId) (tasks w) = Some task →
  List.find (has_id Column.id newColumnId) (columns w) = Some col →
  ∃ w',
    moveTask h taskId newColumnId w = (Throw TypeError, w')
    ∧ tasks w'
      = update_first (has_id Task.id taskId)
          (Task.set_placement newColumnId (derived_status newColumnId)
             (toISOString h (clock h (clockReads w))))
          (tasks w)
    ∧ localStorage w'
      = write h "taskflow-tasks" (array_to_json Task.to_json (tasks w'))
          (localStorage w)
    ∧ activities w' = activities w
    ∧ notifications w' = notifications w.
Proof.
  intros Hu Ht Hc. unfold moveTask. rewrite run_gets. simpl.
  rewrite Ht, Hc. destruct w as [cu ts us cs acts fl ini ls ns fe ds n r].
  simpl in Hu. subst cu. eexists. split; [reflexivity|].
  repeat split.
Qed.

(** The sample board after its users were lost. *)
Lemma moveTask_without_user_witness :
  ∃ w',
    moveTask Sample.host "task-2" "col-done"
      (set_currentUser None Sample.world) = (Throw TypeError, w')
    ∧ Task.columnId <$> List.find (has_id Task.id "task-2") (tasks w')
      = Some "col-done"
    ∧ activities w' = [].
Proof.
  destruct (moveTask_without_user Sample.host
              (set_currentUser None Sample.world) "task-2" "col-done"
              Sample.task2
              (Column.mk "col-done" "Done" 4 "#10b981")
              eq_refl eq_refl eq_refl)
    as (w' & Hrun & Ht & _ & Ha & _).
  exists w'. split; [exact Hrun|]. split; [|exact Ha].
  rewrite Ht. reflexivity.
Defined.

(** X17.  Without a current user, saving an accepted form changes the task list
    in memory (the edit is applied, or the new task appended) and then
    fails: the storage is not written, nothing is recorded in the feed,
    and the notification says that saving failed. *)
Theorem saveTask_without_user (h : Host) (form : TaskForm) (w : World) :
  currentUser w = None → form_rejected h form w = false →
  (is_editing form = true →
   is_Some (List.find
              (has_id Task.id (default EmptyString (dataset_taskId form)))
              (tasks w))) →
  ∃ w',
    saveTask h (Some form) w = (Normal tt, w')
    ∧ tasks w'
      = (if is_editing form
         then update_first
                (has_id Task.id (default EmptyString (dataset_taskId form)))
                (λ task, TaskData.assign task (form_data h form w)) (tasks w)
         else tasks w ++ [created_task h form w])
    ∧ localStorage w' = localStorage w
    ∧ activities w' = activities w
    ∧ notifications w'
      = notifications w
        ++ [Notification.mk "Error" "Failed to save task. Please try again."
              "error"].
Proof.
  unfold form_rejected, is_editing. intros Hu Hok Hfound. unfold saveTask.
  rewrite run_now. erewrite run_bind by apply validateTaskForm_run.
  rewrite !clockReads_set. fold (form_data h form w) (form_today h w).
  rewrite (errors_of_empty _ _ _ Hok), map_size_empty.
  change (0 <? 0)%nat with false. cbv iota.
  unfold created_task, derived_status, tick_if.
  destruct w as [cu ts us cs acts fl ini ls ns fe ds n r].
  simpl in Hu. subst cu.
  destruct (JsString.truthy _);
    (destruct (match dataset_taskId form with
               | Some i => JsString.truthy i
               | None => false
               end);
     [ destruct (Hfound eq_refl) as [task Htask]; simpl in Htask;
       cbv [clearFormErrors try_catch gets modify mbind M_bind mret M_ret];
       simpl; rewrite Htask
     | ]);
    (eexists; split; [reflexivity|]); repeat split.
Qed.

(** The edit form of [task-2] saved on the sample board after its users
    were lost. *)
Lemma saveTask_without_user_witness :
  ∃ w',
    saveTask Sample.host (Some Sample.task2_to_done)
      (set_currentUser None Sample.world) = (Normal tt, w')
    ∧ Task.columnId <$> List.find (has_id Task.id "task-2") (tasks w')
      = Some "col-done"
    ∧ localStorage w' = ∅.
Proof.
  destruct (saveTask_without_user Sample.host Sample.task2_to_done
              (set_currentUser None Sample.world) eq_refl eq_refl)
    as (w' & Hrun & Ht & Hs & _).
  - intros _. eexists. reflexivity.
  - exists w'. split; [exact Hrun|]. split; [|exact Hs].
    rewrite Ht. reflexivity.
Defined.

(** ** Ids that are not there *)

(** X18.  A move of a task that does not exist, or to a column that does not
    exist, and the completion toggle of a task that does not exist do
    nothing at all: no change, no notification, no exception. *)
Theorem unknown_ids_are_ignored (h : Host) (w : World)
    (taskId columnId : string) :
  (List.find (has_id Task.id taskId) (tasks w) = None
   ∨ List.find (has_id Column.id columnId) (columns w) = None →
   moveTask h taskId columnId w = (Normal tt, w))
  ∧ (List.find (has_id Task.id taskId) (tasks w) = None →
     toggleTaskCompletion h taskId w = (Normal tt, w)).
Proof.
  split.
  - intros Hnone. unfold moveTask. rewrite run_gets. simpl.
    destruct Hnone as [-> | Hc]; [reflexivity|]. rewrite Hc.
    destruct (find _ (tasks w)); reflexivity.
  - apply toggleTaskCompletion_missing.
Qed.

(** X19.  Saving the edit form of a task that is no longer in the list (another
    tab removed it) reports nothing: no task is changed or added, no
    activity and no notification is made, the form is closed, and the
    task list is written to the storage as it is. *)
Theorem saveTask_edit_of_missing_task_is_silent (h : Host) (form : TaskForm)
    (w : World) (taskId : string) :
  dataset_taskId form = Some taskId → JsString.truthy taskId = true →
  form_rejected h form w = false →
  List.find (has_id Task.id taskId) (tasks w) = None →
  ∃ w',
    saveTask h (Some form) w = (Normal tt, w')
    ∧ tasks w' = tasks w
    ∧ activities w' = activities w
    ∧ notifications w' = notifications w
    ∧ formErrors w' = ∅
    ∧ localStorage w'
      = write h "taskflow-tasks" (array_to_json Task.to_json (tasks w))
          (localStorage w).
Proof.
  unfold form_rejected. intros Hid Htruthy Hok Hnone. unfold saveTask.
  rewrite run_now. erewrite run_bind by apply validateTaskForm_run.
  rewrite !clockReads_set. fold (form_data h form w) (form_today h w).
  rewrite (errors_of_empty _ _ _ Hok), map_size_empty.
  change (0 <? 0)%nat with false. cbv iota.
  rewrite Hid, Htruthy. unfold tick_if.
  destruct w as [cu ts us cs acts fl ini ls ns fe ds n r].
  simpl in Hnone.
  destruct (JsString.truthy (TaskData.dueDate _));
    cbv [clearFormErrors try_catch gets modify mbind M_bind mret M_ret];
    simpl; rewrite Hnone;
    (eexists; split; [reflexivity|]); repeat split.
Qed.

(** The edit form of a task [task-9] that the sample board does not
    have. *)
Lemma saveTask_edit_of_missing_task_is_silent_witness :
  ∃ w',
    saveTask Sample.host
      (Some (mkTaskForm (Some "task-9") (Some "Gone") (Some EmptyString)
               (Some "low") (Some EmptyString) (Some EmptyString)
               (Some "col-todo") (Some EmptyString)))
      Sample.world = (Normal tt, w')
    ∧ tasks w' = Sample.tasks
    ∧ notifications w' = [].
Proof.
  destruct (saveTask_edit_of_missing_task_is_silent Sample.host
              (mkTaskForm (Some "task-9") (Some "Gone") (Some EmptyString)
                 (Some "low") (Some EmptyString) (Some EmptyString)
                 (Some "col-todo") (Some EmptyString))
              Sample.world "task-9" eq_refl eq_refl eq_refl eq_refl)
    as (w' & Hrun & Ht & _ & Hn & _).
  exists w'. split; [exact Hrun|]. split; [exact Ht | exact Hn].
Defined.

(** ** Other tabs *)

(** X20.  The [storage] listener takes over tasks and activities only: whatever
    the event, columns, users, current user and this tab's view of the
    storage stay as they are, and an event for any other item, or for the
    whole storage being cleared, is ignored. *)
Theorem storageListener_watches_two_items (h : Host) (e : StorageEvent)
    (w : World) :
  let w' := exec (storageListener h e) w in
  columns w' = columns w ∧ users w' = users w
  ∧ currentUser w' = currentUser w ∧ localStorage w' = localStorage w
  ∧ (¬ watched e → storageListener h e w = (Normal tt, w)).
Proof.
  assert (Hframe : ∀ {B} (f : World → B),
            (∀ ts w0, f (set_tasks ts w0) = f w0) →
            (∀ acts w0, f (set_activities acts w0) = f w0) →
            (∀ ns w0, f (set_notifications ns w0) = f w0) →
            f (exec (storageListener h e) w) = f w).
  { intros B f Ht Ha Hn. unfold exec, storageListener, handleRealtimeUpdate.
    destruct (key_is e "taskflow-tasks" || key_is e "taskflow-activities");
      [|reflexivity].
    rewrite run_gets. simpl. destruct (isInitialized w); [|reflexivity].
    simpl. unfold try_catch, mbind, M_bind, parse, typed, modify,
      showNotification, renderCurrentView, renderActivityFeed, mret, M_ret.
    destruct (key_is e "taskflow-tasks"), (key_is e "taskflow-activities");
      repeat (match goal with
              | |- context [match ?x with _ => _ end] =>
                  lazymatch x with
                  | context [match _ with _ => _ end] => fail
                  | _ => destruct x
                  end
              end; simpl);
      repeat first [rewrite Hn | rewrite Ha | rewrite Ht];
      reflexivity. }
  intros w'. subst w'.
  repeat split; try (apply Hframe; intros; reflexivity).
  intros Hw. unfold storageListener, key_is, watched in *.
  destruct (key e) as [k|]; [|reflexivity].
  destruct (String.eqb_spec k "taskflow-tasks") as [Hk|_];
    [exfalso; apply Hw; left; congruence|].
  destruct (String.eqb_spec k "taskflow-activities") as [Hk|_];
    [exfalso; apply Hw; right; congruence|].
  reflexivity.
Qed.

(** X21.  When another tab removes the tasks item, the event carries no new
    value and the task list of an initialised tab becomes empty. *)
Theorem storageListener_removal_empties_tasks (h : Host) (e : StorageEvent)
    (w : World) :
  isInitialized w = true → JSON_parse h "[]" = Some (JArr []) →
  key e = Some "taskflow-tasks" → newValue e = None →
  storageListener h e w
  = (Normal tt,
     set_notifications (notifications w ++ [tasks_updated]) (set_tasks [] w)).
Proof.
  intros Hinit Hparse Hkey Hnew.
  unfold storageListener, handleRealtimeUpdate, key_is. rewrite Hkey. simpl.
  rewrite run_gets. simpl. rewrite Hinit. simpl.
  unfold try_catch, mbind, M_bind, parse. rewrite Hnew. simpl.
  rewrite Hparse. reflexivity.
Qed.

(** The tasks item removed while the sample application is open. *)
Lemma storageListener_removal_empties_tasks_witness :
  tasks (exec (storageListener Sample.host
                 (mkStorageEvent (Some "taskflow-tasks") None))
           Sample.world) = [].
Proof.
  unfold exec.
  rewrite (storageListener_removal_empties_tasks Sample.host
             (mkStorageEvent (Some "taskflow-tasks") None) Sample.world
             eq_refl eq_refl eq_refl eq_refl).
  reflexivity.
Defined.

(** ** Import *)

(** X22.  A file that is not JSON, or that holds [null], is turned down: the
    failure is announced and nothing else changes. *)
Theorem importData_failure_changes_nothing (h : Host) (text : string)
    (w : World) :
  JSON_parse h text = None ∨ JSON_parse h text = Some JNull →
  importData h text w
  = (Normal tt, set_notifications (notifications w ++ [import_failed]) w).
Proof.
  intros [Hparse|Hparse]; unfold importData, try_catch, mbind, M_bind, parse;
    rewrite Hparse; reflexivity.
Qed.

(** A file cut short. *)
Lemma importData_failure_changes_nothing_witness :
  importData Sample.host "{" Sample.world
  = (Normal tt,
     set_notifications (notifications Sample.world ++ [import_failed])
       Sample.world).
Proof.
  apply (importData_failure_changes_nothing Sample.host "{" Sample.world).
  left. reflexivity.
Defined.

(** X23.  A file that is JSON but holds none of the three collections as an
    array (an empty object, a number, a text) is reported as imported
    successfully, and nothing is imported. *)
Theorem importData_of_nothing_succeeds (h : Host) (text : string)
    (v : json) (w : World) :
  JSON_parse h text = Some v → v ≠ JNull →
  no_array v "tasks" → no_array v "columns" → no_array v "users" →
  importData h text w
  = (Normal tt, set_notifications (notifications w ++ [import_successful]) w).
Proof.
  intros Hparse Hnull Ht Hc Hu.
  unfold importData, try_catch, mbind at 1, M_bind at 1, parse.
  rewrite Hparse. unfold no_array in *.
  destruct v as [| | | | |o]; try reflexivity; [congruence|].
  unfold get_prop, mbind, M_bind, mret, M_ret.
  destruct (prop "tasks" o) as [[| | | | |]|]; try contradiction;
    destruct (prop "columns" o) as [[| | | | |]|]; try contradiction;
    destruct (prop "users" o) as [[| | | | |]|]; try contradiction;
    reflexivity.
Qed.

(** An empty object as the file. *)
Lemma importData_of_nothing_succeeds_witness :
  importData Sample.host "{}" Sample.world
  = (Normal tt,
     set_notifications (notifications Sample.world ++ [import_successful])
       Sample.world).
Proof.
  apply (importData_of_nothing_succeeds Sample.host "{}" (JObj [])
           Sample.world);
    [reflexivity | discriminate | exact I | exact I | exact I].
Defined.

(** X24.  An import never touches the activity feed, although the export writes
    it to the file, and never changes the current user, also when it
    replaces the users. *)
Theorem importData_leaves_feed_and_user (h : Host) (text : string)
    (w : World) :
  activities (exec (importData h text) w) = activities w
  ∧ currentUser (exec (importData h text) w) = currentUser w.
Proof.
  assert (Hframe : ∀ {B} (f : World → B),
            (∀ x w0, f (set_tasks x w0) = f w0) →
            (∀ x w0, f (set_columns x w0) = f w0) →
            (∀ x w0, f (set_users x w0) = f w0) →
            (∀ x w0, f (set_localStorage x w0) = f w0) →
            (∀ x w0, f (set_notifications x w0) = f w0) →
            preserves f (importData h text)).
  { intros B f Ht Hc Hu Hs Hn. unfold importData.
    assert (Hsave : ∀ k v, preserves f (saveToStorage h k v))
      by (intros k v w0; unfold exec, saveToStorage, modify; simpl;
          apply Hs).
    assert (Hnote : ∀ a b c, preserves f (showNotification a b c))
      by (intros a b c w0; unfold exec, showNotification, modify; simpl;
          apply Hn).
    assert (Hget : ∀ v k, preserves f (get_prop v k))
      by (intros v k w0; rewrite exec_get_prop; reflexivity).
    assert (Htyped : ∀ A (x : option A), preserves f (typed x))
      by (intros A x w0; rewrite exec_typed; reflexivity).
    apply preserves_try_catch; [|intros ?; apply Hnote].
    apply preserves_bind;
      [intros w0; rewrite exec_parse; reflexivity | intros v].
    repeat (apply preserves_bind; [| intros ?]);
      try apply Hget; try apply Hnote; try apply preserves_ret;
      repeat match goal with
             | |- preserves _ (match ?x with _ => _ end) => destruct x
             end;
      try apply preserves_ret;
      repeat (apply preserves_bind; [| intros ?]);
      try apply Htyped;
      try (intros w0; unfold exec, modify; simpl; auto; fail);
      unfold save_tasks, save_columns, save_users;
      (apply preserves_bind; [intros w0; reflexivity | intros ?]);
      apply Hsave. }
  split; apply Hframe; intros; reflexivity.
Qed.

(** ** Status and column *)

(** X25.  Every command but the edit of a task and an import keeps each task's
    status that of its column. *)
Theorem lockstep_is_kept (h : Host) (c : Command) (w : World) :
  may_edit c = false →
  Forall lockstep (tasks w) → Forall lockstep (tasks (exec (run h c) w)).
Proof.
  intros Hc Hall.
  destruct c as [taskId col|dragged col|taskId|[form|]|name| |text| |pick];
    try discriminate; unfold run.
  - apply moveTask_lockstep, Hall.
  - unfold drop. destruct dragged as [d|]; [|exact Hall].
    destruct (negb _); [apply moveTask_lockstep, Hall | exact Hall].
  - apply toggleTaskCompletion_lockstep, Hall.
  - apply saveTask_create_lockstep; [exact Hc | exact Hall].
  - exact Hall.
  - assert (H : preserves tasks (addColumn h name)).
    { unfold addColumn. destruct name as [name|]; [|frame].
      destruct (_ && _); frame. }
    rewrite H. exact Hall.
  - assert (H : preserves tasks (exportData h))
      by (unfold exportData; frame).
    rewrite H. exact Hall.
  - assert (H : preserves tasks (syncData h)) by (unfold syncData; frame).
    rewrite H. exact Hall.
  - assert (H : preserves tasks (simulateRealtimeActivity h pick))
      by (unfold simulateRealtimeActivity; frame).
    rewrite H. exact Hall.
Qed.

(** The second sample task moved to the last column. *)
Lemma lockstep_is_kept_witness :
  Forall lockstep
    (tasks (exec (run Sample.host (MoveTask "task-2" "col-done"))
              Sample.world)).
Proof.
  apply (lockstep_is_kept Sample.host (MoveTask "task-2" "col-done")).
  - reflexivity.
  - repeat constructor.
Defined.

(** X26.  A move reaches one task only, the first in the list that carries the
    id, also when several tasks carry it; the tasks before and after it are
    left as they are, in their places. *)
Theorem moveTask_moves_the_first_match (h : Host) (w : World)
    (taskId newColumnId : string) (task : Task.t) (col : Column.t) :
  List.find (has_id Task.id taskId) (tasks w) = Some task →
  List.find (has_id Column.id newColumnId) (columns w) = Some col →
  ∃ before after,
    tasks w = before ++ task :: after
    ∧ Forall (λ x, Task.id x ≠ taskId) before
    ∧ tasks (exec (moveTask h taskId newColumnId) w)
      = before
        ++ Task.set_placement newColumnId (derived_status newColumnId)
             (toISOString h (clock h (clockReads w))) task
        :: after.
Proof.
  intros Ht Hc. rewrite (moveTask_found h w taskId newColumnId task col Ht Hc).
  destruct (update_first_split (has_id Task.id taskId)
              (Task.set_placement newColumnId (derived_status newColumnId)
                 (toISOString h (clock h (clockReads w))))
              (tasks w) task Ht) as (l1 & l2 & Hl & Hu & Hn).
  exists l1, l2. split; [exact Hl|]. split; [|exact Hu].
  clear -Hn. induction l1 as [|x l1 IH]; [constructor|].
  simpl in Hn. destruct (has_id Task.id taskId x) eqn:Hx; [discriminate|].
  constructor; [|apply IH, Hn].
  unfold has_id in Hx. apply String.eqb_neq in Hx. exact Hx.
Qed.

(** A board on which two tasks carry the id [task-2]. *)
Lemma moveTask_moves_the_first_match_witness :
  Task.columnId <$>
    tasks (exec (moveTask Sample.host "task-2" "col-done")
             (set_tasks [Sample.task2; Sample.task2] Sample.world))
  = ["col-done"; "col-todo"].
Proof.
  destruct (moveTask_moves_the_first_match Sample.host
              (set_tasks [Sample.task2; Sample.task2] Sample.world)
              "task-2" "col-done" Sample.task2
              (Column.mk "col-done" "Done" 4 "#10b981") eq_refl eq_refl)
    as (before & after & Hsplit & Hbefore & ->).
  destruct before as [|x before].
  - injection Hsplit as <-. reflexivity.
  - exfalso. injection Hsplit as <- _.
    inversion Hbefore as [|? ? Hx _]. apply Hx. reflexivity.
Defined.

(** X27.  Toggling completion twice does not undo itself unless the task was in
    [col-todo] with status [todo] or in [col-done] with status [done]: a
    task that was not done ends in [col-todo] with status [todo], whatever
    its column and status were; a task that was done ends done in
    [col-done]. *)
Theorem toggleTaskCompletion_twice (h : Host) (w : World) (taskId : string)
    (task : Task.t) :
  List.find (has_id Task.id taskId) (tasks w) = Some task →
  let w1 := exec (toggleTaskCompletion h taskId) w in
  let w2 := exec (toggleTaskCompletion h taskId) w1 in
  ∃ task2,
    List.find (has_id Task.id taskId) (tasks w2) = Some task2
    ∧ Task.status task2
      = (if String.eqb (Task.status task) "done" then "done" else "todo")
    ∧ Task.columnId task2
      = (if String.eqb (Task.status task) "done" then "col-done"
         else "col-todo")
    ∧ length (tasks w2) = length (tasks w).
Proof.
  intros Hfind w1 w2.
  assert (H1 : List.find (has_id Task.id taskId) (tasks w1)
               = Some (Task.set_placement
                         (if String.eqb (Task.status task) "done"
                          then "col-todo" else "col-done")
                         (if String.eqb (Task.status task) "done"
                          then "todo" else "done")
                         (toISOString h (clock h (clockReads w))) task)).
  { unfold w1. rewrite (toggleTaskCompletion_tasks h w taskId task Hfind).
    rewrite find_update_first by (intros x Hx; exact Hx).
    rewrite Hfind. reflexivity. }
  eexists. split; [|split; [|split]].
  - unfold w2. rewrite (toggleTaskCompletion_tasks h w1 taskId _ H1).
    rewrite find_update_first by (intros x Hx; exact Hx).
    rewrite H1. reflexivity.
  - simpl. destruct (String.eqb (Task.status task) "done"); reflexivity.
  - simpl. destruct (String.eqb (Task.status task) "done"); reflexivity.
  - unfold w2. rewrite (toggleTaskCompletion_tasks h w1 taskId _ H1).
    unfold w1. rewrite (toggleTaskCompletion_tasks h w taskId task Hfind).
    assert (Hlen : ∀ (f : Task.t → Task.t) l,
              length (update_first (has_id Task.id taskId) f l) = length l).
    { intros f l. induction l as [|x l IH]; [reflexivity|]. simpl.
      destruct (has_id Task.id taskId x); simpl; congruence. }
    rewrite !Hlen. reflexivity.
Qed.

(** The first sample task, in progress, toggled twice: it ends in
    [col-todo]. *)
Lemma toggleTaskCompletion_twice_witness :
  ∃ task2,
    List.find (has_id Task.id "task-1")
      (tasks (exec (toggleTaskCompletion Sample.host "task-1")
                (exec (toggleTaskCompletion Sample.host "task-1")
                   Sample.world)))
    = Some task2
    ∧ Task.status task2 = "todo" ∧ Task.columnId task2 = "col-todo".
Proof.
  destruct (toggleTaskCompletion_twice Sample.host Sample.world "task-1"
              (default Sample.task2 (head Sample.tasks)) eq_refl)
    as (task2 & Hfind & Hs & Hc & _).
  exists task2. split; [exact Hfind|]. split; [exact Hs | exact Hc].
Defined.

(** ** Ids *)

(** X28.  A task's id is made of the clock reading alone: on a clock too coarse
    to tell two readings apart, two tasks created one after the other get
    the same id. *)
Theorem saveTask_ids_collide_on_a_coarse_clock (h : Host)
    (form1 form2 : TaskForm) (w : World) :
  (∀ k, clock h k = clock h 0) →
  is_editing form1 = false → is_editing form2 = false →
  let w1 := exec (saveTask h (Some form1)) w in
  let w2 := exec (saveTask h (Some form2)) w1 in
  form_rejected h form1 w = false → form_rejected h form2 w1 = false →
  ∃ task1 task2,
    tasks w2 = tasks w ++ [task1; task2]
    ∧ Task.id task1 = Task.id task2.
Proof.
  intros Hclock Hnew1 Hnew2 w1 w2 Hok1 Hok2.
  exists (created_task h form1 w), (created_task h form2 w1).
  split.
  - unfold w2. rewrite (saveTask_create_tasks h form2 w1 Hnew2 Hok2).
    unfold w1 at 1. rewrite (saveTask_create_tasks h form1 w Hnew1 Hok1).
    rewrite <- app_assoc. reflexivity.
  - unfold created_task. simpl.
    rewrite (Hclock (clockReads (tick_if _ (set_clockReads _ w)))).
    rewrite (Hclock (clockReads (tick_if _ (set_clockReads _ w1)))).
    reflexivity.
Qed.

(** Two tasks added on the sample board under the frozen clock. *)
Lemma saveTask_ids_collide_on_a_coarse_clock_witness :
  let w1 :=
    exec (saveTask Sample.frozen_host (Some (Sample.new_form "One")))
      Sample.world in
  let w2 :=
    exec (saveTask Sample.frozen_host (Some (Sample.new_form "Two"))) w1 in
  ∃ task1 task2,
    tasks w2 = Sample.tasks ++ [task1; task2]
    ∧ Task.id task1 = Task.id task2.
Proof.
  apply (saveTask_ids_collide_on_a_coarse_clock Sample.frozen_host
           (Sample.new_form "One") (Sample.new_form "Two") Sample.world);
    reflexivity.
Defined.

(** ** The edit form *)

Lemma or_default_some (s : string) :
  JsString.or_default (Some s) EmptyString = s.
Proof. destruct s; reflexivity. Qed.

Lemma or_default_option (o : option string) :
  JsString.or_default o EmptyString = default EmptyString o.
Proof. destruct o as [[|c s]|]; reflexivity. Qed.

Lemma or_default_nonempty (s d : string) :
  s ≠ EmptyString → JsString.or_default (Some s) d = s.
Proof. destruct s; [congruence | reflexivity]. Qed.

Lemma select_value_offered (options : list string) (value : string) :
  In value options → select_value options value = value.
Proof.
  intros Hin. unfold select_value.
  replace (existsb (String.eqb value) options) with true; [reflexivity|].
  symmetry. apply existsb_exists. exists value.
  split; [exact Hin | apply String.eqb_refl].
Qed.

(** X29.  Opening a tidy task in the edit form and saving the form as it
    is leaves the task as it was, but for [updatedAt], which takes the
    reading of the clock, and for a description, assignee or due date the
    task did not have, which become empty texts; provided the column
    select has an option for the task's column and the assignee select
    one for its assignee (the empty option, for a task without
    assignee). *)
Theorem edit_without_changes (h : Host)
    (column_options assignee_options : list string)
    (blank form0 : TaskForm) (w : World) (task : Task.t) :
  List.find (has_id Task.id (Task.id task)) (tasks w) = Some task →
  Task.id task ≠ EmptyString → complete form0 → tidy task →
  In (Task.columnId task) column_options →
  In (default EmptyString (Task.assigneeId task)) assignee_options →
  ∃ form,
    openTaskModal column_options assignee_options blank
      (Some (Task.id task)) form0 w
    = (Normal form, w)
    ∧ (form_rejected h form w = false →
       List.find (has_id Task.id (Task.id task))
         (tasks (exec (saveTask h (Some form)) w))
       = Some (resaved task (toISOString h (clock h (clockReads w))))).
Proof.
  intros Hfind Hid Hform (Htitle & Hdesc & Hprio & Hcol & Htags)
    Hcolumn Hassignee.
  apply truthy_true in Hid.
  unfold openTaskModal. rewrite Hid, run_gets.
  change (default EmptyString (Some (Task.id task))) with (Task.id task).
  rewrite Hfind. eexists. split; [reflexivity|]. intros Hok.
  rewrite (saveTask_edit_tasks h _ w (Task.id task));
    [| reflexivity | exact Hid | exact Hok].
  rewrite find_update_first by (intros x Hx; exact Hx).
  rewrite Hfind. cbn [fmap option_fmap option_map]. f_equal.
  unfold form_data.
  assert (Ht : TaskData.tags
                 (taskData_of_form h
                    (populateTaskForm column_options assignee_options task
                       form0)
                    (clock h (clockReads w)))
               = Task.tags task).
  { apply tags_round_trip; [|exact Htags].
    destruct Hform as (_ & _ & _ & _ & _ & _ & [x Hx]). congruence. }
  destruct Hform as ([? H1] & [? H2] & [? H3] & [? H4] & [? H5] & [? H6]
                     & [? H7]).
  unfold TaskData.assign, resaved, taskData_of_form, populateTaskForm in *.
  rewrite H1, H2, H3, H4, H5, H6, H7 in *.
  cbn [task_title task_description task_priority task_assignee task_due_date
       task_column task_tags TaskData.title TaskData.description
       TaskData.priority TaskData.assigneeId TaskData.dueDate
       TaskData.columnId TaskData.tags TaskData.updatedAt] in *.
  rewrite Ht.
  rewrite !or_default_some, !or_default_option, Htitle.
  rewrite !(or_default_nonempty _ _ Hprio).
  rewrite (or_default_nonempty _ "col-backlog" Hcol).
  rewrite (select_value_offered _ _ Hcolumn),
    (select_value_offered _ _ Hassignee).
  rewrite (or_default_nonempty _ "col-backlog" Hcol).
  assert (Hd : JsString.trim (default EmptyString (Task.description task))
               = default EmptyString (Task.description task)).
  { destruct (Task.description task) as [d|]; [apply Hdesc|]; reflexivity. }
  rewrite Hd. reflexivity.
Qed.

(** The second sample task opened and saved as it is, the selects holding
    the options [renderFilters] gives them on the sample board. *)
Lemma edit_without_changes_witness :
  ∃ form,
    openTaskModal (renderFilters_column_options Sample.world)
      (renderFilters_assignee_options Sample.world)
      (Sample.new_form EmptyString) (Some "task-2")
      (Sample.new_form EmptyString) Sample.world
    = (Normal form, Sample.world)
    ∧ List.find (has_id Task.id "task-2")
        (tasks (exec (saveTask Sample.host (Some form)) Sample.world))
      = Some (resaved Sample.task2 "2025-08-03T00:00:00.000Z").
Proof.
  destruct (edit_without_changes Sample.host
              (renderFilters_column_options Sample.world)
              (renderFilters_assignee_options Sample.world)
              (Sample.new_form EmptyString)
              (Sample.new_form EmptyString) Sample.world Sample.task2)
    as (form & Hopen & Hsave).
  - reflexivity.
  - discriminate.
  - repeat split; eexists; reflexivity.
  - split; [reflexivity|]. split; [intros d [= <-]; reflexivity|].
    split; [discriminate|]. split; [discriminate|].
    constructor; [|constructor; [|constructor]];
      (split; [discriminate|]); (split; [reflexivity|]);
      unfold comma_free; simpl; intuition discriminate.
  - simpl. tauto.
  - simpl. tauto.
  - exists form. split; [exact Hopen|]. apply Hsave.
    vm_compute in Hopen. injection Hopen as <-. reflexivity.
Defined.

(** ** The record of a move *)

(** X30.  A move by a current user is recorded and announced once: one activity
    of type [task_moved] is put at the front of the feed, carrying the
    user's id, the task's id, the time of a later reading of the clock and
    a message that names the column the task came from ([undefined] when
    the board has no such column) and the one it went to; one success
    notification is added; the move ends normally. *)
Theorem moveTask_records_the_move (h : Host) (w : World)
    (taskId newColumnId : string) (task : Task.t) (col : Column.t)
    (u : User.t) :
  currentUser w = Some u →
  List.find (has_id Task.id taskId) (tasks w) = Some task →
  List.find (has_id Column.id newColumnId) (columns w) = Some col →
  ∃ w' activity,
    moveTask h taskId newColumnId w = (Normal tt, w')
    ∧ activities w' = activity :: activities w
    ∧ Activity.type activity = "task_moved"
    ∧ Activity.userId activity = User.id u
    ∧ Activity.taskId activity = Some taskId
    ∧ Activity.id activity
      = "activity-" +:+ pretty (clock h (S (clockReads w)))
    ∧ Activity.timestamp activity
      = toISOString h (clock h (S (S (clockReads w))))
    ∧ Activity.message activity
      = User.name u +:+ " moved " +:+ dq +:+ Task.title task +:+ dq +:+
        " from " +:+
        match List.find (has_id Column.id (Task.columnId task)) (columns w)
        with
        | Some old => Column.name old
        | None => "undefined"
        end +:+ " to " +:+ Column.name col
    ∧ notifications w'
      = notifications w
        ++ [Notification.mk "Task Moved"
              (dq +:+ Task.title task +:+ dq +:+ " moved to " +:+
               Column.name col) "success"].
Proof.
  intros Hu Ht Hc. unfold moveTask. rewrite run_gets. simpl.
  rewrite Ht, Hc. destruct w as [cu ts us cs acts fl ini ls ns fe ds n r].
  simpl in Hu. subst cu. eexists. eexists. split; [reflexivity|].
  simpl. repeat split.
  destruct (find (has_id Column.id (Task.columnId task)) cs); reflexivity.
Qed.

(** The first sample task moved to a column, on a board that has lost the
    column the task is in. *)
Lemma moveTask_records_the_move_witness :
  ∃ w' activity,
    moveTask Sample.host "task-2" "col-done"
      (set_columns [Column.mk "col-done" "Done" 4 "#10b981"] Sample.world)
    = (Normal tt, w')
    ∧ activities w' = [activity]
    ∧ Activity.message activity
      = "Deepanshu moved " +:+ dq +:+ "API Integration" +:+ dq +:+
        " from undefined to Done".
Proof.
  destruct (moveTask_records_the_move Sample.host
              (set_columns [Column.mk "col-done" "Done" 4 "#10b981"]
                 Sample.world)
              "task-2" "col-done" Sample.task2
              (Column.mk "col-done" "Done" 4 "#10b981")
              (User.mk "user-1" "Deepanshu" "Deepanshu@company.com" "DC"
                 "Designer" true "#1FB8CD")
              eq_refl eq_refl eq_refl)
    as (w' & activity & Hrun & Ha & _ & _ & _ & _ & _ & Hm & _).
  exists w', activity. split; [exact Hrun|]. split; [exact Ha | exact Hm].
Defined.
